(** * The NET component of the MPP runtime: a shallow embedding

    Sources embedded here:
    - [Component.hpp] (template [mpp::Component<Derived>]): sockets,
      [commit], [send_json], [reply_json], [poll_socket], [run];
    - [Belief.hpp]: the [Belief] record;
    - [Net.hpp] / [Net.cpp]: [NetRegisters], [parse_mac], the lifecycle
      helpers, [do_tx], [do_rx], [serialize_registers], [apply_snapshot].

    The operating system, nlohmann::json, libnet and libpcap are outside the
    repository.  What they answer is read from a [World] record, and what the
    program hands to them (datagrams, link frames) is logged there. *)

From Stdlib Require Import ZArith String Ascii List Bool Lia.
Import ListNotations.
Local Open Scope string_scope.
Local Open Scope list_scope.
Local Open Scope Z_scope.

(** ** JSON documents (nlohmann::ordered_json)

    An object keeps its members in insertion order.  [JNum n] is a number
    the library holds in one of its two integer kinds, that is a literal
    without fraction or exponent between -2^63 and 2^64 - 1; any other
    number it holds as a double, which this development leaves out. *)

Set Warnings "-register-all".
Inductive json : Type :=
| JNull
| JBool (b : bool)
| JNum (n : Z)
| JStr (s : string)
| JArr (items : list json)
| JObj (members : list (string * json)).

(** The library signals a wrong value kind with [json::type_error]; nothing in
    the component catches it, so it ends the process. *)
Inductive exception : Type :=
| type_error (id : Z).

Inductive Result (A : Type) : Type :=
| Ok (a : A)
| Throw (e : exception).
Arguments Ok {A} a.
Arguments Throw {A} e.

Definition bind {A B : Type} (m : Result A) (k : A -> Result B) : Result B :=
  match m with
  | Ok a => k a
  | Throw e => Throw e
  end.

Notation "x <- m ;; k" := (bind m (fun x => k))
  (at level 61, m at next level, right associativity).

Fixpoint find_member (key : string) (ms : list (string * json)) : option json :=
  match ms with
  | [] => None
  | (k, v) :: rest => if String.eqb k key then Some v else find_member key rest
  end.

(** [j.contains(key)]: false on anything that is not an object. *)
Definition contains (j : json) (key : string) : bool :=
  match j with
  | JObj ms => match find_member key ms with Some _ => true | None => false end
  | _ => false
  end.

(** [j[key]] on a const document, used only behind [contains]. *)
Definition at_key (j : json) (key : string) : json :=
  match j with
  | JObj ms => match find_member key ms with Some v => v | None => JNull end
  | _ => JNull
  end.

Definition get_bool (v : json) : Result bool :=
  match v with
  | JBool b => Ok b
  | _ => Throw (type_error 302)
  end.

Definition get_string (v : json) : Result string :=
  match v with
  | JStr s => Ok s
  | _ => Throw (type_error 302)
  end.

(** Conversion to an arithmetic type other than bool accepts numbers and
    booleans and then casts. *)
Definition get_number (v : json) : Result Z :=
  match v with
  | JNum n => Ok n
  | JBool b => Ok (if b then 1 else 0)
  | _ => Throw (type_error 302)
  end.

Definition cast_int (n : Z) : Z := (n + 2 ^ 31) mod 2 ^ 32 - 2 ^ 31.
Definition cast_uint8 (n : Z) : Z := n mod 2 ^ 8.
Definition cast_uint16 (n : Z) : Z := n mod 2 ^ 16.
Definition cast_uint32 (n : Z) : Z := n mod 2 ^ 32.

Definition get_int (v : json) : Result Z := n <- get_number v ;; Ok (cast_int n).
Definition get_uint8 (v : json) : Result Z := n <- get_number v ;; Ok (cast_uint8 n).
Definition get_uint16 (v : json) : Result Z := n <- get_number v ;; Ok (cast_uint16 n).

(** [j.value(key, dflt)] at type bool: the default when the key is absent,
    error 306 when [j] is not an object. *)
Definition value (j : json) (key : string) (dflt : bool) : Result bool :=
  match j with
  | JObj ms =>
      match find_member key ms with
      | Some v => get_bool v
      | None => Ok dflt
      end
  | _ => Throw (type_error 306)
  end.

(** ** nlohmann::json

    [Belief::context] is a [nlohmann::json], not an ordered one: its objects
    are a [std::map], which holds one member per key, in the order of the
    keys ([std::less] on the bytes).  Storing an ordered document in it
    converts the document, member by member and at every depth. *)

(** [std::map::insert]: a key the map has already keeps its member. *)
Fixpoint insert_member (key : string) (v : json) (ms : list (string * json))
  : list (string * json) :=
  match ms with
  | [] => [(key, v)]
  | (k, x) :: rest =>
      match String.compare key k with
      | Lt => (key, v) :: ms
      | Eq => ms
      | Gt => (k, x) :: insert_member key v rest
      end
  end.

Fixpoint json_of_ordered (j : json) : json :=
  match j with
  | JArr items => JArr (map json_of_ordered items)
  | JObj members =>
      JObj (fold_left
              (fun acc kv => let '(k, v) := kv in insert_member k (json_of_ordered v) acc)
              members [])
  | _ => j
  end.

(** ** Belief.hpp *)

Record Belief : Type := mkBelief {
  component : string;
  subject : string;
  polarity : bool;
  context : json
}.

(** ** Net.hpp: the register file *)

Definition ETHERTYPE_IP : Z := 0x0800.
Definition ICMP_ECHO : Z := 8.

Record NetRegisters : Type := mkNetRegisters {
  (* Identity *)
  sba : Z;
  (* Lifecycle *)
  libnet_create : bool;
  libnet_destroy : bool;
  pcap_create : bool;
  pcap_destroy : bool;
  (* TX / RX triggers *)
  tx_fire : bool;
  rx_fire : bool;
  (* Devices *)
  libnet_device : string;
  pcap_device : string;
  (* PCAP configuration *)
  snaplen : Z;
  promisc : bool;
  timeout_ms : Z;
  pcap_filter : string;
  pcap_set_filter : bool;
  (* Ethernet *)
  eth_enabled : bool;
  eth_src_mac : string;
  eth_dst_mac : string;
  eth_type : Z;
  (* IPv4 *)
  ip4_enabled : bool;
  ip4_src : string;
  ip4_dst : string;
  ip4_ttl : Z;
  (* ICMPv4 *)
  icmp4_enabled : bool;
  icmp4_type : Z;
  icmp4_code : Z;
  icmp4_id : Z;
  icmp4_seq : Z;
  icmp4_payload : string;
  (* RX status *)
  rx_done : bool;
  rx_len : Z;
  rx_caplen : Z;
  (* TX status *)
  tx_done : bool;
  (* Errors *)
  last_error : string
}.

(** The member initialisers of [struct NetRegisters]. *)
Definition default_registers : NetRegisters :=
  mkNetRegisters 0 false false false false false false "eno1" "eno1"
    65535 true 10 "" false
    false "" "" ETHERTYPE_IP
    false "" "" 64
    false ICMP_ECHO 0 0x1234 0 ""
    false 0 0 false "".

(** Assignment to one member. *)
Definition set_sba (v : Z) (r : NetRegisters) : NetRegisters :=
  mkNetRegisters v (libnet_create r) (libnet_destroy r) (pcap_create r)
    (pcap_destroy r) (tx_fire r) (rx_fire r) (libnet_device r) (pcap_device r)
    (snaplen r) (promisc r) (timeout_ms r) (pcap_filter r) (pcap_set_filter r)
    (eth_enabled r) (eth_src_mac r) (eth_dst_mac r) (eth_type r) (ip4_enabled
    r) (ip4_src r) (ip4_dst r) (ip4_ttl r) (icmp4_enabled r) (icmp4_type r)
    (icmp4_code r) (icmp4_id r) (icmp4_seq r) (icmp4_payload r) (rx_done r)
    (rx_len r) (rx_caplen r) (tx_done r) (last_error r).

Definition set_libnet_device (v : string) (r : NetRegisters) : NetRegisters :=
  mkNetRegisters (sba r) (libnet_create r) (libnet_destroy r) (pcap_create r)
    (pcap_destroy r) (tx_fire r) (rx_fire r) v (pcap_device r) (snaplen r)
    (promisc r) (timeout_ms r) (pcap_filter r) (pcap_set_filter r)
    (eth_enabled r) (eth_src_mac r) (eth_dst_mac r) (eth_type r) (ip4_enabled
    r) (ip4_src r) (ip4_dst r) (ip4_ttl r) (icmp4_enabled r) (icmp4_type r)
    (icmp4_code r) (icmp4_id r) (icmp4_seq r) (icmp4_payload r) (rx_done r)
    (rx_len r) (rx_caplen r) (tx_done r) (last_error r).

Definition set_pcap_device (v : string) (r : NetRegisters) : NetRegisters :=
  mkNetRegisters (sba r) (libnet_create r) (libnet_destroy r) (pcap_create r)
    (pcap_destroy r) (tx_fire r) (rx_fire r) (libnet_device r) v (snaplen r)
    (promisc r) (timeout_ms r) (pcap_filter r) (pcap_set_filter r)
    (eth_enabled r) (eth_src_mac r) (eth_dst_mac r) (eth_type r) (ip4_enabled
    r) (ip4_src r) (ip4_dst r) (ip4_ttl r) (icmp4_enabled r) (icmp4_type r)
    (icmp4_code r) (icmp4_id r) (icmp4_seq r) (icmp4_payload r) (rx_done r)
    (rx_len r) (rx_caplen r) (tx_done r) (last_error r).

Definition set_snaplen (v : Z) (r : NetRegisters) : NetRegisters :=
  mkNetRegisters (sba r) (libnet_create r) (libnet_destroy r) (pcap_create r)
    (pcap_destroy r) (tx_fire r) (rx_fire r) (libnet_device r) (pcap_device r)
    v (promisc r) (timeout_ms r) (pcap_filter r) (pcap_set_filter r)
    (eth_enabled r) (eth_src_mac r) (eth_dst_mac r) (eth_type r) (ip4_enabled
    r) (ip4_src r) (ip4_dst r) (ip4_ttl r) (icmp4_enabled r) (icmp4_type r)
    (icmp4_code r) (icmp4_id r) (icmp4_seq r) (icmp4_payload r) (rx_done r)
    (rx_len r) (rx_caplen r) (tx_done r) (last_error r).

Definition set_promisc (v : bool) (r : NetRegisters) : NetRegisters :=
  mkNetRegisters (sba r) (libnet_create r) (libnet_destroy r) (pcap_create r)
    (pcap_destroy r) (tx_fire r) (rx_fire r) (libnet_device r) (pcap_device r)
    (snaplen r) v (timeout_ms r) (pcap_filter r) (pcap_set_filter r)
    (eth_enabled r) (eth_src_mac r) (eth_dst_mac r) (eth_type r) (ip4_enabled
    r) (ip4_src r) (ip4_dst r) (ip4_ttl r) (icmp4_enabled r) (icmp4_type r)
    (icmp4_code r) (icmp4_id r) (icmp4_seq r) (icmp4_payload r) (rx_done r)
    (rx_len r) (rx_caplen r) (tx_done r) (last_error r).

Definition set_timeout_ms (v : Z) (r : NetRegisters) : NetRegisters :=
  mkNetRegisters (sba r) (libnet_create r) (libnet_destroy r) (pcap_create r)
    (pcap_destroy r) (tx_fire r) (rx_fire r) (libnet_device r) (pcap_device r)
    (snaplen r) (promisc r) v (pcap_filter r) (pcap_set_filter r) (eth_enabled
    r) (eth_src_mac r) (eth_dst_mac r) (eth_type r) (ip4_enabled r) (ip4_src
    r) (ip4_dst r) (ip4_ttl r) (icmp4_enabled r) (icmp4_type r) (icmp4_code r)
    (icmp4_id r) (icmp4_seq r) (icmp4_payload r) (rx_done r) (rx_len r)
    (rx_caplen r) (tx_done r) (last_error r).

Definition set_pcap_filter (v : string) (r : NetRegisters) : NetRegisters :=
  mkNetRegisters (sba r) (libnet_create r) (libnet_destroy r) (pcap_create r)
    (pcap_destroy r) (tx_fire r) (rx_fire r) (libnet_device r) (pcap_device r)
    (snaplen r) (promisc r) (timeout_ms r) v (pcap_set_filter r) (eth_enabled
    r) (eth_src_mac r) (eth_dst_mac r) (eth_type r) (ip4_enabled r) (ip4_src
    r) (ip4_dst r) (ip4_ttl r) (icmp4_enabled r) (icmp4_type r) (icmp4_code r)
    (icmp4_id r) (icmp4_seq r) (icmp4_payload r) (rx_done r) (rx_len r)
    (rx_caplen r) (tx_done r) (last_error r).

Definition set_eth_enabled (v : bool) (r : NetRegisters) : NetRegisters :=
  mkNetRegisters (sba r) (libnet_create r) (libnet_destroy r) (pcap_create r)
    (pcap_destroy r) (tx_fire r) (rx_fire r) (libnet_device r) (pcap_device r)
    (snaplen r) (promisc r) (timeout_ms r) (pcap_filter r) (pcap_set_filter r)
    v (eth_src_mac r) (eth_dst_mac r) (eth_type r) (ip4_enabled r) (ip4_src r)
    (ip4_dst r) (ip4_ttl r) (icmp4_enabled r) (icmp4_type r) (icmp4_code r)
    (icmp4_id r) (icmp4_seq r) (icmp4_payload r) (rx_done r) (rx_len r)
    (rx_caplen r) (tx_done r) (last_error r).

Definition set_eth_src_mac (v : string) (r : NetRegisters) : NetRegisters :=
  mkNetRegisters (sba r) (libnet_create r) (libnet_destroy r) (pcap_create r)
    (pcap_destroy r) (tx_fire r) (rx_fire r) (libnet_device r) (pcap_device r)
    (snaplen r) (promisc r) (timeout_ms r) (pcap_filter r) (pcap_set_filter r)
    (eth_enabled r) v (eth_dst_mac r) (eth_type r) (ip4_enabled r) (ip4_src r)
    (ip4_dst r) (ip4_ttl r) (icmp4_enabled r) (icmp4_type r) (icmp4_code r)
    (icmp4_id r) (icmp4_seq r) (icmp4_payload r) (rx_done r) (rx_len r)
    (rx_caplen r) (tx_done r) (last_error r).

Definition set_eth_dst_mac (v : string) (r : NetRegisters) : NetRegisters :=
  mkNetRegisters (sba r) (libnet_create r) (libnet_destroy r) (pcap_create r)
    (pcap_destroy r) (tx_fire r) (rx_fire r) (libnet_device r) (pcap_device r)
    (snaplen r) (promisc r) (timeout_ms r) (pcap_filter r) (pcap_set_filter r)
    (eth_enabled r) (eth_src_mac r) v (eth_type r) (ip4_enabled r) (ip4_src r)
    (ip4_dst r) (ip4_ttl r) (icmp4_enabled r) (icmp4_type r) (icmp4_code r)
    (icmp4_id r) (icmp4_seq r) (icmp4_payload r) (rx_done r) (rx_len r)
    (rx_caplen r) (tx_done r) (last_error r).

Definition set_eth_type (v : Z) (r : NetRegisters) : NetRegisters :=
  mkNetRegisters (sba r) (libnet_create r) (libnet_destroy r) (pcap_create r)
    (pcap_destroy r) (tx_fire r) (rx_fire r) (libnet_device r) (pcap_device r)
    (snaplen r) (promisc r) (timeout_ms r) (pcap_filter r) (pcap_set_filter r)
    (eth_enabled r) (eth_src_mac r) (eth_dst_mac r) v (ip4_enabled r) (ip4_src
    r) (ip4_dst r) (ip4_ttl r) (icmp4_enabled r) (icmp4_type r) (icmp4_code r)
    (icmp4_id r) (icmp4_seq r) (icmp4_payload r) (rx_done r) (rx_len r)
    (rx_caplen r) (tx_done r) (last_error r).

Definition set_ip4_enabled (v : bool) (r : NetRegisters) : NetRegisters :=
  mkNetRegisters (sba r) (libnet_create r) (libnet_destroy r) (pcap_create r)
    (pcap_destroy r) (tx_fire r) (rx_fire r) (libnet_device r) (pcap_device r)
    (snaplen r) (promisc r) (timeout_ms r) (pcap_filter r) (pcap_set_filter r)
    (eth_enabled r) (eth_src_mac r) (eth_dst_mac r) (eth_type r) v (ip4_src r)
    (ip4_dst r) (ip4_ttl r) (icmp4_enabled r) (icmp4_type r) (icmp4_code r)
    (icmp4_id r) (icmp4_seq r) (icmp4_payload r) (rx_done r) (rx_len r)
    (rx_caplen r) (tx_done r) (last_error r).

Definition set_ip4_src (v : string) (r : NetRegisters) : NetRegisters :=
  mkNetRegisters (sba r) (libnet_create r) (libnet_destroy r) (pcap_create r)
    (pcap_destroy r) (tx_fire r) (rx_fire r) (libnet_device r) (pcap_device r)
    (snaplen r) (promisc r) (timeout_ms r) (pcap_filter r) (pcap_set_filter r)
    (eth_enabled r) (eth_src_mac r) (eth_dst_mac r) (eth_type r) (ip4_enabled
    r) v (ip4_dst r) (ip4_ttl r) (icmp4_enabled r) (icmp4_type r) (icmp4_code
    r) (icmp4_id r) (icmp4_seq r) (icmp4_payload r) (rx_done r) (rx_len r)
    (rx_caplen r) (tx_done r) (last_error r).

Definition set_ip4_dst (v : string) (r : NetRegisters) : NetRegisters :=
  mkNetRegisters (sba r) (libnet_create r) (libnet_destroy r) (pcap_create r)
    (pcap_destroy r) (tx_fire r) (rx_fire r) (libnet_device r) (pcap_device r)
    (snaplen r) (promisc r) (timeout_ms r) (pcap_filter r) (pcap_set_filter r)
    (eth_enabled r) (eth_src_mac r) (eth_dst_mac r) (eth_type r) (ip4_enabled
    r) (ip4_src r) v (ip4_ttl r) (icmp4_enabled r) (icmp4_type r) (icmp4_code
    r) (icmp4_id r) (icmp4_seq r) (icmp4_payload r) (rx_done r) (rx_len r)
    (rx_caplen r) (tx_done r) (last_error r).

Definition set_ip4_ttl (v : Z) (r : NetRegisters) : NetRegisters :=
  mkNetRegisters (sba r) (libnet_create r) (libnet_destroy r) (pcap_create r)
    (pcap_destroy r) (tx_fire r) (rx_fire r) (libnet_device r) (pcap_device r)
    (snaplen r) (promisc r) (timeout_ms r) (pcap_filter r) (pcap_set_filter r)
    (eth_enabled r) (eth_src_mac r) (eth_dst_mac r) (eth_type r) (ip4_enabled
    r) (ip4_src r) (ip4_dst r) v (icmp4_enabled r) (icmp4_type r) (icmp4_code
    r) (icmp4_id r) (icmp4_seq r) (icmp4_payload r) (rx_done r) (rx_len r)
    (rx_caplen r) (tx_done r) (last_error r).

Definition set_icmp4_enabled (v : bool) (r : NetRegisters) : NetRegisters :=
  mkNetRegisters (sba r) (libnet_create r) (libnet_destroy r) (pcap_create r)
    (pcap_destroy r) (tx_fire r) (rx_fire r) (libnet_device r) (pcap_device r)
    (snaplen r) (promisc r) (timeout_ms r) (pcap_filter r) (pcap_set_filter r)
    (eth_enabled r) (eth_src_mac r) (eth_dst_mac r) (eth_type r) (ip4_enabled
    r) (ip4_src r) (ip4_dst r) (ip4_ttl r) v (icmp4_type r) (icmp4_code r)
    (icmp4_id r) (icmp4_seq r) (icmp4_payload r) (rx_done r) (rx_len r)
    (rx_caplen r) (tx_done r) (last_error r).

Definition set_icmp4_type (v : Z) (r : NetRegisters) : NetRegisters :=
  mkNetRegisters (sba r) (libnet_create r) (libnet_destroy r) (pcap_create r)
    (pcap_destroy r) (tx_fire r) (rx_fire r) (libnet_device r) (pcap_device r)
    (snaplen r) (promisc r) (timeout_ms r) (pcap_filter r) (pcap_set_filter r)
    (eth_enabled r) (eth_src_mac r) (eth_dst_mac r) (eth_type r) (ip4_enabled
    r) (ip4_src r) (ip4_dst r) (ip4_ttl r) (icmp4_enabled r) v (icmp4_code r)
    (icmp4_id r) (icmp4_seq r) (icmp4_payload r) (rx_done r) (rx_len r)
    (rx_caplen r) (tx_done r) (last_error r).

Definition set_icmp4_code (v : Z) (r : NetRegisters) : NetRegisters :=
  mkNetRegisters (sba r) (libnet_create r) (libnet_destroy r) (pcap_create r)
    (pcap_destroy r) (tx_fire r) (rx_fire r) (libnet_device r) (pcap_device r)
    (snaplen r) (promisc r) (timeout_ms r) (pcap_filter r) (pcap_set_filter r)
    (eth_enabled r) (eth_src_mac r) (eth_dst_mac r) (eth_type r) (ip4_enabled
    r) (ip4_src r) (ip4_dst r) (ip4_ttl r) (icmp4_enabled r) (icmp4_type r) v
    (icmp4_id r) (icmp4_seq r) (icmp4_payload r) (rx_done r) (rx_len r)
    (rx_caplen r) (tx_done r) (last_error r).

Definition set_icmp4_id (v : Z) (r : NetRegisters) : NetRegisters :=
  mkNetRegisters (sba r) (libnet_create r) (libnet_destroy r) (pcap_create r)
    (pcap_destroy r) (tx_fire r) (rx_fire r) (libnet_device r) (pcap_device r)
    (snaplen r) (promisc r) (timeout_ms r) (pcap_filter r) (pcap_set_filter r)
    (eth_enabled r) (eth_src_mac r) (eth_dst_mac r) (eth_type r) (ip4_enabled
    r) (ip4_src r) (ip4_dst r) (ip4_ttl r) (icmp4_enabled r) (icmp4_type r)
    (icmp4_code r) v (icmp4_seq r) (icmp4_payload r) (rx_done r) (rx_len r)
    (rx_caplen r) (tx_done r) (last_error r).

Definition set_icmp4_seq (v : Z) (r : NetRegisters) : NetRegisters :=
  mkNetRegisters (sba r) (libnet_create r) (libnet_destroy r) (pcap_create r)
    (pcap_destroy r) (tx_fire r) (rx_fire r) (libnet_device r) (pcap_device r)
    (snaplen r) (promisc r) (timeout_ms r) (pcap_filter r) (pcap_set_filter r)
    (eth_enabled r) (eth_src_mac r) (eth_dst_mac r) (eth_type r) (ip4_enabled
    r) (ip4_src r) (ip4_dst r) (ip4_ttl r) (icmp4_enabled r) (icmp4_type r)
    (icmp4_code r) (icmp4_id r) v (icmp4_payload r) (rx_done r) (rx_len r)
    (rx_caplen r) (tx_done r) (last_error r).

Definition set_icmp4_payload (v : string) (r : NetRegisters) : NetRegisters :=
  mkNetRegisters (sba r) (libnet_create r) (libnet_destroy r) (pcap_create r)
    (pcap_destroy r) (tx_fire r) (rx_fire r) (libnet_device r) (pcap_device r)
    (snaplen r) (promisc r) (timeout_ms r) (pcap_filter r) (pcap_set_filter r)
    (eth_enabled r) (eth_src_mac r) (eth_dst_mac r) (eth_type r) (ip4_enabled
    r) (ip4_src r) (ip4_dst r) (ip4_ttl r) (icmp4_enabled r) (icmp4_type r)
    (icmp4_code r) (icmp4_id r) (icmp4_seq r) v (rx_done r) (rx_len r)
    (rx_caplen r) (tx_done r) (last_error r).

Definition set_rx_done (v : bool) (r : NetRegisters) : NetRegisters :=
  mkNetRegisters (sba r) (libnet_create r) (libnet_destroy r) (pcap_create r)
    (pcap_destroy r) (tx_fire r) (rx_fire r) (libnet_device r) (pcap_device r)
    (snaplen r) (promisc r) (timeout_ms r) (pcap_filter r) (pcap_set_filter r)
    (eth_enabled r) (eth_src_mac r) (eth_dst_mac r) (eth_type r) (ip4_enabled
    r) (ip4_src r) (ip4_dst r) (ip4_ttl r) (icmp4_enabled r) (icmp4_type r)
    (icmp4_code r) (icmp4_id r) (icmp4_seq r) (icmp4_payload r) v (rx_len r)
    (rx_caplen r) (tx_done r) (last_error r).

Definition set_rx_len (v : Z) (r : NetRegisters) : NetRegisters :=
  mkNetRegisters (sba r) (libnet_create r) (libnet_destroy r) (pcap_create r)
    (pcap_destroy r) (tx_fire r) (rx_fire r) (libnet_device r) (pcap_device r)
    (snaplen r) (promisc r) (timeout_ms r) (pcap_filter r) (pcap_set_filter r)
    (eth_enabled r) (eth_src_mac r) (eth_dst_mac r) (eth_type r) (ip4_enabled
    r) (ip4_src r) (ip4_dst r) (ip4_ttl r) (icmp4_enabled r) (icmp4_type r)
    (icmp4_code r) (icmp4_id r) (icmp4_seq r) (icmp4_payload r) (rx_done r) v
    (rx_caplen r) (tx_done r) (last_error r).

Definition set_rx_caplen (v : Z) (r : NetRegisters) : NetRegisters :=
  mkNetRegisters (sba r) (libnet_create r) (libnet_destroy r) (pcap_create r)
    (pcap_destroy r) (tx_fire r) (rx_fire r) (libnet_device r) (pcap_device r)
    (snaplen r) (promisc r) (timeout_ms r) (pcap_filter r) (pcap_set_filter r)
    (eth_enabled r) (eth_src_mac r) (eth_dst_mac r) (eth_type r) (ip4_enabled
    r) (ip4_src r) (ip4_dst r) (ip4_ttl r) (icmp4_enabled r) (icmp4_type r)
    (icmp4_code r) (icmp4_id r) (icmp4_seq r) (icmp4_payload r) (rx_done r)
    (rx_len r) v (tx_done r) (last_error r).

Definition set_tx_done (v : bool) (r : NetRegisters) : NetRegisters :=
  mkNetRegisters (sba r) (libnet_create r) (libnet_destroy r) (pcap_create r)
    (pcap_destroy r) (tx_fire r) (rx_fire r) (libnet_device r) (pcap_device r)
    (snaplen r) (promisc r) (timeout_ms r) (pcap_filter r) (pcap_set_filter r)
    (eth_enabled r) (eth_src_mac r) (eth_dst_mac r) (eth_type r) (ip4_enabled
    r) (ip4_src r) (ip4_dst r) (ip4_ttl r) (icmp4_enabled r) (icmp4_type r)
    (icmp4_code r) (icmp4_id r) (icmp4_seq r) (icmp4_payload r) (rx_done r)
    (rx_len r) (rx_caplen r) v (last_error r).

Definition set_last_error (v : string) (r : NetRegisters) : NetRegisters :=
  mkNetRegisters (sba r) (libnet_create r) (libnet_destroy r) (pcap_create r)
    (pcap_destroy r) (tx_fire r) (rx_fire r) (libnet_device r) (pcap_device r)
    (snaplen r) (promisc r) (timeout_ms r) (pcap_filter r) (pcap_set_filter r)
    (eth_enabled r) (eth_src_mac r) (eth_dst_mac r) (eth_type r) (ip4_enabled
    r) (ip4_src r) (ip4_dst r) (ip4_ttl r) (icmp4_enabled r) (icmp4_type r)
    (icmp4_code r) (icmp4_id r) (icmp4_seq r) (icmp4_payload r) (rx_done r)
    (rx_len r) (rx_caplen r) (tx_done r) v.


(** ** The environment: sockets, libnet, libpcap *)

Record sockaddr_in : Type := mkSockaddr {
  sin_addr : Z;
  sin_port : Z
}.

Definition INADDR_LOOPBACK : Z := 0x7f000001.

(** One [sendto] on a valid descriptor. *)
Record Sent : Type := mkSent {
  sent_fd : Z;
  sent_to : sockaddr_in;
  sent_doc : json
}.

(** One datagram as [recvfrom] delivers it: the sender, the bytes, and what
    [json::parse] makes of the bytes ([None] when it throws). *)
Record Datagram : Type := mkDatagram {
  dg_sender : sockaddr_in;
  dg_bytes : string;
  dg_parse : option json
}.

(** A protocol block queued in a libnet context by a [libnet_build_*] call. *)
Inductive pblock : Type :=
| IcmpEcho (type code sum id seq : Z) (payload : string)
| Ipv4 (ip_len tos id frag ttl prot sum src dst : Z)
| Ethernet (dst src : list Z) (type : Z).

Record libnet_t : Type := mkLibnet {
  l_device : string;
  l_pblocks : list pblock
}.

Record pcap_pkthdr : Type := mkPkthdr {
  caplen : Z;
  len : Z
}.

Record pcap_t : Type := mkPcap {
  p_device : string;
  p_snaplen : Z;
  p_promisc : bool;
  p_timeout_ms : Z;
  p_filter : option string
}.

(** What one [pcap_next_ex] finds. *)
Inductive pcap_result : Type :=
| PcapPacket (h : pcap_pkthdr)
| PcapTimeout
| PcapError
| PcapBreak.

Record World : Type := mkWorld {
  (* UDP *)
  w_bind_ok : Z -> bool;            (* ports on which socket and bind succeed *)
  w_next_fd : nat;                  (* descriptor given to the next socket *)
  w_outbox : list Sent;             (* datagrams sent, oldest first *)
  w_now : Z;                        (* steady clock, milliseconds *)
  (* libnet *)
  w_libnet_init : string -> option string;   (* errbuf text when the device does not open *)
  w_name2addr4 : string -> Z;
  w_prand : Z;
  w_write_error : option string;    (* libnet_geterror text when the write fails *)
  w_wire : list (list pblock);      (* frames written, oldest first *)
  w_libnet_open : nat;              (* contexts allocated and not yet destroyed *)
  (* libpcap *)
  w_pcap_open_live : string -> option string; (* errbuf text when the device does not open *)
  w_bpf_ok : string -> bool;        (* filter expressions pcap_compile accepts *)
  w_capture : list pcap_result;     (* what the coming polls will find *)
  w_pcap_open : nat                 (* captures opened and not yet closed *)
}.

Definition set_w_next_fd (v : nat) (w : World) : World :=
  mkWorld (w_bind_ok w) v (w_outbox w) (w_now w) (w_libnet_init w)
    (w_name2addr4 w) (w_prand w) (w_write_error w) (w_wire w) (w_libnet_open
    w) (w_pcap_open_live w) (w_bpf_ok w) (w_capture w) (w_pcap_open w).

Definition set_w_outbox (v : list Sent) (w : World) : World :=
  mkWorld (w_bind_ok w) (w_next_fd w) v (w_now w) (w_libnet_init w)
    (w_name2addr4 w) (w_prand w) (w_write_error w) (w_wire w) (w_libnet_open
    w) (w_pcap_open_live w) (w_bpf_ok w) (w_capture w) (w_pcap_open w).

Definition set_w_now (v : Z) (w : World) : World :=
  mkWorld (w_bind_ok w) (w_next_fd w) (w_outbox w) v (w_libnet_init w)
    (w_name2addr4 w) (w_prand w) (w_write_error w) (w_wire w) (w_libnet_open
    w) (w_pcap_open_live w) (w_bpf_ok w) (w_capture w) (w_pcap_open w).

Definition set_w_wire (v : list (list pblock)) (w : World) : World :=
  mkWorld (w_bind_ok w) (w_next_fd w) (w_outbox w) (w_now w) (w_libnet_init w)
    (w_name2addr4 w) (w_prand w) (w_write_error w) v (w_libnet_open w)
    (w_pcap_open_live w) (w_bpf_ok w) (w_capture w) (w_pcap_open w).

Definition set_w_libnet_open (v : nat) (w : World) : World :=
  mkWorld (w_bind_ok w) (w_next_fd w) (w_outbox w) (w_now w) (w_libnet_init w)
    (w_name2addr4 w) (w_prand w) (w_write_error w) (w_wire w) v
    (w_pcap_open_live w) (w_bpf_ok w) (w_capture w) (w_pcap_open w).

Definition set_w_capture (v : list pcap_result) (w : World) : World :=
  mkWorld (w_bind_ok w) (w_next_fd w) (w_outbox w) (w_now w) (w_libnet_init w)
    (w_name2addr4 w) (w_prand w) (w_write_error w) (w_wire w) (w_libnet_open
    w) (w_pcap_open_live w) (w_bpf_ok w) v (w_pcap_open w).

Definition set_w_pcap_open (v : nat) (w : World) : World :=
  mkWorld (w_bind_ok w) (w_next_fd w) (w_outbox w) (w_now w) (w_libnet_init w)
    (w_name2addr4 w) (w_prand w) (w_write_error w) (w_wire w) (w_libnet_open
    w) (w_pcap_open_live w) (w_bpf_ok w) (w_capture w) v.

(** *** System and library calls *)

(** [Component::make_socket]: socket, options, bind; -1 when either fails. *)
Definition make_socket (port : Z) (w : World) : Z * World :=
  if w_bind_ok w port
  then (Z.of_nat (w_next_fd w), set_w_next_fd (S (w_next_fd w)) w)
  else (-1, w).

(** [sendto] on a datagram socket: the whole payload or nothing. *)
Definition sendto (fd : Z) (dest : sockaddr_in) (doc : json) (w : World)
  : bool * World :=
  if 0 <=? fd
  then (true, set_w_outbox (w_outbox w ++ [mkSent fd dest doc]) w)
  else (false, w).

Definition now_ms (w : World) : Z := w_now w.

Definition libnet_init (device : string) (w : World)
  : option libnet_t * string * World :=
  match w_libnet_init w device with
  | None => (Some (mkLibnet device []), "",
             set_w_libnet_open (S (w_libnet_open w)) w)
  | Some errbuf => (None, errbuf, w)
  end.

(** [libnet_destroy], named apart from the register of that name. *)
Definition libnet_destroy_ctx (w : World) : World :=
  set_w_libnet_open (Nat.pred (w_libnet_open w)) w.

Definition libnet_push (b : pblock) (l : libnet_t) : libnet_t :=
  mkLibnet (l_device l) (b :: l_pblocks l).

Definition libnet_clear_packet (l : libnet_t) : libnet_t :=
  mkLibnet (l_device l) [].

(** [libnet_write]: a negative count and an error text, or the frame on the
    wire. *)
Definition libnet_write (l : libnet_t) (w : World) : Z * World :=
  match w_write_error w with
  | Some _ => (-1, w)
  | None => (1, set_w_wire (w_wire w ++ [l_pblocks l]) w)
  end.

Definition libnet_geterror (w : World) : string :=
  match w_write_error w with
  | Some e => e
  | None => ""
  end.

Definition pcap_open_live (device : string) (snaplen : Z) (promisc : bool)
  (timeout_ms : Z) (w : World) : option pcap_t * string * World :=
  match w_pcap_open_live w device with
  | None => (Some (mkPcap device snaplen promisc timeout_ms None), "",
             set_w_pcap_open (S (w_pcap_open w)) w)
  | Some errbuf => (None, errbuf, w)
  end.

Definition pcap_close (w : World) : World :=
  set_w_pcap_open (Nat.pred (w_pcap_open w)) w.

Definition pcap_install_filter (expr : string) (p : pcap_t) : pcap_t :=
  mkPcap (p_device p) (p_snaplen p) (p_promisc p) (p_timeout_ms p) (Some expr).

(** [pcap_next_ex]: the return code, the header when there is one, and the
    buffer without what was read. *)
Definition pcap_next_ex (w : World) : Z * option pcap_pkthdr * World :=
  match w_capture w with
  | [] => (0, None, w)
  | PcapPacket h :: rest => (1, Some h, set_w_capture rest w)
  | PcapTimeout :: rest => (0, None, set_w_capture rest w)
  | PcapError :: rest => (-1, None, set_w_capture rest w)
  | PcapBreak :: rest => (-2, None, set_w_capture rest w)
  end.

(** ** Component.hpp *)

Definition BUS_PORT : Z := 3999.
Definition BLS_PORT : Z := 4000.

Record Component : Type := mkComponent {
  sba_ : Z;
  publish_period_ms_ : Z;
  listen_bus_ : bool;
  running_ : bool;
  committed_ : list Belief;
  last_sender_ : sockaddr_in;
  has_sender_ : bool;
  udp_fd_ : Z;
  bus_fd_ : Z;
  last_publish_ts_ : Z
}.

Definition set_running_ (v : bool) (c : Component) : Component :=
  mkComponent (sba_ c) (publish_period_ms_ c) (listen_bus_ c) v (committed_ c)
    (last_sender_ c) (has_sender_ c) (udp_fd_ c) (bus_fd_ c) (last_publish_ts_
    c).

Definition set_committed_ (v : list Belief) (c : Component) : Component :=
  mkComponent (sba_ c) (publish_period_ms_ c) (listen_bus_ c) (running_ c) v
    (last_sender_ c) (has_sender_ c) (udp_fd_ c) (bus_fd_ c) (last_publish_ts_
    c).

Definition set_last_sender_ (v : sockaddr_in) (c : Component) : Component :=
  mkComponent (sba_ c) (publish_period_ms_ c) (listen_bus_ c) (running_ c)
    (committed_ c) v (has_sender_ c) (udp_fd_ c) (bus_fd_ c) (last_publish_ts_
    c).

Definition set_has_sender_ (v : bool) (c : Component) : Component :=
  mkComponent (sba_ c) (publish_period_ms_ c) (listen_bus_ c) (running_ c)
    (committed_ c) (last_sender_ c) v (udp_fd_ c) (bus_fd_ c)
    (last_publish_ts_ c).

Definition set_udp_fd_ (v : Z) (c : Component) : Component :=
  mkComponent (sba_ c) (publish_period_ms_ c) (listen_bus_ c) (running_ c)
    (committed_ c) (last_sender_ c) (has_sender_ c) v (bus_fd_ c)
    (last_publish_ts_ c).

Definition set_bus_fd_ (v : Z) (c : Component) : Component :=
  mkComponent (sba_ c) (publish_period_ms_ c) (listen_bus_ c) (running_ c)
    (committed_ c) (last_sender_ c) (has_sender_ c) (udp_fd_ c) v
    (last_publish_ts_ c).

Definition set_last_publish_ts_ (v : Z) (c : Component) : Component :=
  mkComponent (sba_ c) (publish_period_ms_ c) (listen_bus_ c) (running_ c)
    (committed_ c) (last_sender_ c) (has_sender_ c) (udp_fd_ c) (bus_fd_ c) v.

(** ** Net.hpp: the object

    [world] is not a member of the class: it is the environment the object
    runs in, threaded through every call. *)

Record Net : Type := mkNet {
  base : Component;
  libnet_ : option libnet_t;
  pcap_ : option pcap_t;
  regs_ : NetRegisters;
  world : World
}.

Definition with_base (v : Component) (s : Net) : Net :=
  mkNet v (libnet_ s) (pcap_ s) (regs_ s) (world s).

Definition with_libnet_ (v : option libnet_t) (s : Net) : Net :=
  mkNet (base s) v (pcap_ s) (regs_ s) (world s).

Definition with_pcap_ (v : option pcap_t) (s : Net) : Net :=
  mkNet (base s) (libnet_ s) v (regs_ s) (world s).

Definition with_regs_ (v : NetRegisters) (s : Net) : Net :=
  mkNet (base s) (libnet_ s) (pcap_ s) v (world s).

Definition with_world (v : World) (s : Net) : Net :=
  mkNet (base s) (libnet_ s) (pcap_ s) (regs_ s) v.

(** ** Component.hpp: the methods, at [Derived = Net] *)

(** [Net::component_name]. *)
Definition component_name : string := "NET".

Definition usleep (us : Z) (w : World) : World :=
  set_w_now (w_now w + us / 1000) w.

Definition setup_udp (c : Component) (w : World) : Component * World :=
  let (fd, w) := make_socket (sba_ c) w in
  let c := set_udp_fd_ fd c in
  (if fd <? 0 then set_running_ false c else c, w).

Definition setup_bus (c : Component) (w : World) : Component * World :=
  let (fd, w) := make_socket BUS_PORT w in
  let c := set_bus_fd_ fd c in
  (if fd <? 0 then set_running_ false c else c, w).

Definition Component_ctor (sba publish_period_ms : Z) (listen_bus : bool)
  (w : World) : Component * World :=
  let c := mkComponent sba publish_period_ms listen_bus true []
             (mkSockaddr 0 0) false (-1) (-1) (now_ms w) in
  let (c, w) := setup_udp c w in
  if listen_bus_ c then setup_bus c w else (c, w).

Definition send_json (j : json) (port : Z) (s : Net) : bool * Net :=
  let dest := mkSockaddr INADDR_LOOPBACK port in
  let (ok, w) := sendto (udp_fd_ (base s)) dest j (world s) in
  (ok, with_world w s).

Definition send_bus (j : json) (s : Net) : bool * Net :=
  send_json j BUS_PORT s.

Definition reply_json (j : json) (s : Net) : bool * Net :=
  if negb (has_sender_ (base s)) then (false, s)
  else
    let (ok, w) := sendto (udp_fd_ (base s)) (last_sender_ (base s)) j (world s) in
    (ok, with_world w s).

Definition same_belief (full_subject : string) (pol : bool) (b : Belief) : bool :=
  String.eqb (subject b) full_subject && Bool.eqb (polarity b) pol.

Definition belief_envelope (b : Belief) : json :=
  JObj [("belief",
         JObj [("component", JStr (component b));
               ("subject", JStr (subject b));
               ("polarity", JBool (polarity b));
               ("context", context b)])].

Definition commit (subj : string) (pol : bool) (ctx : json) (s : Net) : Net :=
  let full_subject := subj in
  let prefix := (component_name ++ ".")%string in
  (* Enforce ownership *)
  if negb (String.prefix prefix full_subject) then s
  (* Enforce monotonicity *)
  else if existsb (same_belief full_subject pol) (committed_ (base s)) then s
  else
    let belief := mkBelief component_name full_subject pol (json_of_ordered ctx) in
    let s := with_base (set_committed_ (committed_ (base s) ++ [belief]) (base s)) s in
    snd (send_json (belief_envelope belief) BLS_PORT s).

(** [Component::publish_snapshot] is empty and [Net] does not override it. *)
Definition publish_snapshot (s : Net) : Net := s.

Definition maybe_publish (s : Net) : Net :=
  if publish_period_ms_ (base s) =? 0 then s
  else
    let now := now_ms (world s) in
    if publish_period_ms_ (base s) <=? (now - last_publish_ts_ (base s)) mod 2 ^ 64
    then
      let s := publish_snapshot s in
      with_base (set_last_publish_ts_ now (base s)) s
    else s.

(** ** Net.hpp: [parse_mac]

    [sscanf] with six [%x] conversions separated by a literal colon.  Each
    conversion skips white space, takes an optional sign and an optional 0x,
    then hexadecimal digits, and needs at least one digit (the 0 of 0x
    counts); the value is that of [strtoul], stored in an unsigned int.
    Whatever follows the sixth conversion is not looked at. *)

Definition isspace (c : ascii) : bool :=
  let n := Z.of_nat (nat_of_ascii c) in
  (n =? 32) || ((9 <=? n) && (n <=? 13)).

Definition hex_digit (c : ascii) : option Z :=
  let n := Z.of_nat (nat_of_ascii c) in
  if (48 <=? n) && (n <=? 57) then Some (n - 48)
  else if (97 <=? n) && (n <=? 102) then Some (n - 87)
  else if (65 <=? n) && (n <=? 70) then Some (n - 55)
  else None.

Fixpoint skip_space (s : string) : string :=
  match s with
  | String c rest => if isspace c then skip_space rest else s
  | EmptyString => s
  end.

Fixpoint scan_digits (s : string) (acc : Z) (count : nat) : Z * nat * string :=
  match s with
  | String c rest =>
      match hex_digit c with
      | Some d => scan_digits rest (acc * 16 + d) (S count)
      | None => (acc, count, s)
      end
  | EmptyString => (acc, count, s)
  end.

Definition strtoul_value (negative : bool) (v : Z) : Z :=
  if 2 ^ 64 <=? v then 2 ^ 64 - 1
  else if negative then (2 ^ 64 - v) mod 2 ^ 64
  else v.

Definition scan_hex (s : string) : option (Z * string) :=
  let s := skip_space s in
  let '(negative, s) :=
    match s with
    | String "-" rest => (true, rest)
    | String "+" rest => (false, rest)
    | _ => (false, s)
    end in
  let '(lead, s) :=
    match s with
    | String "0" (String "x" rest) => (1%nat, rest)
    | String "0" (String "X" rest) => (1%nat, rest)
    | _ => (0%nat, s)
    end in
  let '(v, count, rest) := scan_digits s 0 lead in
  match count with
  | O => None
  | S _ => Some (cast_uint32 (strtoul_value negative v), rest)
  end.

(** [more] conversions remain after the one at the head of [s]. *)
Fixpoint scan_mac (more : nat) (s : string) : option (list Z) :=
  match scan_hex s with
  | None => None
  | Some (b, rest) =>
      match more with
      | O => Some [b]
      | S more' =>
          match rest with
          | String ":" rest' => option_map (cons b) (scan_mac more' rest')
          | _ => None
          end
      end
  end.

Definition parse_mac (s : string) : option (list Z) :=
  option_map (map cast_uint8) (scan_mac 5 s).

(** ** Net.cpp *)

Definition LIBNET_IPV4_H : Z := 20.
Definition LIBNET_ICMPV4_ECHO_H : Z := 8.
Definition IPPROTO_ICMP : Z := 1.

Definition set_error (msg : string) (s : Net) : Net :=
  with_regs_ (set_last_error msg (regs_ s)) s.

Definition is_live {A : Type} (handle : option A) : bool :=
  match handle with
  | Some _ => true
  | None => false
  end.

Definition serialize_registers (s : Net) : json :=
  let r := regs_ s in
  JObj [("component", JStr "NET");
        ("sba", JNum (sba r));
        ("libnet_device", JStr (libnet_device r));
        ("pcap_device", JStr (pcap_device r));
        ("libnet_live", JBool (is_live (libnet_ s)));
        ("pcap_live", JBool (is_live (pcap_ s)));
        ("tx_done", JBool (tx_done r));
        ("rx_done", JBool (rx_done r));
        ("rx_len", JNum (rx_len r));
        ("rx_caplen", JNum (rx_caplen r));
        ("last_error", JStr (last_error r))].

(** *** libnet lifecycle *)

Definition do_libnet_create (s : Net) : Net :=
  match libnet_ s with
  | Some _ => s
  | None =>
      let '(handle, errbuf, w) :=
        libnet_init (libnet_device (regs_ s)) (world s) in
      let s := with_world w (with_libnet_ handle s) in
      match handle with
      | None => set_error errbuf s
      | Some _ => s
      end
  end.

Definition do_libnet_destroy (s : Net) : Net :=
  match libnet_ s with
  | None => s
  | Some _ =>
      with_libnet_ None (with_world (libnet_destroy_ctx (world s)) s)
  end.

(** *** pcap lifecycle *)

Definition do_pcap_create (s : Net) : Net :=
  match pcap_ s with
  | Some _ => s
  | None =>
      let r := regs_ s in
      let '(handle, errbuf, w) :=
        pcap_open_live (pcap_device r) (snaplen r) (promisc r) (timeout_ms r)
          (world s) in
      let s := with_world w (with_pcap_ handle s) in
      match handle with
      | None => set_error errbuf s
      | Some _ => s
      end
  end.

Definition do_pcap_destroy (s : Net) : Net :=
  match pcap_ s with
  | None => s
  | Some _ =>
      with_pcap_ None (with_world (pcap_close (world s)) s)
  end.

(** *** TX (ICMP echo) *)

Definition do_tx (s : Net) : Net :=
  match libnet_ s with
  | None => s
  | Some l =>
      let r := regs_ s in
      if negb (eth_enabled r) || negb (ip4_enabled r) || negb (icmp4_enabled r)
      then s
      else
        match parse_mac (eth_src_mac r), parse_mac (eth_dst_mac r) with
        | Some eth_src, Some eth_dst =>
            let src_ip := w_name2addr4 (world s) (ip4_src r) in
            let dst_ip := w_name2addr4 (world s) (ip4_dst r) in
            if (src_ip =? 0) || (dst_ip =? 0)
            then set_error "invalid IP address" s
            else
              let payload_len :=
                cast_uint32 (Z.of_nat (String.length (icmp4_payload r))) in
              let l := libnet_push
                         (IcmpEcho (icmp4_type r) (icmp4_code r) 0 (icmp4_id r)
                            (icmp4_seq r) (icmp4_payload r)) l in
              let s := with_regs_
                         (set_icmp4_seq (cast_uint16 (icmp4_seq r + 1)) r) s in
              let l := libnet_push
                         (Ipv4 (cast_uint16 (LIBNET_IPV4_H + LIBNET_ICMPV4_ECHO_H
                                             + payload_len))
                            0 (cast_uint16 (w_prand (world s))) 0 (ip4_ttl r)
                            IPPROTO_ICMP 0 src_ip dst_ip) l in
              let l := libnet_push (Ethernet eth_dst eth_src (eth_type r)) l in
              let s := with_libnet_ (Some l) s in
              let (rc, w) := libnet_write l (world s) in
              let s := with_world w s in
              if rc <? 0
              then set_error (libnet_geterror (world s)) s
              else
                let s := with_libnet_ (Some (libnet_clear_packet l)) s in
                let s := with_regs_ (set_tx_done true (regs_ s)) s in
                commit "NET.tx_done" true (JObj []) s
        | _, _ => set_error "invalid MAC address format" s
        end
  end.

(** *** RX (pcap sample)

    The document [j] assembled at the end of [Net::do_rx] is a local that is
    never handed to [send_bus]. *)

Definition do_rx (s : Net) : Net :=
  match pcap_ s with
  | None => s
  | Some _ =>
      let '(rc, hdr, w) := pcap_next_ex (world s) in
      let s := with_world w s in
      if rc <=? 0 then s
      else
        match hdr with
        | None => s
        | Some h =>
            let s := with_regs_ (set_rx_done true (regs_ s)) s in
            let s := with_regs_ (set_rx_len (len h) (regs_ s)) s in
            let s := with_regs_ (set_rx_caplen (caplen h) (regs_ s)) s in
            let s := commit "NET.rx_done" true
                       (JObj [("rx_len", JNum (rx_len (regs_ s)));
                              ("rx_caplen", JNum (rx_caplen (regs_ s)))]) s in
            let j := JObj [("component", JStr "NET");
                           ("rx_done", JBool true);
                           ("rx_len", JNum (rx_len (regs_ s)));
                           ("rx_caplen", JNum (rx_caplen (regs_ s)))] in
            s
        end
  end.

(** *** Errors *)

Definition on_parse_error (what : string) (s : Net) : Net :=
  set_error what s.

Definition on_unknown_parse_error (s : Net) : Net :=
  set_error "unknown JSON parse error" s.

(** *** BUS message handling *)

Definition on_message (j : json) (s : Net) : Net := s.

(** *** Apply snapshot (WRITE) *)

(** [if (j.contains(key)) regs_.field = j[key];] *)
Definition assign {A : Type} (j : json) (key : string)
  (get : json -> Result A) (set : A -> NetRegisters -> NetRegisters)
  (s : Net) : Result Net :=
  if contains j key
  then v <- get (at_key j key) ;; Ok (with_regs_ (set v (regs_ s)) s)
  else Ok s.

(** [if (j.value(key, false)) action();] *)
Definition when_set (j : json) (key : string) (action : Net -> Net)
  (s : Net) : Result Net :=
  b <- value j key false ;; Ok (if b then action s else s).

Definition apply_configuration (j : json) (s : Net) : Result Net :=
  s <- assign j "libnet_device" get_string set_libnet_device s ;;
  s <- assign j "pcap_device" get_string set_pcap_device s ;;
  s <- assign j "snaplen" get_int set_snaplen s ;;
  s <- assign j "promisc" get_bool set_promisc s ;;
  s <- assign j "timeout_ms" get_int set_timeout_ms s ;;
  s <- assign j "pcap_filter" get_string set_pcap_filter s ;;
  s <- assign j "eth_enabled" get_bool set_eth_enabled s ;;
  s <- assign j "eth_src_mac" get_string set_eth_src_mac s ;;
  s <- assign j "eth_dst_mac" get_string set_eth_dst_mac s ;;
  s <- assign j "eth_type" get_uint16 set_eth_type s ;;
  s <- assign j "ip4_enabled" get_bool set_ip4_enabled s ;;
  s <- assign j "ip4_src" get_string set_ip4_src s ;;
  s <- assign j "ip4_dst" get_string set_ip4_dst s ;;
  s <- assign j "ip4_ttl" get_uint8 set_ip4_ttl s ;;
  s <- assign j "icmp4_enabled" get_bool set_icmp4_enabled s ;;
  s <- assign j "icmp4_type" get_uint8 set_icmp4_type s ;;
  s <- assign j "icmp4_code" get_uint8 set_icmp4_code s ;;
  s <- assign j "icmp4_id" get_uint16 set_icmp4_id s ;;
  s <- assign j "icmp4_seq" get_uint16 set_icmp4_seq s ;;
  assign j "icmp4_payload" get_string set_icmp4_payload s.

Definition apply_lifecycle (j : json) (s : Net) : Result Net :=
  s <- when_set j "libnet_create" do_libnet_create s ;;
  s <- when_set j "libnet_destroy" do_libnet_destroy s ;;
  s <- when_set j "pcap_create" do_pcap_create s ;;
  when_set j "pcap_destroy" do_pcap_destroy s.

(** The filter is compiled and installed only on a live capture and only
    when the expression is not empty; a compile failure is silent. *)
Definition set_filter (s : Net) : Net :=
  match pcap_ s with
  | None => s
  | Some p =>
      let expr := pcap_filter (regs_ s) in
      if String.eqb expr "" then s
      else if w_bpf_ok (world s) expr
           then with_pcap_ (Some (pcap_install_filter expr p)) s
           else s
  end.

Definition apply_read (j : json) (s : Net) : Result Net :=
  when_set j "read" (fun s => snd (reply_json (serialize_registers s) s)) s.

Definition apply_actions (j : json) (s : Net) : Result Net :=
  s <- when_set j "tx_fire"
         (fun s => do_tx (with_regs_ (set_tx_done false (regs_ s)) s)) s ;;
  s <- when_set j "rx_fire"
         (fun s => do_rx (with_regs_ (set_rx_done false (regs_ s)) s)) s ;;
  when_set j "tick" do_rx s.

Definition apply_snapshot (j : json) (s : Net) : Result Net :=
  s <- apply_configuration j s ;;
  s <- apply_lifecycle j s ;;
  s <- when_set j "pcap_set_filter" set_filter s ;;
  s <- apply_read j s ;;
  apply_actions j s.

(** ** Component.hpp: receiving *)

Definition recvfrom (fd : Z) (pending : option Datagram) : option Datagram :=
  if fd <? 0 then None else pending.

(** [pending] is the datagram waiting on [fd], if any. *)
Definition poll_socket (fd : Z) (pending : option Datagram) (allow_reply : bool)
  (s : Net) : Result Net :=
  match recvfrom fd pending with
  | None => Ok s
  | Some d =>
      if Z.of_nat (String.length (dg_bytes d)) <=? 0 then Ok s
      else
        let s :=
          if allow_reply
          then with_base
                 (set_has_sender_ true (set_last_sender_ (dg_sender d) (base s))) s
          else s in
        match dg_parse d with
        | None => Ok s
        | Some j => s <- apply_snapshot j s ;; Ok (on_message j s)
        end
  end.

(** One entry of [arrivals] per turn of the loop: what is pending on the
    private socket and on the bus socket. *)
Fixpoint run (arrivals : list (option Datagram * option Datagram)) (s : Net)
  : Result Net :=
  match arrivals with
  | [] => Ok s
  | (private, bus) :: later =>
      if running_ (base s)
      then
        s <- poll_socket (udp_fd_ (base s)) private true s ;;
        s <- (if 0 <=? bus_fd_ (base s)
              then poll_socket (bus_fd_ (base s)) bus false s
              else Ok s) ;;
        let s := maybe_publish s in
        let s := with_world (usleep 1000 (world s)) s in
        run later s
      else Ok s
  end.

(** [Net::Net(int sba)]. *)
Definition Net_ctor (sba : Z) (w : World) : Net :=
  let (c, w) := Component_ctor sba 0 true w in
  mkNet c None None (set_sba sba default_registers) w.

(** ** A concrete environment

    Every port binds, the one device is eno1, two names resolve, writes
    succeed, any filter compiles, nothing is waiting in the capture. *)

Definition lab_world : World :=
  mkWorld (fun _ => true) 3 [] 0
    (fun dev => if String.eqb dev "eno1" then None
                else Some "libnet_init(): no such device")
    (fun name => if String.eqb name "10.0.0.1" then 0x0a000001
                 else if String.eqb name "10.0.0.2" then 0x0a000002
                 else 0)
    0x4d2 None [] 0
    (fun dev => if String.eqb dev "eno1" then None
                else Some "pcap_open_live: no such device")
    (fun _ => true)
    [] 0.

(** * Definitions used in the statements *)

(** An object literal. *)
Definition obj (members : list (string * json)) : json := JObj members.

(** The state a call returned, or [s] when it threw. *)
Definition or_else (r : Result Net) (s : Net) : Net :=
  match r with
  | Ok s' => s'
  | Throw _ => s
  end.

(** ** What a configuration write and a datagram leave alone *)

(** The configuration block writes configuration registers only. *)
Definition status_eq (r r' : NetRegisters) : Prop :=
  sba r' = sba r /\ rx_done r' = rx_done r /\ rx_len r' = rx_len r /\
  rx_caplen r' = rx_caplen r /\ tx_done r' = tx_done r /\
  last_error r' = last_error r.

Definition config_only (s s' : Net) : Prop :=
  base s' = base s /\ libnet_ s' = libnet_ s /\ pcap_ s' = pcap_ s /\
  world s' = world s /\ status_eq (regs_ s) (regs_ s').

Definition sender_of (s : Net) : bool * sockaddr_in :=
  (has_sender_ (base s), last_sender_ (base s)).

(** ** The data-plane triggers *)

Definition tx_fire_patch : json := obj [("tx_fire", JBool true)].
Definition rx_fire_patch : json := obj [("rx_fire", JBool true)].
Definition tick_patch : json := obj [("tick", JBool true)].

Definition reset_tx_done (s : Net) : Net :=
  with_regs_ (set_tx_done false (regs_ s)) s.

Definition reset_rx_done (s : Net) : Net :=
  with_regs_ (set_rx_done false (regs_ s)) s.

(** Every check [do_tx] makes before it reports completion. *)
Definition tx_ready (s : Net) : bool :=
  let r := regs_ s in
  is_live (libnet_ s) &&
  eth_enabled r && ip4_enabled r && icmp4_enabled r &&
  is_live (parse_mac (eth_src_mac r)) && is_live (parse_mac (eth_dst_mac r)) &&
  negb (w_name2addr4 (world s) (ip4_src r) =? 0) &&
  negb (w_name2addr4 (world s) (ip4_dst r) =? 0) &&
  negb (is_live (w_write_error (world s))).

(** The state in which a completed [do_tx] calls [commit]. *)
Definition tx_sent (s s1 : Net) : Prop :=
  base s1 = base s /\ pcap_ s1 = pcap_ s /\
  is_live (libnet_ s1) = true /\
  regs_ s1 = set_tx_done true
               (set_icmp4_seq (cast_uint16 (icmp4_seq (regs_ s) + 1)) (regs_ s)) /\
  w_outbox (world s1) = w_outbox (world s) /\
  length (w_wire (world s1)) = S (length (w_wire (world s))) /\
  w_name2addr4 (world s1) = w_name2addr4 (world s) /\
  w_write_error (world s1) = w_write_error (world s).

(** ** The ledger and the sink *)

Definition belief_key (b : Belief) : string * bool := (subject b, polarity b).

Definition ledger_keys (s : Net) : list (string * bool) :=
  map belief_key (committed_ (base s)).

(** The (subject, polarity) of a belief envelope sent to the sink; [None] for
    any other datagram. *)
Definition envelope_key (m : Sent) : option (string * bool) :=
  match sent_doc m with
  | JObj [(k, JObj body)] =>
      if String.eqb k "belief" && (sin_port (sent_to m) =? BLS_PORT)
      then match find_member "subject" body, find_member "polarity" body with
           | Some (JStr subj), Some (JBool pol) => Some (subj, pol)
           | _, _ => None
           end
      else None
  | _ => None
  end.

Fixpoint beliefs_sent (outbox : list Sent) : list (string * bool) :=
  match outbox with
  | [] => []
  | m :: rest =>
      match envelope_key m with
      | Some k => k :: beliefs_sent rest
      | None => beliefs_sent rest
      end
  end.

(** No pair occurs twice in the ledger, and the envelopes sent are those of
    the ledger entries, in order (none when there is no socket to send on). *)
Definition ledger_ok (s : Net) : Prop :=
  NoDup (ledger_keys s) /\
  beliefs_sent (w_outbox (world s))
    = if 0 <=? udp_fd_ (base s) then ledger_keys s else [].

(** What [commit] leaves alone. *)
Definition same_ledger (s s' : Net) : Prop :=
  committed_ (base s') = committed_ (base s) /\
  udp_fd_ (base s') = udp_fd_ (base s) /\
  w_outbox (world s') = w_outbox (world s).

(** ** Resource kinds *)

Inductive Resource : Type :=
| Transmit
| Capture.

Definition live (k : Resource) (s : Net) : bool :=
  match k with
  | Transmit => is_live (libnet_ s)
  | Capture => is_live (pcap_ s)
  end.

Definition create (k : Resource) : Net -> Net :=
  match k with
  | Transmit => do_libnet_create
  | Capture => do_pcap_create
  end.

Definition destroy (k : Resource) : Net -> Net :=
  match k with
  | Transmit => do_libnet_destroy
  | Capture => do_pcap_destroy
  end.

(** The error text the driver answers an open with, if it refuses. *)
Definition refusal (k : Resource) (s : Net) : option string :=
  match k with
  | Transmit => w_libnet_init (world s) (libnet_device (regs_ s))
  | Capture => w_pcap_open_live (world s) (pcap_device (regs_ s))
  end.

(** Handles of the kind the driver has given out and not taken back. *)
Definition open_handles (k : Resource) (s : Net) : nat :=
  match k with
  | Transmit => w_libnet_open (world s)
  | Capture => w_pcap_open (world s)
  end.

(** The instance holds every open handle of the kind. *)
Definition accounted (k : Resource) (s : Net) : Prop :=
  open_handles k s = if live k s then 1%nat else 0%nat.

(** ** The error register and the operations that may touch it *)

(** The texts [set_error] can be called with in environment [w]. *)
Definition error_text (w : World) (e : string) : Prop :=
  e = "invalid MAC address format" \/
  e = "invalid IP address" \/
  (exists device, w_libnet_init w device = Some e) \/
  (exists device, w_pcap_open_live w device = Some e) \/
  w_write_error w = Some e.

(** The drivers never report a failure with an empty text. *)
Definition driver_texts_nonempty (w : World) : Prop :=
  (forall device, w_libnet_init w device <> Some "") /\
  (forall device, w_pcap_open_live w device <> Some "") /\
  w_write_error w <> Some "".

Definition same_drivers (w w' : World) : Prop :=
  w_libnet_init w' = w_libnet_init w /\
  w_pcap_open_live w' = w_pcap_open_live w /\
  w_write_error w' = w_write_error w.

(** From [s] to [s'] the error register was left alone or given one of the
    error texts. *)
Definition error_step (s s' : Net) : Prop :=
  same_drivers (world s) (world s') /\
  (last_error (regs_ s') = last_error (regs_ s) \/
   error_text (world s) (last_error (regs_ s'))).

(** What the program can be asked to do between two observations. *)
Inductive Op : Type :=
| Snapshot (j : json)
| Create (k : Resource)
| Destroy (k : Resource)
| Tx
| Rx
| Arrival (private : bool) (d : Datagram).

Definition exec (o : Op) (s : Net) : Result Net :=
  match o with
  | Snapshot j => apply_snapshot j s
  | Create k => Ok (create k s)
  | Destroy k => Ok (destroy k s)
  | Tx => Ok (do_tx s)
  | Rx => Ok (do_rx s)
  | Arrival private d =>
      poll_socket (if private then udp_fd_ (base s) else bus_fd_ (base s))
        (Some d) private s
  end.

Fixpoint exec_all (ops : list Op) (s : Net) : Result Net :=
  match ops with
  | [] => Ok s
  | o :: rest => s <- exec o s ;; exec_all rest s
  end.

(** ** Concrete instances *)

(** As [lab_world], but the bus port cannot be bound. *)
Definition busy_bus_world : World :=
  mkWorld (fun port => negb (port =? BUS_PORT)) 3 [] 0
    (w_libnet_init lab_world) (w_name2addr4 lab_world) 0x4d2 None [] 0
    (w_pcap_open_live lab_world) (fun _ => true) [] 0.

Definition operator : sockaddr_in := mkSockaddr INADDR_LOOPBACK 40001.
Definition stranger : sockaddr_in := mkSockaddr INADDR_LOOPBACK 40002.

Definition dq : string := String (ascii_of_nat 34) EmptyString.

Definition read_text : string := ("{" ++ dq ++ "read" ++ dq ++ ":true}")%string.

Definition read_request : Datagram :=
  mkDatagram operator read_text (Some (obj [("read", JBool true)])).

Definition bus_read_request : Datagram :=
  mkDatagram stranger read_text (Some (obj [("read", JBool true)])).

(** An instance on [lab_world] with both drivers live, the three layers on and
    valid addresses. *)
Definition configure_patch : json :=
  obj [("libnet_create", JBool true); ("pcap_create", JBool true);
       ("eth_enabled", JBool true); ("ip4_enabled", JBool true);
       ("icmp4_enabled", JBool true);
       ("eth_src_mac", JStr "aa:bb:cc:dd:ee:ff");
       ("eth_dst_mac", JStr "11:22:33:44:55:66");
       ("ip4_src", JStr "10.0.0.1"); ("ip4_dst", JStr "10.0.0.2")].

Definition ready_net : Net :=
  or_else (apply_snapshot configure_patch (Net_ctor 5000 lab_world))
    (Net_ctor 5000 lab_world).

(** After a read request from [operator] on the private socket. *)
Definition served_operator : Net :=
  or_else (poll_socket 3 (Some read_request) true (Net_ctor 5000 lab_world))
    (Net_ctor 5000 lab_world).

(** Then a read request from [stranger] taken from the bus socket. *)
Definition served_bus : Net :=
  or_else (poll_socket 4 (Some bus_read_request) false served_operator)
    served_operator.

Definition fired_once : Net := or_else (apply_snapshot tx_fire_patch ready_net) ready_net.
Definition fired_twice : Net := or_else (apply_snapshot tx_fire_patch fired_once) fired_once.


(** A new instance after a snapshot that names a transmit device
    [lab_world] does not have. *)
Definition no_device_net : Net :=
  or_else (apply_snapshot (obj [("libnet_device", JStr "wlan9")])
             (Net_ctor 5000 lab_world))
    (Net_ctor 5000 lab_world).

(** After a create that the driver refused. *)
Definition failed_create_net : Net := create Transmit no_device_net.

(** Then: the right device and a create, the rest of the configuration, a
    transmission, a poll of the capture, a destroy. *)
Definition recovery : list Op :=
  [Snapshot (obj [("libnet_device", JStr "eno1"); ("libnet_create", JBool true)]);
   Snapshot configure_patch;
   Snapshot tx_fire_patch;
   Rx;
   Destroy Transmit].

Definition garbage : Datagram := mkDatagram operator "{not json" None.

Definition echo_reply : pcap_pkthdr := mkPkthdr 98 98.

(** The link delivers a frame to the capture. *)
Definition frame_arrives (h : pcap_pkthdr) (s : Net) : Net :=
  with_world (set_w_capture (w_capture (world s) ++ [PcapPacket h]) (world s)) s.

(** [ready_net] with one frame in the capture buffer. *)
Definition frame_pending_net : Net := frame_arrives echo_reply ready_net.

(** After that frame was taken by an rx_fire: the buffer is empty again and
    [rx_done] is still set. *)
Definition stale_net : Net :=
  or_else (apply_snapshot rx_fire_patch frame_pending_net) frame_pending_net.

(** * More of Net.hpp and Net.cpp *)

(** ** Net.hpp: [mac_to_string]

    [snprintf] with six [%02x] conversions separated by colons into a buffer
    of 32 bytes; the arguments are bytes, so each conversion prints exactly
    two lower-case digits and the 17 characters fit. *)

Definition hex_char (d : Z) : ascii :=
  ascii_of_nat (Z.to_nat (if d <? 10 then 48 + d else 87 + d)).

Definition hex2 (b : Z) : string :=
  String (hex_char (b / 16)) (String (hex_char (b mod 16)) EmptyString).

Definition mac_to_string (mac : list Z) : string :=
  (hex2 (nth 0 mac 0) ++ String ":"
    (hex2 (nth 1 mac 0) ++ String ":"
      (hex2 (nth 2 mac 0) ++ String ":"
        (hex2 (nth 3 mac 0) ++ String ":"
          (hex2 (nth 4 mac 0) ++ String ":"
            (hex2 (nth 5 mac 0)))))))%string.

(** ** Net.cpp: [Net::~Net]

    The body of the destructor; the base class then closes the sockets. *)

Definition Net_dtor (s : Net) : Net :=
  do_libnet_destroy (do_pcap_destroy s).

(** ** The keys [apply_snapshot] looks at *)

Definition configuration_keys : list string :=
  ["libnet_device"; "pcap_device"; "snaplen"; "promisc"; "timeout_ms";
   "pcap_filter"; "eth_enabled"; "eth_src_mac"; "eth_dst_mac"; "eth_type";
   "ip4_enabled"; "ip4_src"; "ip4_dst"; "ip4_ttl"; "icmp4_enabled";
   "icmp4_type"; "icmp4_code"; "icmp4_id"; "icmp4_seq"; "icmp4_payload"].

Definition trigger_keys : list string :=
  ["libnet_create"; "libnet_destroy"; "pcap_create"; "pcap_destroy";
   "pcap_set_filter"; "read"; "tx_fire"; "rx_fire"; "tick"].

(** [j] has none of [keys]. *)
Definition mentions_none (j : json) (keys : list string) : bool :=
  forallb (fun key => negb (contains j key)) keys.

(** Every trigger of [j] reads as false: absent, or present and false. *)
Definition no_trigger (j : json) : bool :=
  forallb (fun key => match value j key false with
                      | Ok false => true
                      | _ => false
                      end) trigger_keys.

(** The value a configuration register has after [assign]: the converted
    member when the key is there, else the old value. *)
Definition cfg {A : Type} (j : json) (key : string) (get : json -> Result A)
  (old : A) : A :=
  if contains j key
  then match get (at_key j key) with
       | Ok v => v
       | Throw _ => old
       end
  else old.

(** ** More concrete patches *)

(** A patch that only configures; the time to live does not fit a byte. *)
Definition tuning_patch : json :=
  obj [("eth_enabled", JBool true); ("ip4_ttl", JNum 300);
       ("pcap_filter", JStr "icmp"); ("read", JBool false)].

Definition read_patch : json := obj [("read", JBool true)].



(** ** What the run loop is built on *)

Definition is_object (j : json) : bool :=
  match j with
  | JObj _ => true
  | _ => false
  end.

(** The members of [Component] fixed by the constructor. *)
Definition endpoints (c : Component) : Z * Z * bool * bool * Z * Z :=
  (sba_ c, publish_period_ms_ c, listen_bus_ c, running_ c, udp_fd_ c, bus_fd_ c).

(** A well-formed datagram that is no object. *)
Definition seven : Datagram := mkDatagram operator "7" (Some (JNum 7)).

(** ** What NET ever asserts *)

(** A belief of component NET about one of its two completions. *)
Definition net_belief (b : Belief) : Prop :=
  component b = "NET" /\
  (belief_key b = ("NET.tx_done", true) \/ belief_key b = ("NET.rx_done", true)).

Definition owned (s : Net) : Prop := Forall net_belief (committed_ (base s)).

(** A configuration and two transmissions, each in its own turn of the
    loop. *)
Definition three_requests : list (option Datagram * option Datagram) :=
  [(Some (mkDatagram operator "a" (Some configure_patch)), None);
   (Some (mkDatagram operator "b" (Some tx_fire_patch)), None);
   (Some (mkDatagram operator "c" (Some tx_fire_patch)), None)].

(** ** More concrete instances *)

(** [ready_net] after a snapshot that sets the destination to the null
    address. *)
Definition null_ip_net : Net :=
  or_else (apply_snapshot (obj [("ip4_dst", JStr "0.0.0.0")]) ready_net) ready_net.

(** [ready_net] on a link that refuses the write. *)
Definition link_down_net : Net :=
  with_world
    (mkWorld (w_bind_ok (world ready_net)) (w_next_fd (world ready_net))
       (w_outbox (world ready_net)) (w_now (world ready_net))
       (w_libnet_init (world ready_net)) (w_name2addr4 (world ready_net))
       (w_prand (world ready_net))
       (Some "libnet_write_link(): only -1 bytes written (Network is down)")
       (w_wire (world ready_net)) (w_libnet_open (world ready_net))
       (w_pcap_open_live (world ready_net)) (w_bpf_ok (world ready_net))
       (w_capture (world ready_net)) (w_pcap_open (world ready_net)))
    ready_net.

(** [ready_net] with the sequence counter at its last value and a payload. *)
Definition last_seq_net : Net :=
  or_else (apply_snapshot (obj [("icmp4_seq", JNum 65535);
                                ("icmp4_payload", JStr "ping")]) ready_net)
    ready_net.

(** The three blocks [do_tx] queues, outermost first. *)
Definition echo_frame (s : Net) (eth_src eth_dst : list Z) : list pblock :=
  let r := regs_ s in
  [Ethernet eth_dst eth_src (eth_type r);
   Ipv4 (cast_uint16 (LIBNET_IPV4_H + LIBNET_ICMPV4_ECHO_H
                      + cast_uint32 (Z.of_nat (String.length (icmp4_payload r)))))
     0 (cast_uint16 (w_prand (world s))) 0 (ip4_ttl r) IPPROTO_ICMP 0
     (w_name2addr4 (world s) (ip4_src r)) (w_name2addr4 (world s) (ip4_dst r));
   IcmpEcho (icmp4_type r) (icmp4_code r) 0 (icmp4_id r) (icmp4_seq r)
     (icmp4_payload r)].

(** ** Capture: what a poll can find *)

(** The next poll of the capture will not deliver a frame: there is no
    capture, or its buffer is empty, or what comes first is a timeout, an
    error or a break. *)
Definition no_frame (s : Net) : bool :=
  match pcap_ s, w_capture (world s) with
  | None, _ => true
  | Some _, [] => true
  | Some _, PcapPacket _ :: _ => false
  | Some _, _ :: _ => true
  end.

(** The context [do_rx] gives the belief it commits for a frame. *)
Definition rx_context (h : pcap_pkthdr) : json :=
  JObj [("rx_len", JNum (len h)); ("rx_caplen", JNum (caplen h))].

(** That context as the ledger holds it and the envelope carries it: the
    members of a [nlohmann::json] come in the order of their keys. *)
Definition stored_rx_context (h : pcap_pkthdr) : json :=
  JObj [("rx_caplen", JNum (caplen h)); ("rx_len", JNum (len h))].

Definition short_frame : pcap_pkthdr := mkPkthdr 60 1514.

(** [ready_net] with an error and then a frame in the capture buffer. *)
Definition capture_error_net : Net :=
  with_world (set_w_capture [PcapError; PcapPacket echo_reply] (world ready_net))
    ready_net.

(** [ready_net] with two frames in the capture buffer. *)
Definition two_frames_net : Net :=
  frame_arrives short_frame (frame_arrives echo_reply ready_net).

(** ** Lifecycle keys *)

Definition create_key (k : Resource) : string :=
  match k with
  | Transmit => "libnet_create"
  | Capture => "pcap_create"
  end.

Definition destroy_key (k : Resource) : string :=
  match k with
  | Transmit => "libnet_destroy"
  | Capture => "pcap_destroy"
  end.

(** What has gone through the driver of a kind: frames written, or events
    still waiting to be polled. *)
Definition traffic (k : Resource) (s : Net) : nat :=
  match k with
  | Transmit => length (w_wire (world s))
  | Capture => length (w_capture (world s))
  end.

(** Absent and idle: the handle of kind [k] is absent and the driver has
    seen no traffic since [s0]. *)
Definition idle (k : Resource) (s0 s : Net) : Prop :=
  live k s = false /\ traffic k s = traffic k s0.

(** Untouched: the driver of kind [k] has seen no traffic since [s0]. *)
Definition quiet (k : Resource) (s0 s : Net) : Prop :=
  traffic k s = traffic k s0.

(** A snapshot that asks for everything at once. *)
Definition create_and_destroy_patch : json :=
  obj [("libnet_create", JBool true); ("libnet_destroy", JBool true);
       ("pcap_create", JBool true); ("pcap_destroy", JBool true);
       ("tx_fire", JBool true); ("rx_fire", JBool true)].

(** ** The capture filter *)

(** A capture started with a filter in one snapshot. *)
Definition filtered_capture_patch (expr : string) : json :=
  obj [("pcap_set_filter", JBool true); ("pcap_create", JBool true);
       ("pcap_filter", JStr expr)].

Definition set_filter_patch : json := obj [("pcap_set_filter", JBool true)].

(** ** What the instance sends *)

(** A belief envelope addressed to the sink. *)
Definition is_belief_envelope (m : Sent) : Prop :=
  exists b, sent_doc m = belief_envelope b /\
            sent_to m = mkSockaddr INADDR_LOOPBACK BLS_PORT.

(** A register serialization, as a read is answered with. *)
Definition is_read_reply (m : Sent) : Prop :=
  exists t, sent_doc m = serialize_registers t.

(** Everything sent so far left through the private socket and is one of
    the two. *)
Definition sent_ok (s : Net) : Prop :=
  Forall (fun m => sent_fd m = udp_fd_ (base s) /\
                   (is_belief_envelope m \/ is_read_reply m))
    (w_outbox (world s)).

(** A configuration, a capture and a read, the read taken from the bus. *)
Definition busy_day : list (option Datagram * option Datagram) :=
  [(Some (mkDatagram operator "a" (Some configure_patch)), None);
   (Some (mkDatagram operator "b" (Some tx_fire_patch)),
    Some (mkDatagram stranger "c" (Some read_patch)))].

(** ** Hardware addresses: what [parse_mac] lets through *)

(** The text does not go on with a hexadecimal digit. *)
Definition ends_number (t : string) : bool :=
  match t with
  | String c _ => negb (is_live (hex_digit c))
  | EmptyString => true
  end.

(** * Properties *)

(** ** The model on small inputs *)

Example parse_mac_octets :
  parse_mac "aa:bb:cc:dd:ee:ff" = Some [170; 187; 204; 221; 238; 255].
Proof. reflexivity. Qed.

Example parse_mac_five_groups : parse_mac "aa:bb:cc:dd:ee" = None.
Proof. reflexivity. Qed.

Example parse_mac_wrong_separator : parse_mac "aa-bb-cc-dd-ee-ff" = None.
Proof. reflexivity. Qed.

(** [sscanf] stops after the sixth conversion and keeps the low byte of each
    value. *)
Example parse_mac_is_lenient :
  parse_mac "1:2:3:4:5:6 and more" = Some [1; 2; 3; 4; 5; 6] /\
  parse_mac "1ff:0x10: 7:-1:+2:0" = Some [255; 16; 7; 255; 2; 0].
Proof. split; reflexivity. Qed.

Example value_defaults :
  value (obj [("read", JBool true)]) "read" false = Ok true /\
  value (obj []) "read" false = Ok false /\
  value (obj [("read", JNum 1)]) "read" false = Throw (type_error 302) /\
  value (JArr []) "read" false = Throw (type_error 306).
Proof. repeat split. Qed.

Example new_instance_on_lab_world :
  running_ (base (Net_ctor 5000 lab_world)) = true /\
  udp_fd_ (base (Net_ctor 5000 lab_world)) = 3 /\
  bus_fd_ (base (Net_ctor 5000 lab_world)) = 4 /\
  serialize_registers (Net_ctor 5000 lab_world)
    = obj [("component", JStr "NET"); ("sba", JNum 5000);
           ("libnet_device", JStr "eno1"); ("pcap_device", JStr "eno1");
           ("libnet_live", JBool false); ("pcap_live", JBool false);
           ("tx_done", JBool false); ("rx_done", JBool false);
           ("rx_len", JNum 0); ("rx_caplen", JNum 0);
           ("last_error", JStr "")].
Proof. repeat split. Qed.

(** The first transmission of a configured instance: one frame on the wire,
    sequence number 0 in it and 1 in the register. *)
Example first_transmission :
  w_wire (world fired_once)
    = [[Ethernet [17; 34; 51; 68; 85; 102] [170; 187; 204; 221; 238; 255] 2048;
        Ipv4 28 0 1234 0 64 1 0 167772161 167772162;
        IcmpEcho 8 0 0 4660 0 ""]] /\
  icmp4_seq (regs_ fired_once) = 1 /\
  tx_done (regs_ fired_once) = true.
Proof. vm_compute. repeat split. Qed.

(** An rx_fire with nothing to capture leaves [rx_done] clear and sends
    nothing. *)
Example rx_fire_without_frame :
  rx_done (regs_ (or_else (apply_snapshot rx_fire_patch ready_net) ready_net))
    = false /\
  w_outbox (world (or_else (apply_snapshot rx_fire_patch ready_net) ready_net))
    = [].
Proof. vm_compute. repeat split. Qed.

(** An empty patch changes nothing; a value of the wrong kind ends the
    call with the library's type error. *)
Example empty_and_ill_typed_patches :
  apply_snapshot (obj []) ready_net = Ok ready_net /\
  apply_snapshot (obj [("snaplen", JStr "big")]) ready_net
    = Throw (type_error 302) /\
  apply_snapshot JNull ready_net = Throw (type_error 306).
Proof. vm_compute. repeat split. Qed.

(** ** Reasoning about [apply_snapshot] *)

Lemma bind_Ok {A B : Type} (m : Result A) (k : A -> Result B) (b : B) :
  bind m k = Ok b -> exists a, m = Ok a /\ k a = Ok b.
Proof.
  destruct m as [a | e]; simpl; intros H; [eauto | discriminate].
Qed.

Ltac split_bind H :=
  let a := fresh "s" in
  let Ha := fresh "Hstep" in
  apply bind_Ok in H; destruct H as [a [Ha H]].

Lemma config_only_refl s : config_only s s.
Proof. unfold config_only, status_eq; intuition. Qed.

Lemma config_only_trans s1 s2 s3 :
  config_only s1 s2 -> config_only s2 s3 -> config_only s1 s3.
Proof.
  unfold config_only, status_eq; intros H1 H2.
  decompose [and] H1; decompose [and] H2.
  repeat split; congruence.
Qed.

Lemma assign_config_only {A : Type} j key (get : json -> Result A) set s s' :
  (forall v r, status_eq r (set v r)) ->
  assign j key get set s = Ok s' -> config_only s s'.
Proof.
  intros Hset; unfold assign.
  destruct (contains j key).
  - intros H; split_bind H. injection H as <-.
    unfold config_only; simpl; repeat split; apply Hset.
  - intros H; injection H as <-; apply config_only_refl.
Qed.

Ltac status_eq_setter :=
  intros ? ?; unfold status_eq; simpl; repeat split; reflexivity.

Lemma apply_configuration_config_only j s s' :
  apply_configuration j s = Ok s' -> config_only s s'.
Proof.
  unfold apply_configuration; intros H.
  repeat split_bind H.
  repeat match goal with
         | E : assign _ _ _ _ _ = Ok _ |- _ =>
             apply assign_config_only in E; [ | status_eq_setter ]
         end.
  repeat (eapply config_only_trans; [ eassumption | ]).
  apply config_only_refl.
Qed.

Lemma when_set_cases j key action s s' :
  when_set j key action s = Ok s' -> s' = s \/ s' = action s.
Proof.
  unfold when_set; intros H; split_bind H.
  injection H as <-. destruct s0; auto.
Qed.

(** An invariant of the object survives a snapshot as soon as it survives a
    configuration write and each of the actions a snapshot can trigger. *)
Section SnapshotInvariant.

Variable P : Net -> Prop.

Hypothesis P_config : forall s s', config_only s s' -> P s -> P s'.
Hypothesis P_libnet_create : forall s, P s -> P (do_libnet_create s).
Hypothesis P_libnet_destroy : forall s, P s -> P (do_libnet_destroy s).
Hypothesis P_pcap_create : forall s, P s -> P (do_pcap_create s).
Hypothesis P_pcap_destroy : forall s, P s -> P (do_pcap_destroy s).
Hypothesis P_set_filter : forall s, P s -> P (set_filter s).
Hypothesis P_reply :
  forall s, P s -> P (snd (reply_json (serialize_registers s) s)).
Hypothesis P_tx_reset :
  forall s, P s -> P (with_regs_ (set_tx_done false (regs_ s)) s).
Hypothesis P_rx_reset :
  forall s, P s -> P (with_regs_ (set_rx_done false (regs_ s)) s).
Hypothesis P_tx : forall s, P s -> P (do_tx s).
Hypothesis P_rx : forall s, P s -> P (do_rx s).

Lemma when_set_invariant j key action s s' :
  (forall s, P s -> P (action s)) ->
  P s -> when_set j key action s = Ok s' -> P s'.
Proof.
  intros Hact HP H. apply when_set_cases in H.
  destruct H; subst; auto.
Qed.

Lemma apply_lifecycle_invariant j s s' :
  P s -> apply_lifecycle j s = Ok s' -> P s'.
Proof.
  intros HP H. unfold apply_lifecycle in H.
  split_bind H. split_bind H. split_bind H.
  apply (when_set_invariant _ _ _ _ _ P_libnet_create HP) in Hstep.
  apply (when_set_invariant _ _ _ _ _ P_libnet_destroy Hstep) in Hstep0.
  apply (when_set_invariant _ _ _ _ _ P_pcap_create Hstep0) in Hstep1.
  exact (when_set_invariant _ _ _ _ _ P_pcap_destroy Hstep1 H).
Qed.

Lemma apply_actions_invariant j s s' :
  P s -> apply_actions j s = Ok s' -> P s'.
Proof.
  intros HP H. unfold apply_actions in H.
  split_bind H. split_bind H.
  assert (Htx : forall s, P s ->
            P (do_tx (with_regs_ (set_tx_done false (regs_ s)) s))) by auto.
  assert (Hrx : forall s, P s ->
            P (do_rx (with_regs_ (set_rx_done false (regs_ s)) s))) by auto.
  apply (when_set_invariant _ _ _ _ _ Htx HP) in Hstep.
  apply (when_set_invariant _ _ _ _ _ Hrx Hstep) in Hstep0.
  exact (when_set_invariant _ _ _ _ _ P_rx Hstep0 H).
Qed.

Lemma apply_snapshot_invariant j s s' :
  P s -> apply_snapshot j s = Ok s' -> P s'.
Proof.
  intros HP H. unfold apply_snapshot in H.
  split_bind H. split_bind H. split_bind H. split_bind H.
  apply apply_configuration_config_only in Hstep.
  apply (P_config _ _ Hstep) in HP.
  apply (apply_lifecycle_invariant _ _ _ HP) in Hstep0.
  apply (when_set_invariant _ _ _ _ _ P_set_filter Hstep0) in Hstep1.
  unfold apply_read in Hstep2.
  apply (when_set_invariant _ _ _ _ _ P_reply Hstep1) in Hstep2.
  exact (apply_actions_invariant _ _ _ Hstep2 H).
Qed.

End SnapshotInvariant.

(** Case analysis through the body of an action. *)
Ltac break_match :=
  match goal with
  | |- context [match ?x with _ => _ end] =>
      lazymatch x with
      | context [match _ with _ => _ end] => fail
      | _ => let E := fresh "E" in destruct x eqn:E
      end
  end.

(* Arithmetic on register values stays folded during case analysis. *)
#[local] Arguments Z.add : simpl never.
#[local] Arguments Z.sub : simpl never.
#[local] Arguments Z.mul : simpl never.
#[local] Arguments Z.modulo : simpl never.
#[local] Arguments Z.pow : simpl never.
#[local] Arguments Z.of_nat : simpl never.
#[local] Arguments String.length : simpl never.
#[local] Arguments cast_uint16 : simpl never.
#[local] Arguments cast_uint32 : simpl never.

Ltac unfold_actions :=
  unfold do_libnet_create, do_libnet_destroy, do_pcap_create, do_pcap_destroy,
    set_filter, do_tx, do_rx, commit, send_json, reply_json, sendto,
    libnet_init, pcap_open_live, libnet_write, pcap_next_ex, set_error,
    libnet_destroy_ctx, pcap_close.

Ltac by_cases := unfold_actions; repeat (simpl; try break_match); simpl.

Arguments commit : simpl never.

(** ** The remembered sender *)

Lemma apply_snapshot_keeps_sender j s s' :
  apply_snapshot j s = Ok s' -> sender_of s' = sender_of s.
Proof.
  intros H.
  apply (apply_snapshot_invariant (fun x => sender_of x = sender_of s))
    with (j := j) (s := s); auto.
  1: intros a b [Hb _] Ha; unfold sender_of in *; rewrite Hb; exact Ha.
  all: intros; match goal with E : sender_of _ = _ |- _ => rewrite <- E end.
  all: by_cases; reflexivity.
Qed.

Lemma poll_socket_bus_keeps_sender fd pending s s' :
  poll_socket fd pending false s = Ok s' -> sender_of s' = sender_of s.
Proof.
  unfold poll_socket.
  destruct (recvfrom fd pending) as [d | ]; [ | intros H; injection H as <-; reflexivity ].
  destruct (Z.of_nat (String.length (dg_bytes d)) <=? 0);
    [ intros H; injection H as <-; reflexivity | ].
  destruct (dg_parse d) as [j | ]; [ | intros H; injection H as <-; reflexivity ].
  intros H. split_bind H. injection H as <-.
  unfold on_message. eapply apply_snapshot_keeps_sender; eassumption.
Qed.

Lemma poll_socket_private_sets_sender fd d s s' :
  0 <= fd -> dg_bytes d <> "" ->
  poll_socket fd (Some d) true s = Ok s' -> sender_of s' = (true, dg_sender d).
Proof.
  intros Hfd Hbytes. unfold poll_socket, recvfrom.
  destruct (fd <? 0) eqn:E; [ apply Z.ltb_lt in E; lia | clear E ].
  destruct (Z.of_nat (String.length (dg_bytes d)) <=? 0) eqn:E.
  { apply Z.leb_le in E. destruct (dg_bytes d) as [ | c rest]; [ congruence | ].
    change (String.length (String c rest)) with (S (String.length rest)) in E. lia. }
  destruct (dg_parse d) as [j | ]; [ | intros H; injection H as <-; reflexivity ].
  intros H. split_bind H. injection H as <-.
  unfold on_message. apply apply_snapshot_keeps_sender in Hstep.
  rewrite Hstep. reflexivity.
Qed.

(** ** Construction and the run loop *)

Lemma fd_not_negative n : (Z.of_nat n <? 0) = false.
Proof. apply Z.ltb_ge; lia. Qed.

Lemma fd_valid n : (0 <=? Z.of_nat n) = true.
Proof. apply Z.leb_le; lia. Qed.

Lemma Component_ctor_outcome sba period listen_bus w :
  let c := fst (Component_ctor sba period listen_bus w) in
  running_ c = w_bind_ok w sba && (negb listen_bus || w_bind_ok w BUS_PORT) /\
  (0 <=? udp_fd_ c) = w_bind_ok w sba /\
  (0 <=? bus_fd_ c) = listen_bus && w_bind_ok w BUS_PORT.
Proof.
  unfold Component_ctor, setup_udp, setup_bus, make_socket. simpl.
  destruct (w_bind_ok w sba) eqn:Ep, listen_bus; simpl;
    rewrite ?Ep, ?fd_not_negative; simpl;
    try (destruct (w_bind_ok w BUS_PORT) eqn:Eb; simpl);
    rewrite ?fd_not_negative, ?fd_valid; simpl; auto.
  repeat split; auto using fd_valid.
Qed.

Lemma Net_ctor_base sba w : base (Net_ctor sba w) = fst (Component_ctor sba 0 true w).
Proof.
  unfold Net_ctor. destruct (Component_ctor sba 0 true w); reflexivity.
Qed.

Lemma run_stopped arrivals s : running_ (base s) = false -> run arrivals s = Ok s.
Proof.
  intros H. destruct arrivals as [ | [private bus] later]; simpl; [ reflexivity | ].
  rewrite H. reflexivity.
Qed.

Lemma Net_ctor_has_no_sender sba w : has_sender_ (base (Net_ctor sba w)) = false.
Proof.
  rewrite Net_ctor_base.
  unfold Component_ctor, setup_udp, setup_bus, make_socket; simpl.
  repeat (match goal with
          | |- context [if ?x then _ else _] => destruct x
          end; simpl); reflexivity.
Qed.

(** C1 (as amended).  An instance runs exactly when every endpoint it was
    asked to bind is bound: [running_] after construction is the conjunction
    of the private bind and, when bus listening was requested, the bus bind.
    [Net] always requests bus listening, so for it a failed bus bind stops the
    instance just as a failed private bind does, and the run loop then
    processes nothing.  Only an instance constructed without bus listening
    runs with no bus endpoint. *)
Theorem bind_failure_stops_instance :
  forall (sba period : Z) (listen_bus : bool) (w : World)
         (arrivals : list (option Datagram * option Datagram)),
    let c := fst (Component_ctor sba period listen_bus w) in
    running_ c = w_bind_ok w sba && (negb listen_bus || w_bind_ok w BUS_PORT) /\
    (0 <=? udp_fd_ c) = w_bind_ok w sba /\
    (0 <=? bus_fd_ c) = listen_bus && w_bind_ok w BUS_PORT /\
    running_ (base (Net_ctor sba w)) = w_bind_ok w sba && w_bind_ok w BUS_PORT /\
    run arrivals (Net_ctor sba w) =
      if w_bind_ok w sba && w_bind_ok w BUS_PORT
      then run arrivals (Net_ctor sba w)
      else Ok (Net_ctor sba w).
Proof.
  intros sba period listen_bus w arrivals c.
  destruct (Component_ctor_outcome sba period listen_bus w) as [Hr [Hu Hb]].
  destruct (Component_ctor_outcome sba 0 true w) as [Hn _].
  rewrite <- Net_ctor_base in Hn. simpl in Hn.
  repeat split; try assumption.
  destruct (w_bind_ok w sba && w_bind_ok w BUS_PORT) eqn:E; [ reflexivity | ].
  apply run_stopped. exact Hn.
Qed.

(** C1, the claim as stated fails: the private port binds, the bus port does
    not, and the instance is not running; a request pending on the private
    socket is never answered. *)
Lemma bus_bind_failure_is_fatal :
  w_bind_ok busy_bus_world 5000 = true /\
  w_bind_ok busy_bus_world BUS_PORT = false /\
  (0 <=? udp_fd_ (base (Net_ctor 5000 busy_bus_world))) = true /\
  running_ (base (Net_ctor 5000 busy_bus_world)) = false /\
  run [(Some read_request, None)] (Net_ctor 5000 busy_bus_world)
    = Ok (Net_ctor 5000 busy_bus_world) /\
  w_outbox (world (Net_ctor 5000 busy_bus_world)) = [].
Proof. repeat split. Qed.

(** ** The belief ledger *)

(** C6.  A commit whose subject does not start with the component name
    followed by a dot changes nothing: the ledger keeps its length and
    nothing is sent. *)
Theorem commit_rejects_foreign_subject :
  forall (subj : string) (pol : bool) (ctx : json) (s : Net),
    String.prefix (component_name ++ ".") subj = false ->
    commit subj pol ctx s = s /\
    length (committed_ (base (commit subj pol ctx s)))
      = length (committed_ (base s)) /\
    w_outbox (world (commit subj pol ctx s)) = w_outbox (world s).
Proof.
  intros subj pol ctx s H.
  assert (E : commit subj pol ctx s = s) by (unfold commit; rewrite H; reflexivity).
  rewrite E. auto.
Qed.

(** C6 on a new instance named NET, for the subject OTHER.subject. *)
Lemma commit_rejects_foreign_subject_witness :
  commit "OTHER.subject" true (obj []) (Net_ctor 5000 lab_world)
    = Net_ctor 5000 lab_world /\
  length (committed_ (base (commit "OTHER.subject" true (obj [])
                              (Net_ctor 5000 lab_world))))
    = length (committed_ (base (Net_ctor 5000 lab_world))) /\
  w_outbox (world (commit "OTHER.subject" true (obj []) (Net_ctor 5000 lab_world)))
    = w_outbox (world (Net_ctor 5000 lab_world)).
Proof.
  apply (commit_rejects_foreign_subject "OTHER.subject" true (obj [])
           (Net_ctor 5000 lab_world)).
  reflexivity.
Defined.

(** ** Replies *)

(** C9.  A datagram taken from the bus socket, well formed or not, leaves
    [has_sender_] and [last_sender_] as they were, so a reply after it goes
    where it would have gone before it: nowhere (result false, nothing sent)
    when no private datagram was ever received, else to the sender remembered
    from the private socket.  A non-empty datagram on the private socket
    makes its sender the remembered one, and a new instance remembers
    none. *)
Theorem bus_datagram_keeps_reply_sender :
  forall (fd : Z) (pending : option Datagram) (s s' : Net),
    poll_socket fd pending false s = Ok s' ->
    has_sender_ (base s') = has_sender_ (base s) /\
    last_sender_ (base s') = last_sender_ (base s) /\
    (forall j : json,
        reply_json j s' =
          if has_sender_ (base s)
          then (let (ok, w) := sendto (udp_fd_ (base s')) (last_sender_ (base s))
                                 j (world s') in
                (ok, with_world w s'))
          else (false, s')) /\
    (forall (fd0 : Z) (d : Datagram) (s0 s1 : Net),
        0 <= fd0 -> dg_bytes d <> "" ->
        poll_socket fd0 (Some d) true s0 = Ok s1 ->
        has_sender_ (base s1) = true /\ last_sender_ (base s1) = dg_sender d) /\
    (forall (sba : Z) (w : World) (j : json),
        reply_json j (Net_ctor sba w) = (false, Net_ctor sba w)).
Proof.
  intros fd pending s s' H.
  apply poll_socket_bus_keeps_sender in H.
  unfold sender_of in H. injection H as Hhas Hlast.
  split; [ exact Hhas | ]. split; [ exact Hlast | ].
  split; [ | split ].
  - intros j. unfold reply_json. rewrite Hhas, Hlast.
    destruct (has_sender_ (base s)); reflexivity.
  - intros fd0 d s0 s1 Hfd Hbytes Hpoll.
    apply poll_socket_private_sets_sender in Hpoll; try assumption.
    unfold sender_of in Hpoll. injection Hpoll as -> ->. auto.
  - intros sba w j. unfold reply_json.
    rewrite Net_ctor_has_no_sender. reflexivity.
Qed.

(** C9 on an instance that answered [operator] on the private socket and
    then takes a read request from [stranger] off the bus: both replies go to
    [operator]. *)
Lemma bus_datagram_keeps_reply_sender_witness :
  has_sender_ (base served_bus) = true /\
  last_sender_ (base served_bus) = operator /\
  map sent_to (w_outbox (world served_bus)) = [operator; operator].
Proof.
  destruct (bus_datagram_keeps_reply_sender 4 (Some bus_read_request)
              served_operator served_bus eq_refl) as [H1 [H2 _]].
  rewrite H1, H2. repeat split.
Defined.

(** ** The ledger over the lifetime of an instance *)

Lemma beliefs_sent_app a b : beliefs_sent (a ++ b) = beliefs_sent a ++ beliefs_sent b.
Proof.
  induction a as [ | m a IH]; simpl; [ reflexivity | ].
  destruct (envelope_key m); simpl; rewrite IH; reflexivity.
Qed.

Lemma same_belief_iff subj pol b :
  same_belief subj pol b = true <-> belief_key b = (subj, pol).
Proof.
  unfold same_belief, belief_key. rewrite andb_true_iff, String.eqb_eq, Bool.eqb_true_iff.
  split; [ intros [-> ->]; reflexivity | intros H; injection H; auto ].
Qed.

Lemma existsb_same_belief subj pol l :
  existsb (same_belief subj pol) l = true <-> In (subj, pol) (map belief_key l).
Proof.
  rewrite existsb_exists, in_map_iff.
  split; intros [b [H1 H2]]; exists b.
  - apply same_belief_iff in H2. auto.
  - split; [ assumption | apply same_belief_iff; assumption ].
Qed.

(** The three outcomes of a commit. *)
Lemma commit_cases subj pol ctx s :
  let b := mkBelief component_name subj pol (json_of_ordered ctx) in
  (commit subj pol ctx s = s /\
   (String.prefix (component_name ++ ".") subj = false \/
    In (subj, pol) (ledger_keys s))) \/
  (String.prefix (component_name ++ ".") subj = true /\
   ~ In (subj, pol) (ledger_keys s) /\
   commit subj pol ctx s =
     snd (send_json (belief_envelope b) BLS_PORT
            (with_base (set_committed_ (committed_ (base s) ++ [b]) (base s)) s))).
Proof.
  unfold commit. cbv zeta.
  destruct (String.prefix (component_name ++ ".") subj) eqn:Ep;
    cbn [negb]; [ | auto ].
  destruct (existsb (same_belief subj pol) (committed_ (base s))) eqn:Ee.
  - left. split; [ reflexivity | right ]. apply existsb_same_belief. exact Ee.
  - right. split; [ reflexivity | split; [ | reflexivity ] ].
    intros Hin. apply existsb_same_belief in Hin. congruence.
Qed.

Lemma commit_ledger_ok subj pol ctx s : ledger_ok s -> ledger_ok (commit subj pol ctx s).
Proof.
  intros [Hnd Hsent].
  destruct (commit_cases subj pol ctx s) as [[-> _] | [Hp [Hfresh ->]]];
    [ split; assumption | ].
  unfold ledger_ok, ledger_keys, send_json, sendto in *. simpl.
  destruct (0 <=? udp_fd_ (base s)) eqn:Efd; simpl; rewrite ?Efd.
  - rewrite map_app, beliefs_sent_app, Hsent. simpl.
    split; [ | reflexivity ].
    apply NoDup_app; [ exact Hnd | repeat constructor; simpl; tauto | ].
    intros k Hk [<- | []]. apply Hfresh. exact Hk.
  - rewrite map_app. split; [ | exact Hsent ].
    apply NoDup_app; [ exact Hnd | repeat constructor; simpl; tauto | ].
    intros k Hk [<- | []]. apply Hfresh. exact Hk.
Qed.

Lemma same_ledger_refl s : same_ledger s s.
Proof. repeat split. Qed.

Lemma same_ledger_ok s s' : same_ledger s s' -> ledger_ok s -> ledger_ok s'.
Proof.
  intros [Hc [Hfd Hw]]. unfold ledger_ok, ledger_keys. rewrite Hc, Hfd, Hw. auto.
Qed.

Ltac same_ledger_cases :=
  unfold do_libnet_create, do_libnet_destroy, do_pcap_create, do_pcap_destroy,
    set_filter, do_tx, do_rx, libnet_init, pcap_open_live, libnet_write,
    pcap_next_ex, set_error, libnet_destroy_ctx, pcap_close;
  repeat (simpl; try break_match); simpl.

(** [do_tx] touches the ledger and the outbox through [commit] only. *)
Lemma do_tx_shape s :
  exists s1, same_ledger s s1 /\
             (do_tx s = s1 \/ do_tx s = commit "NET.tx_done" true (JObj []) s1).
Proof.
  same_ledger_cases;
    try solve [eexists; split; [ | left; reflexivity ]; repeat split; reflexivity];
    try discriminate.
  all: eexists; split; [ | right; reflexivity ]; repeat split; reflexivity.
Qed.

Lemma do_rx_shape s :
  exists s1 ctx, same_ledger s s1 /\
                 (do_rx s = s1 \/ do_rx s = commit "NET.rx_done" true ctx s1).
Proof.
  same_ledger_cases;
    try solve [eexists; exists JNull; split; [ | left; reflexivity ];
               repeat split; reflexivity];
    try discriminate.
  all: eexists; eexists; split; [ | right; reflexivity ]; repeat split; reflexivity.
Qed.

Lemma envelope_key_registers fd dest s :
  envelope_key (mkSent fd dest (serialize_registers s)) = None.
Proof. reflexivity. Qed.

Lemma reply_ledger_ok s :
  ledger_ok s -> ledger_ok (snd (reply_json (serialize_registers s) s)).
Proof.
  intros [Hnd Hsent]. unfold reply_json, sendto.
  destruct (has_sender_ (base s)); simpl; [ | split; assumption ].
  destruct (0 <=? udp_fd_ (base s)) eqn:Efd; simpl.
  - split; [ exact Hnd | ].
    unfold ledger_keys in *; simpl. rewrite Efd, beliefs_sent_app, Hsent.
    simpl. apply app_nil_r.
  - split; [ exact Hnd | simpl; rewrite Efd; exact Hsent ].
Qed.

Lemma apply_snapshot_ledger_ok j s s' :
  ledger_ok s -> apply_snapshot j s = Ok s' -> ledger_ok s'.
Proof.
  apply apply_snapshot_invariant.
  - intros a b [Hb [_ [_ [Hw _]]]]. apply same_ledger_ok.
    unfold same_ledger. rewrite Hb, Hw. repeat split.
  - intros a. apply same_ledger_ok. same_ledger_cases; repeat split.
  - intros a. apply same_ledger_ok. same_ledger_cases; repeat split.
  - intros a. apply same_ledger_ok. same_ledger_cases; repeat split.
  - intros a. apply same_ledger_ok. same_ledger_cases; repeat split.
  - intros a. apply same_ledger_ok. same_ledger_cases; repeat split.
  - apply reply_ledger_ok.
  - intros a. apply same_ledger_ok. repeat split.
  - intros a. apply same_ledger_ok. repeat split.
  - intros a Ha. destruct (do_tx_shape a) as [s1 [Hs [-> | ->]]].
    + eapply same_ledger_ok; eassumption.
    + apply commit_ledger_ok. eapply same_ledger_ok; eassumption.
  - intros a Ha. destruct (do_rx_shape a) as [s1 [ctx [Hs [-> | ->]]]].
    + eapply same_ledger_ok; eassumption.
    + apply commit_ledger_ok. eapply same_ledger_ok; eassumption.
Qed.

Lemma poll_socket_ledger_ok fd pending allow_reply s s' :
  ledger_ok s -> poll_socket fd pending allow_reply s = Ok s' -> ledger_ok s'.
Proof.
  intros Hs. unfold poll_socket.
  destruct (recvfrom fd pending) as [d | ]; [ | intros H; injection H as <-; exact Hs ].
  destruct (Z.of_nat (String.length (dg_bytes d)) <=? 0);
    [ intros H; injection H as <-; exact Hs | ].
  assert (Hs' : ledger_ok
                  (if allow_reply
                   then with_base (set_has_sender_ true
                                     (set_last_sender_ (dg_sender d) (base s))) s
                   else s))
    by (destruct allow_reply; [ exact Hs | exact Hs ]).
  destruct (dg_parse d) as [j | ]; [ | intros H; injection H as <-; exact Hs' ].
  intros H. split_bind H. injection H as <-. unfold on_message.
  eapply apply_snapshot_ledger_ok; eassumption.
Qed.

Lemma run_ledger_ok arrivals : forall s s',
  ledger_ok s -> run arrivals s = Ok s' -> ledger_ok s'.
Proof.
  induction arrivals as [ | [private bus] later IH]; intros s s' Hs H; simpl in H.
  - injection H as <-. exact Hs.
  - destruct (running_ (base s)); [ | injection H as <-; exact Hs ].
    split_bind H. split_bind H.
    apply (poll_socket_ledger_ok _ _ _ _ _ Hs) in Hstep.
    assert (Hs1 : ledger_ok s1).
    { destruct (0 <=? bus_fd_ (base s0)).
      - eapply poll_socket_ledger_ok; eassumption.
      - injection Hstep0 as <-. exact Hstep. }
    apply (IH _ _) in H; [ exact H | ].
    revert Hs1. apply same_ledger_ok. unfold maybe_publish, publish_snapshot, usleep.
    repeat (simpl; try break_match); repeat split.
Qed.

Lemma Net_ctor_ledger_ok sba w :
  beliefs_sent (w_outbox w) = [] -> ledger_ok (Net_ctor sba w).
Proof.
  intros Hw. unfold ledger_ok, ledger_keys, Net_ctor, Component_ctor, setup_udp,
    setup_bus, make_socket.
  repeat (simpl; try break_match);
    repeat match goal with H : (_, _) = (_, _) |- _ => injection H as <- <- end;
    simpl; rewrite ?Hw; split; try constructor; try reflexivity.
Qed.

(** ** The data-plane actions as [apply_snapshot] runs them *)

Lemma apply_snapshot_tx_fire s :
  apply_snapshot tx_fire_patch s = Ok (do_tx (reset_tx_done s)).
Proof. reflexivity. Qed.

Lemma apply_snapshot_rx_fire s :
  apply_snapshot rx_fire_patch s = Ok (do_rx (reset_rx_done s)).
Proof. reflexivity. Qed.

Lemma apply_snapshot_tick s :
  apply_snapshot tick_patch s = Ok (do_rx s).
Proof. reflexivity. Qed.

Lemma do_tx_ready s :
  tx_ready s = true ->
  exists s1, tx_sent s s1 /\ do_tx s = commit "NET.tx_done" true (JObj []) s1.
Proof.
  unfold tx_ready, do_tx, libnet_write. intros H.
  repeat (apply andb_true_iff in H; destruct H as [H ?]).
  destruct (libnet_ s) as [l | ]; [ | discriminate ].
  repeat match goal with
         | E : eth_enabled _ = true |- _ => rewrite E; clear E
         | E : ip4_enabled _ = true |- _ => rewrite E; clear E
         | E : icmp4_enabled _ = true |- _ => rewrite E; clear E
         end.
  destruct (parse_mac (eth_src_mac (regs_ s))); [ | discriminate ].
  destruct (parse_mac (eth_dst_mac (regs_ s))); [ | discriminate ].
  repeat match goal with
         | E : negb _ = true |- _ => apply negb_true_iff in E
         end.
  simpl.
  repeat match goal with
         | E : (_ =? 0) = false |- _ => rewrite E; clear E
         end.
  destruct (w_write_error (world s)) eqn:Ew; [ discriminate | ].
  simpl. eexists. split; [ | reflexivity ].
  unfold tx_sent; simpl. rewrite length_app, Nat.add_comm. simpl.
  repeat split.
Qed.

Lemma do_tx_not_ready s :
  tx_ready s = false ->
  base (do_tx s) = base s /\
  tx_done (regs_ (do_tx s)) = tx_done (regs_ s) /\
  world (do_tx s) = world s.
Proof.
  unfold tx_ready, do_tx, libnet_write, set_error. intros H.
  destruct (libnet_ s) as [l | ]; [ | auto ].
  destruct (eth_enabled (regs_ s)), (ip4_enabled (regs_ s)),
    (icmp4_enabled (regs_ s)); simpl; auto.
  destruct (parse_mac (eth_src_mac (regs_ s))); simpl; auto.
  destruct (parse_mac (eth_dst_mac (regs_ s))); simpl; auto.
  simpl in H.
  destruct (w_name2addr4 (world s) (ip4_src (regs_ s)) =? 0); simpl; auto.
  destruct (w_name2addr4 (world s) (ip4_dst (regs_ s)) =? 0); simpl; auto.
  simpl in H.
  destruct (w_write_error (world s)); simpl; [ | discriminate ].
  auto.
Qed.

Lemma commit_known subj pol ctx s :
  In (subj, pol) (ledger_keys s) -> commit subj pol ctx s = s.
Proof.
  intros Hin. unfold commit. cbv zeta.
  destruct (negb (String.prefix (component_name ++ ".") subj)); [ reflexivity | ].
  apply existsb_same_belief in Hin. rewrite Hin. reflexivity.
Qed.

Lemma commit_in_ledger subj pol ctx s :
  String.prefix (component_name ++ ".") subj = true ->
  In (subj, pol) (ledger_keys (commit subj pol ctx s)).
Proof.
  intros Hp.
  destruct (commit_cases subj pol ctx s) as [[-> [Hf | Hin]] | [_ [_ ->]]].
  - congruence.
  - exact Hin.
  - unfold ledger_keys, send_json, sendto.
    destruct (0 <=? udp_fd_ _); simpl; rewrite map_app; apply in_or_app;
      right; left; reflexivity.
Qed.

(** [commit] leaves the registers, the handles and the drivers alone. *)
Lemma commit_frame subj pol ctx s :
  regs_ (commit subj pol ctx s) = regs_ s /\
  libnet_ (commit subj pol ctx s) = libnet_ s /\
  pcap_ (commit subj pol ctx s) = pcap_ s /\
  udp_fd_ (base (commit subj pol ctx s)) = udp_fd_ (base s) /\
  has_sender_ (base (commit subj pol ctx s)) = has_sender_ (base s) /\
  w_wire (world (commit subj pol ctx s)) = w_wire (world s) /\
  w_name2addr4 (world (commit subj pol ctx s)) = w_name2addr4 (world s) /\
  w_write_error (world (commit subj pol ctx s)) = w_write_error (world s).
Proof.
  destruct (commit_cases subj pol ctx s) as [[-> _] | [_ [_ ->]]];
    [ repeat split | ].
  unfold send_json, sendto. destruct (0 <=? udp_fd_ _); simpl; repeat split.
Qed.

Lemma tx_sent_ready s s1 ctx :
  tx_sent s s1 ->
  tx_ready s = true ->
  tx_ready (reset_tx_done (commit "NET.tx_done" true ctx s1)) = true.
Proof.
  intros [Hb [Hp [Hl [Hr [Ho [Hw [Hn He]]]]]]] H.
  destruct (commit_frame "NET.tx_done" true ctx s1)
    as [Cr [Cl [_ [_ [_ [_ [Cn Ce]]]]]]].
  unfold tx_ready, reset_tx_done in *. simpl.
  rewrite Cr, Cl, Cn, Ce, Hr, Hl, Hn, He. simpl.
  destruct (libnet_ s); [ exact H | discriminate H ].
Qed.

Lemma fire_tx_done_iff s :
  tx_done (regs_ (do_tx (reset_tx_done s))) = tx_ready (reset_tx_done s).
Proof.
  destruct (tx_ready (reset_tx_done s)) eqn:E.
  - destruct (do_tx_ready _ E) as [s1 [Hs ->]].
    destruct (commit_frame "NET.tx_done" true (JObj []) s1) as [-> _].
    destruct Hs as [_ [_ [_ [-> _]]]]. reflexivity.
  - destruct (do_tx_not_ready _ E) as [_ [-> _]]. reflexivity.
Qed.

(** Two transmissions in a row, the first of which completes. *)
Lemma two_tx_fires s :
  let s1 := do_tx (reset_tx_done s) in
  let s2 := do_tx (reset_tx_done s1) in
  tx_done (regs_ s1) = true ->
  tx_done (regs_ s2) = true /\
  committed_ (base s2) = committed_ (base s1) /\
  w_outbox (world s2) = w_outbox (world s1) /\
  length (w_wire (world s2)) = S (S (length (w_wire (world s)))) /\
  In ("NET.tx_done", true) (ledger_keys s1) /\
  (~ In ("NET.tx_done", true) (ledger_keys s) ->
   0 <= udp_fd_ (base s) ->
   w_outbox (world s2)
     = w_outbox (world s)
         ++ [mkSent (udp_fd_ (base s)) (mkSockaddr INADDR_LOOPBACK BLS_PORT)
               (belief_envelope
                  (mkBelief "NET" "NET.tx_done" true (JObj [])))]).
Proof.
  intros s1 s2 Hdone. subst s2.
  pose proof (fire_tx_done_iff s) as Hr. fold s1 in Hr. rewrite Hdone in Hr.
  symmetry in Hr.
  destruct (do_tx_ready _ Hr) as [m [Hm Hs1]]. fold s1 in Hs1.
  assert (Hin : In ("NET.tx_done", true) (ledger_keys s1))
    by (rewrite Hs1; apply commit_in_ledger; reflexivity).
  pose proof (tx_sent_ready _ _ (JObj []) Hm Hr) as Hr2. rewrite <- Hs1 in Hr2.
  destruct (do_tx_ready _ Hr2) as [m2 [Hm2 Hs2]].
  assert (Hk : commit "NET.tx_done" true (JObj []) m2 = m2).
  { apply commit_known. unfold ledger_keys.
    destruct Hm2 as [-> _]. exact Hin. }
  rewrite Hs2, Hk.
  destruct Hm2 as [Hb2 [_ [_ [Hr2' [Ho2 [Hw2 _]]]]]].
  destruct Hm as [Hb [_ [_ [_ [Ho [Hw _]]]]]].
  destruct (commit_frame "NET.tx_done" true (JObj []) m)
    as [_ [_ [_ [_ [_ [Cw _]]]]]].
  rewrite <- Hs1 in Cw.
  split; [ rewrite Hr2'; reflexivity | ].
  split; [ rewrite Hb2; reflexivity | ].
  split; [ rewrite Ho2; reflexivity | ].
  split; [ rewrite Hw2; simpl; rewrite Cw, Hw; reflexivity | ].
  split; [ exact Hin | ].
  intros Hfresh Hfd. rewrite Ho2. simpl.
  destruct (commit_cases "NET.tx_done" true (JObj []) m)
    as [[_ [Hf | Hold]] | [_ [_ Hc]]].
  - discriminate Hf.
  - exfalso. apply Hfresh. unfold ledger_keys in *. rewrite Hb in Hold. exact Hold.
  - rewrite Hs1, Hc. unfold send_json, sendto. simpl. rewrite Hb. simpl.
    destruct (0 <=? udp_fd_ (base s)) eqn:E; [ | apply Z.leb_gt in E; lia ].
    simpl. rewrite Ho. reflexivity.
Qed.

Lemma commit_twice subj pol ctx ctx' s :
  commit subj pol ctx' (commit subj pol ctx s) = commit subj pol ctx s.
Proof.
  destruct (String.prefix (component_name ++ ".") subj) eqn:Ep.
  - apply commit_known. apply commit_in_ledger. exact Ep.
  - assert (E : forall c a, commit subj pol c a = a)
      by (intros c a; unfold commit; rewrite Ep; reflexivity).
    rewrite !E. reflexivity.
Qed.

(** C5.  A (subject, polarity) pair enters the ledger at most once in the
    life of an instance: a commit of a pair already in the ledger changes
    nothing, so committing the same pair twice is committing it once; in
    every state the run loop reaches from construction the ledger holds no
    pair twice and the belief envelopes sent are one per ledger entry.  Of two
    [tx_fire] snapshots in a row of which the first completes, the second
    completes too ([tx_done] true, a second frame written) but adds no ledger
    entry and sends nothing; when the pair was not in the ledger before, the
    two together send exactly the one envelope for NET.tx_done = true. *)
Theorem belief_committed_at_most_once :
  forall s : Net,
    (forall subj pol ctx,
        In (subj, pol) (ledger_keys s) -> commit subj pol ctx s = s) /\
    (forall subj pol ctx ctx',
        commit subj pol ctx' (commit subj pol ctx s) = commit subj pol ctx s) /\
    (forall sba w arrivals,
        beliefs_sent (w_outbox w) = [] ->
        run arrivals (Net_ctor sba w) = Ok s ->
        NoDup (ledger_keys s) /\
        NoDup (beliefs_sent (w_outbox (world s))) /\
        (0 <= udp_fd_ (base s) ->
         beliefs_sent (w_outbox (world s)) = ledger_keys s)) /\
    (forall s1 s2,
        apply_snapshot tx_fire_patch s = Ok s1 ->
        apply_snapshot tx_fire_patch s1 = Ok s2 ->
        tx_done (regs_ s1) = true ->
        tx_done (regs_ s2) = true /\
        committed_ (base s2) = committed_ (base s1) /\
        w_outbox (world s2) = w_outbox (world s1) /\
        length (w_wire (world s2)) = S (S (length (w_wire (world s)))) /\
        In ("NET.tx_done", true) (ledger_keys s1) /\
        (~ In ("NET.tx_done", true) (ledger_keys s) ->
         0 <= udp_fd_ (base s) ->
         w_outbox (world s2)
           = w_outbox (world s)
               ++ [mkSent (udp_fd_ (base s))
                     (mkSockaddr INADDR_LOOPBACK BLS_PORT)
                     (belief_envelope
                        (mkBelief "NET" "NET.tx_done" true (JObj [])))])).
Proof.
  intros s. split; [ | split; [ | split ] ].
  - intros subj pol ctx. apply commit_known.
  - intros subj pol ctx ctx'. apply commit_twice.
  - intros sba w arrivals Hw Hrun.
    pose proof (run_ledger_ok arrivals _ _ (Net_ctor_ledger_ok sba w Hw) Hrun)
      as [Hnd Hsent].
    split; [ exact Hnd | ]. split.
    + rewrite Hsent. destruct (0 <=? udp_fd_ (base s)); [ exact Hnd | constructor ].
    + intros Hfd. rewrite Hsent.
      destruct (0 <=? udp_fd_ (base s)) eqn:E; [ reflexivity | ].
      apply Z.leb_gt in E. lia.
  - intros s1 s2 H1 H2 Hdone.
    rewrite apply_snapshot_tx_fire in H1. injection H1 as <-.
    rewrite apply_snapshot_tx_fire in H2. injection H2 as <-.
    apply two_tx_fires. exact Hdone.
Qed.

(** C5 on [ready_net]: two frames written, one envelope sent. *)
Lemma belief_committed_at_most_once_witness :
  tx_done (regs_ fired_once) = true /\
  tx_done (regs_ fired_twice) = true /\
  length (w_wire (world fired_twice)) = 2%nat /\
  w_outbox (world fired_twice)
    = [mkSent 3 (mkSockaddr INADDR_LOOPBACK BLS_PORT)
         (belief_envelope (mkBelief "NET" "NET.tx_done" true (JObj [])))].
Proof.
  destruct (belief_committed_at_most_once ready_net) as [_ [_ [_ H]]].
  destruct (H fired_once fired_twice eq_refl eq_refl eq_refl)
    as [H2 [_ [_ [Hw [_ Hout]]]]].
  split; [ reflexivity | ]. split; [ exact H2 | ]. split; [ exact Hw | ].
  apply Hout.
  - simpl. tauto.
  - simpl. lia.
Defined.

(** ** Transmission with a malformed hardware address *)



(** ** Resource lifecycle *)

Lemma create_live k s : live k s = true -> create k s = s.
Proof.
  destruct k; simpl; unfold do_libnet_create, do_pcap_create;
    [ destruct (libnet_ s) | destruct (pcap_ s) ]; simpl; congruence.
Qed.

Lemma destroy_absent k s : live k s = false -> destroy k s = s.
Proof.
  destruct k; simpl; unfold do_libnet_destroy, do_pcap_destroy;
    [ destruct (libnet_ s) | destruct (pcap_ s) ]; simpl; congruence.
Qed.

Lemma destroy_makes_absent k s : live k (destroy k s) = false.
Proof.
  destruct k; simpl; unfold do_libnet_destroy, do_pcap_destroy;
    [ destruct (libnet_ s) eqn:E | destruct (pcap_ s) eqn:E ]; simpl;
    try rewrite E; reflexivity.
Qed.

Lemma create_accepted k s :
  live k s = false -> refusal k s = None -> live k (create k s) = true.
Proof.
  destruct k; simpl;
    unfold do_libnet_create, do_pcap_create, libnet_init, pcap_open_live;
    [ destruct (libnet_ s) | destruct (pcap_ s) ]; simpl; try discriminate;
    intros _ ->; reflexivity.
Qed.

Lemma create_refused k s e :
  live k s = false -> refusal k s = Some e ->
  create k s = set_error e s.
Proof.
  destruct k; simpl;
    unfold do_libnet_create, do_pcap_create, libnet_init, pcap_open_live;
    [ destruct (libnet_ s) eqn:E | destruct (pcap_ s) eqn:E ]; simpl;
    try discriminate; intros _ ->; simpl; unfold set_error; simpl;
    destruct s; simpl in *; subst; reflexivity.
Qed.

Lemma create_twice k s : create k (create k s) = create k s.
Proof.
  destruct (live k s) eqn:El; [ rewrite (create_live k s El); apply create_live; exact El | ].
  destruct (refusal k s) as [e | ] eqn:Er.
  - rewrite (create_refused k s e El Er).
    rewrite (create_refused k (set_error e s) e);
      [ reflexivity | destruct k; exact El | destruct k; exact Er ].
  - apply create_live. apply create_accepted; assumption.
Qed.

Lemma destroy_twice k s : destroy k (destroy k s) = destroy k s.
Proof. apply destroy_absent. apply destroy_makes_absent. Qed.

Lemma create_accounted k s : accounted k s -> accounted k (create k s).
Proof.
  unfold accounted. intros H.
  destruct (live k s) eqn:El; [ rewrite (create_live k s El), El; exact H | ].
  destruct (refusal k s) as [e | ] eqn:Er.
  - rewrite (create_refused k s e El Er).
    destruct k; simpl in *; rewrite El; exact H.
  - rewrite (create_accepted k s El Er).
    destruct k; simpl in *;
      unfold do_libnet_create, do_pcap_create, libnet_init, pcap_open_live;
      [ destruct (libnet_ s) | destruct (pcap_ s) ]; try discriminate;
      rewrite Er; simpl; rewrite H; reflexivity.
Qed.

Lemma destroy_accounted k s : accounted k s -> accounted k (destroy k s).
Proof.
  unfold accounted. intros H. rewrite destroy_makes_absent.
  destruct (live k s) eqn:El; [ | rewrite (destroy_absent k s El); exact H ].
  destruct k; simpl in *;
    unfold do_libnet_destroy, do_pcap_destroy, libnet_destroy_ctx, pcap_close;
    [ destruct (libnet_ s) | destruct (pcap_ s) ]; try discriminate;
    simpl; rewrite H; reflexivity.
Qed.

Ltac finish_accounted :=
  auto;
  repeat match goal with
         | H : ?x = Some _, H' : context [?x] |- _ => rewrite H in H'
         | H : ?x = None, H' : context [?x] |- _ => rewrite H in H'
         end;
  simpl in *; congruence.

(** The handles stay accounted for through any snapshot, so an instance
    that starts with none open never has two of a kind. *)
Lemma apply_snapshot_accounted k j s s' :
  accounted k s -> apply_snapshot j s = Ok s' -> accounted k s'.
Proof.
  apply apply_snapshot_invariant.
  - intros a b [_ [Hl [Hp [Hw _]]]]. unfold accounted.
    destruct k; simpl; rewrite Hw, ?Hl, ?Hp; auto.
  - intros a Ha. destruct k; [ apply (create_accounted Transmit a Ha) | ].
    revert Ha. unfold accounted. by_cases; finish_accounted.
  - intros a Ha. destruct k; [ apply (destroy_accounted Transmit a Ha) | ].
    revert Ha. unfold accounted. by_cases; finish_accounted.
  - intros a Ha. destruct k; [ | apply (create_accounted Capture a Ha) ].
    revert Ha. unfold accounted. by_cases; finish_accounted.
  - intros a Ha. destruct k; [ | apply (destroy_accounted Capture a Ha) ].
    revert Ha. unfold accounted. by_cases; finish_accounted.
  - intros a. unfold accounted. destruct k; by_cases; finish_accounted.
  - intros a. unfold accounted. destruct k; by_cases; finish_accounted.
  - intros a. unfold accounted. destruct k; simpl; auto.
  - intros a. unfold accounted. destruct k; simpl; auto.
  - intros a. unfold accounted. destruct k; by_cases; finish_accounted.
  - intros a. unfold accounted. destruct k; by_cases; finish_accounted.
Qed.

(** C8 (as amended).  For the transmit and the capture driver alike: create
    on a live handle and destroy on an absent handle return the state they
    were given; destroy leaves the handle absent; create on an absent handle
    leaves it live when the driver opens the device, and when the driver
    refuses leaves it absent with the driver's text in [last_error] and no
    other change; create after create is create, destroy after destroy is
    destroy; and if the instance holds every handle the driver has open for
    it, it still does after either action, so there is never more than
    one, whatever snapshots are applied. *)
Theorem lifecycle_edges :
  forall (k : Resource) (s : Net),
    (live k s = true -> create k s = s) /\
    (live k s = false -> destroy k s = s) /\
    live k (destroy k s) = false /\
    (live k s = false -> refusal k s = None -> live k (create k s) = true) /\
    (forall e, live k s = false -> refusal k s = Some e ->
               create k s = set_error e s /\ live k (create k s) = false) /\
    create k (create k s) = create k s /\
    destroy k (destroy k s) = destroy k s /\
    (accounted k s ->
     accounted k (create k s) /\ accounted k (destroy k s) /\
     (open_handles k (create k s) <= 1)%nat /\
     (open_handles k (destroy k s) <= 1)%nat /\
     (forall j s', apply_snapshot j s = Ok s' ->
                   accounted k s' /\ (open_handles k s' <= 1)%nat)).
Proof.
  intros k s.
  split; [ apply create_live | ].
  split; [ apply destroy_absent | ].
  split; [ apply destroy_makes_absent | ].
  split; [ apply create_accepted | ].
  split.
  { intros e El Er. split; [ apply create_refused; assumption | ].
    rewrite (create_refused k s e El Er). destruct k; exact El. }
  split; [ apply create_twice | ].
  split; [ apply destroy_twice | ].
  intros H.
  pose proof (create_accounted k s H) as Hc.
  pose proof (destroy_accounted k s H) as Hd.
  split; [ exact Hc | ]. split; [ exact Hd | ].
  assert (Hone : forall a, accounted k a -> (open_handles k a <= 1)%nat)
    by (intros a Ha; unfold accounted in Ha; rewrite Ha; destruct (live k a); lia).
  split; [ exact (Hone _ Hc) | ]. split; [ exact (Hone _ Hd) | ].
  intros j s' Hj. pose proof (apply_snapshot_accounted k j s s' H Hj) as Hs.
  split; [ exact Hs | exact (Hone _ Hs) ].
Qed.

(** C8 (as amended) on a configured instance, a new one, and one whose
    transmit device the driver does not know. *)
Lemma lifecycle_edges_witness :
  live Transmit ready_net = true /\
  create Transmit ready_net = ready_net /\
  live Capture (destroy Capture ready_net) = false /\
  destroy Capture (destroy Capture ready_net) = destroy Capture ready_net /\
  live Transmit (create Transmit (Net_ctor 5000 lab_world)) = true /\
  open_handles Transmit (create Transmit ready_net) = 1%nat /\
  live Transmit (create Transmit no_device_net) = false.
Proof.
  destruct (lifecycle_edges Transmit ready_net) as [H1 [_ [_ [_ [_ [_ [_ H8]]]]]]].
  destruct (lifecycle_edges Capture ready_net) as [_ [_ [H3 [_ [_ [_ [H7 _]]]]]]].
  destruct (lifecycle_edges Transmit (Net_ctor 5000 lab_world))
    as [_ [_ [_ [H4 _]]]].
  destruct (lifecycle_edges Transmit no_device_net) as [_ [_ [_ [_ [H5 _]]]]].
  destruct (H8 eq_refl) as [Hacc _].
  split; [ reflexivity | ]. split; [ exact (H1 eq_refl) | ].
  split; [ exact H3 | ]. split; [ exact H7 | ].
  split; [ exact (H4 eq_refl eq_refl) | ].
  split; [ rewrite Hacc, (H1 eq_refl); reflexivity | ].
  exact (proj2 (H5 "libnet_init(): no such device" eq_refl eq_refl)).
Defined.

(** C8, the claim as stated fails: create on an absent transmit handle whose
    device the driver does not open leaves the handle absent. *)
Lemma create_can_leave_absent :
  live Transmit no_device_net = false /\
  live Transmit (create Transmit no_device_net) = false /\
  last_error (regs_ (create Transmit no_device_net))
    = "libnet_init(): no such device".
Proof. repeat split. Qed.

(** ** The error register *)

Lemma error_step_refl s : error_step s s.
Proof. unfold error_step, same_drivers. auto. Qed.

Lemma error_text_same_drivers w w' e :
  same_drivers w w' -> error_text w' e -> error_text w e.
Proof.
  unfold same_drivers, error_text. intros [-> [-> ->]]. auto.
Qed.

Lemma error_step_trans s1 s2 s3 :
  error_step s1 s2 -> error_step s2 s3 -> error_step s1 s3.
Proof.
  intros [Hd1 He1] [Hd2 He2]. split.
  - unfold same_drivers in *. destruct Hd1 as [? [? ?]], Hd2 as [? [? ?]].
    repeat split; congruence.
  - destruct He2 as [-> | He2]; [ exact He1 | ].
    right. eapply error_text_same_drivers; eassumption.
Qed.

Ltac solve_error_step :=
  split;
  [ unfold same_drivers; simpl; repeat split
  | first [ left; reflexivity
          | right; unfold error_text, libnet_geterror; simpl;
            try match goal with
                | E : w_write_error _ = _ |- _ => rewrite E
                end;
            eauto 10 ] ].

Lemma action_error_step :
  forall s,
    error_step s (do_libnet_create s) /\ error_step s (do_libnet_destroy s) /\
    error_step s (do_pcap_create s) /\ error_step s (do_pcap_destroy s) /\
    error_step s (set_filter s) /\
    error_step s (snd (reply_json (serialize_registers s) s)) /\
    error_step s (reset_tx_done s) /\ error_step s (reset_rx_done s) /\
    error_step s (do_tx s) /\ error_step s (do_rx s).
Proof.
  intros s. unfold reset_tx_done, reset_rx_done, libnet_geterror.
  repeat match goal with
         | |- error_step _ _ /\ _ => split
         end.
  all: by_cases; solve_error_step.
Qed.

Lemma apply_snapshot_error_step j s s' :
  apply_snapshot j s = Ok s' -> error_step s s'.
Proof.
  apply (apply_snapshot_invariant (error_step s)); [ | intros a Ha .. | ].
  - intros a b [_ [_ [_ [Hw [_ [_ [_ [_ [_ He]]]]]]]]] [Hd Hs]. split.
    + rewrite Hw. exact Hd.
    + rewrite He. exact Hs.
  - eapply error_step_trans; [ exact Ha | apply action_error_step ].
  - eapply error_step_trans; [ exact Ha | apply action_error_step ].
  - eapply error_step_trans; [ exact Ha | apply action_error_step ].
  - eapply error_step_trans; [ exact Ha | apply action_error_step ].
  - eapply error_step_trans; [ exact Ha | apply action_error_step ].
  - eapply error_step_trans; [ exact Ha | apply action_error_step ].
  - eapply error_step_trans; [ exact Ha | apply (action_error_step a) ].
  - eapply error_step_trans; [ exact Ha | apply (action_error_step a) ].
  - eapply error_step_trans; [ exact Ha | apply action_error_step ].
  - eapply error_step_trans; [ exact Ha | apply action_error_step ].
  - apply error_step_refl.
Qed.

Lemma poll_socket_error_step fd pending allow_reply s s' :
  poll_socket fd pending allow_reply s = Ok s' -> error_step s s'.
Proof.
  unfold poll_socket.
  destruct (recvfrom fd pending) as [d | ];
    [ | intros H; injection H as <-; apply error_step_refl ].
  destruct (Z.of_nat (String.length (dg_bytes d)) <=? 0);
    [ intros H; injection H as <-; apply error_step_refl | ].
  assert (Ha : error_step s
                 (if allow_reply
                  then with_base (set_has_sender_ true
                                    (set_last_sender_ (dg_sender d) (base s))) s
                  else s))
    by (destruct allow_reply; split; simpl; try repeat split; left; reflexivity).
  destruct (dg_parse d) as [j | ].
  - intros H. split_bind H. injection H as <-. unfold on_message.
    apply apply_snapshot_error_step in Hstep.
    eapply error_step_trans; eassumption.
  - intros H; injection H as <-. exact Ha.
Qed.

Lemma exec_error_step o s s' : exec o s = Ok s' -> error_step s s'.
Proof.
  destruct o as [j | k | k | | | private d]; simpl; intros H.
  - apply apply_snapshot_error_step in H. exact H.
  - injection H as <-. destruct k; apply action_error_step.
  - injection H as <-. destruct k; apply action_error_step.
  - injection H as <-. apply action_error_step.
  - injection H as <-. apply action_error_step.
  - apply poll_socket_error_step in H. exact H.
Qed.

Lemma exec_all_error_step ops : forall s s',
  exec_all ops s = Ok s' -> error_step s s'.
Proof.
  induction ops as [ | o rest IH]; intros s s' H; simpl in H.
  - injection H as <-. apply error_step_refl.
  - split_bind H. apply exec_error_step in Hstep. apply IH in H.
    eapply error_step_trans; eassumption.
Qed.

Lemma error_text_nonempty w e :
  driver_texts_nonempty w -> error_text w e -> e <> "".
Proof.
  intros [Hl [Hp Hw]] [-> | [-> | [[d H] | [[d H] | H]]]] He;
    try discriminate; subst e.
  - exact (Hl d H).
  - exact (Hp d H).
  - exact (Hw H).
Qed.

(** C10.  Once [last_error] holds a non-empty string it stays non-empty
    through any sequence of snapshots, creates and destroys, transmissions,
    polls of the capture and datagram arrivals, whether they succeed or not:
    each of them leaves the register alone or replaces it by an error text
    (one of the two fixed validation messages or a text reported by a driver,
    which the drivers never leave empty).  A snapshot carrying a last_error
    key writes nothing. *)
Theorem last_error_never_cleared :
  forall (ops : list Op) (s s' : Net),
    driver_texts_nonempty (world s) ->
    last_error (regs_ s) <> "" ->
    exec_all ops s = Ok s' ->
    last_error (regs_ s') <> "" /\
    (last_error (regs_ s') = last_error (regs_ s) \/
     error_text (world s) (last_error (regs_ s'))) /\
    (forall v : json, apply_snapshot (obj [("last_error", v)]) s = Ok s).
Proof.
  intros ops s s' Hw He H.
  apply exec_all_error_step in H. destruct H as [_ Hs].
  split; [ | split; [ exact Hs | reflexivity ] ].
  destruct Hs as [-> | Ht]; [ exact He | ].
  eapply error_text_nonempty; eassumption.
Qed.

Lemma lab_world_texts s :
  world s = world ready_net \/ w_libnet_init (world s) = w_libnet_init lab_world /\
  w_pcap_open_live (world s) = w_pcap_open_live lab_world /\
  w_write_error (world s) = None ->
  driver_texts_nonempty (world s).
Proof.
  intros [-> | [Hl [Hp Hw]]]; unfold driver_texts_nonempty;
    [ simpl | rewrite Hl, Hp, Hw; simpl ];
    (split; [ intros d; destruct (String.eqb d "eno1"); discriminate | ]);
    (split; [ intros d; destruct (String.eqb d "eno1"); discriminate
            | discriminate ]).
Qed.

(** C10 on [failed_create_net]: the operations of [recovery] all succeed and
    the text of the refused create is still there. *)
Lemma last_error_never_cleared_witness :
  tx_done (regs_ (or_else (exec_all recovery failed_create_net) failed_create_net))
    = true /\
  last_error
    (regs_ (or_else (exec_all recovery failed_create_net) failed_create_net))
    <> "".
Proof.
  split; [ vm_compute; reflexivity | ].
  apply (last_error_never_cleared recovery failed_create_net
           (or_else (exec_all recovery failed_create_net) failed_create_net)).
  - apply lab_world_texts. right. vm_compute. repeat split.
  - vm_compute. discriminate.
  - vm_compute. reflexivity.
Defined.

(** ** Datagrams that do not parse *)

(** C2.  A datagram whose payload does not parse is dropped and the call
    returns: nothing but the remembered sender (private socket only) changes,
    and [apply_snapshot] is not run.  The registers are among what does not
    change: [poll_socket] returns from its catch-all handler without calling
    [on_parse_error] or [on_unknown_parse_error], so no diagnostic reaches
    [last_error], though either hook, had it been called, would have put one
    there. *)
Theorem parse_failure_records_nothing :
  forall (fd : Z) (sender : sockaddr_in) (bytes : string) (allow_reply : bool)
         (s : Net),
    let d := mkDatagram sender bytes None in
    exists s',
      poll_socket fd (Some d) allow_reply s = Ok s' /\
      regs_ s' = regs_ s /\
      last_error (regs_ s') = last_error (regs_ s) /\
      world s' = world s /\
      committed_ (base s') = committed_ (base s) /\
      libnet_ s' = libnet_ s /\ pcap_ s' = pcap_ s /\
      (forall what, last_error (regs_ (on_parse_error what s')) = what) /\
      last_error (regs_ (on_unknown_parse_error s')) = "unknown JSON parse error" /\
      last_error
        (regs_ (or_else (poll_socket 3 (Some garbage) true (Net_ctor 5000 lab_world))
                  (Net_ctor 5000 lab_world))) = "".
Proof.
  intros fd sender bytes allow_reply s d. unfold poll_socket, recvfrom.
  destruct (fd <? 0); [ exists s; repeat split | ].
  destruct (Z.of_nat (String.length (dg_bytes d)) <=? 0); [ exists s; repeat split | ].
  simpl. eexists. split; [ reflexivity | ].
  destruct allow_reply; repeat split.
Qed.

(** ** Capture *)

(** C3.  With the capture live and a frame pending, [rx_fire] records the
    wire length in [rx_len] and the captured length in [rx_caplen], sets
    [rx_done] and has NET.rx_done = true in the ledger.  It sends no status
    envelope on the bus: the only datagram it can send is the belief envelope
    to the sink, and that only when the ledger did not hold the pair yet. *)
Theorem rx_fire_sends_no_bus_status :
  forall (s : Net) (p : pcap_t) (h : pcap_pkthdr) (rest : list pcap_result),
    pcap_ s = Some p ->
    w_capture (world s) = PcapPacket h :: rest ->
    exists s',
      apply_snapshot rx_fire_patch s = Ok s' /\
      rx_len (regs_ s') = len h /\
      rx_caplen (regs_ s') = caplen h /\
      rx_done (regs_ s') = true /\
      In ("NET.rx_done", true) (ledger_keys s') /\
      w_capture (world s') = rest /\
      (w_outbox (world s') = w_outbox (world s) \/
       exists b,
         w_outbox (world s')
           = w_outbox (world s)
               ++ [mkSent (udp_fd_ (base s)) (mkSockaddr INADDR_LOOPBACK BLS_PORT)
                     (belief_envelope b)]) /\
      (forall m, In m (w_outbox (world s')) ->
                 In m (w_outbox (world s)) \/ sin_port (sent_to m) <> BUS_PORT).
Proof.
  intros s p h rest Hp Hc.
  rewrite apply_snapshot_rx_fire. eexists. split; [ reflexivity | ].
  unfold do_rx, reset_rx_done, pcap_next_ex. simpl. rewrite Hp, Hc. simpl.
  match goal with
  | |- context [commit ?subj ?pol ?ctx ?a] =>
      pose proof (commit_frame subj pol ctx a) as [Hr _];
      pose proof (commit_in_ledger subj pol ctx a eq_refl) as Hin;
      destruct (commit_cases subj pol ctx a) as [[Hc1 _] | [_ [_ Hc2]]]
  end.
  - rewrite Hr, Hc1. simpl. rewrite Hc1 in Hin.
    repeat split; auto.
  - rewrite Hr. split; [ reflexivity | ]. split; [ reflexivity | ].
    split; [ reflexivity | ]. split; [ exact Hin | ].
    rewrite Hc2. unfold send_json, sendto. simpl.
    destruct (0 <=? udp_fd_ (base s)); simpl.
    + split; [ reflexivity | ]. split; [ right; eexists; reflexivity | ].
      intros m Hm. apply in_app_or in Hm. destruct Hm as [Hm | [<- | []]];
        [ left; exact Hm | right; simpl; discriminate ].
    + repeat split; auto.
Qed.

(** C3 on [frame_pending_net]. *)
Lemma rx_fire_sends_no_bus_status_witness :
  exists s',
    apply_snapshot rx_fire_patch frame_pending_net = Ok s' /\
    rx_len (regs_ s') = 98 /\ rx_caplen (regs_ s') = 98 /\
    rx_done (regs_ s') = true /\
    (forall m, In m (w_outbox (world s')) -> sin_port (sent_to m) <> BUS_PORT).
Proof.
  destruct (rx_fire_sends_no_bus_status frame_pending_net
              (mkPcap "eno1" 65535 true 10 None) echo_reply []
              ltac:(vm_compute; reflexivity) ltac:(vm_compute; reflexivity))
    as [s' [H1 [H2 [H3 [H4 [_ [_ [_ H8]]]]]]]].
  exists s'. repeat split; try assumption.
  intros m Hm. destruct (H8 m Hm) as [[] | H]. exact H.
Defined.

(** ** The done flags *)

(** C4.  [apply_snapshot] clears [tx_done] before [do_tx] on tx_fire and
    [rx_done] before [do_rx] on rx_fire, but on tick it calls [do_rx] on the
    state as it is: with nothing to capture, a tick leaves a stale [rx_done]
    set, where an rx_fire leaves it clear. *)
Theorem tick_does_not_reset_rx_done :
  (forall s, apply_snapshot tx_fire_patch s = Ok (do_tx (reset_tx_done s))) /\
  (forall s, apply_snapshot rx_fire_patch s = Ok (do_rx (reset_rx_done s))) /\
  (forall s, apply_snapshot tick_patch s = Ok (do_rx s)) /\
  (forall s, tx_done (regs_ (reset_tx_done s)) = false /\
             rx_done (regs_ (reset_rx_done s)) = false) /\
  rx_done (regs_ stale_net) = true /\
  w_capture (world stale_net) = [] /\
  rx_done (regs_ (or_else (apply_snapshot tick_patch stale_net) stale_net)) = true /\
  rx_done (regs_ (or_else (apply_snapshot rx_fire_patch stale_net) stale_net)) = false.
Proof.
  split; [ exact apply_snapshot_tx_fire | ].
  split; [ exact apply_snapshot_rx_fire | ].
  split; [ exact apply_snapshot_tick | ].
  split; [ intros s; split; reflexivity | ].
  repeat split; vm_compute; reflexivity.
Qed.

(** * Further properties *)

(** ** Hardware addresses: printing and parsing *)

Lemma byte_cases (P : Z -> Prop) :
  (forall n : nat, (n < 256)%nat -> P (Z.of_nat n)) ->
  forall b, 0 <= b < 256 -> P b.
Proof.
  intros H b Hb. rewrite <- (Z2Nat.id b) by lia. apply H. lia.
Qed.

Lemma scan_hex_hex2 b rest :
  0 <= b < 256 ->
  scan_hex (hex2 b ++ String ":" rest) = Some (b, String ":" rest) /\
  scan_hex (hex2 b) = Some (b, "").
Proof.
  revert b. apply (byte_cases (fun b =>
    scan_hex (hex2 b ++ String ":" rest) = Some (b, String ":" rest) /\
    scan_hex (hex2 b) = Some (b, ""))).
  intros n Hn.
  do 256 (destruct n as [ | n]; [ split; vm_compute; reflexivity | ]).
  lia.
Qed.

Lemma scan_mac_step more b rest :
  0 <= b < 256 ->
  scan_mac (S more) (hex2 b ++ String ":" rest)
    = option_map (cons b) (scan_mac more rest).
Proof.
  intros Hb. cbn [scan_mac].
  destruct (scan_hex_hex2 b rest Hb) as [-> _]. reflexivity.
Qed.

(** X1.  Printing six bytes with [mac_to_string] and parsing the text with
    [parse_mac] gives the six bytes back. *)
Theorem parse_mac_of_mac_to_string :
  forall a b c d e f : Z,
    0 <= a < 256 -> 0 <= b < 256 -> 0 <= c < 256 ->
    0 <= d < 256 -> 0 <= e < 256 -> 0 <= f < 256 ->
    parse_mac (mac_to_string [a; b; c; d; e; f]) = Some [a; b; c; d; e; f].
Proof.
  intros a b c d e f Ha Hb Hc Hd He Hf.
  unfold parse_mac, mac_to_string. cbn [nth].
  rewrite !scan_mac_step by assumption.
  cbn [scan_mac]. destruct (scan_hex_hex2 f "" Hf) as [_ ->].
  cbn [option_map map]. unfold cast_uint8.
  rewrite !Z.mod_small by lia. reflexivity.
Qed.

Lemma parse_mac_of_mac_to_string_witness :
  mac_to_string [0; 26; 43; 60; 77; 255] = "00:1a:2b:3c:4d:ff" /\
  parse_mac (mac_to_string [0; 26; 43; 60; 77; 255]) = Some [0; 26; 43; 60; 77; 255].
Proof.
  split; [ reflexivity | ].
  apply (parse_mac_of_mac_to_string 0 26 43 60 77 255); lia.
Defined.

(** ** Patches *)

Lemma mentions_none_In j keys key :
  mentions_none j keys = true -> In key keys -> contains j key = false.
Proof.
  unfold mentions_none. rewrite forallb_forall. intros H Hin.
  apply negb_true_iff. apply H. exact Hin.
Qed.

Lemma value_absent ms key :
  contains (JObj ms) key = false -> value (JObj ms) key false = Ok false.
Proof.
  unfold contains, value. destruct (find_member key ms); [ discriminate | reflexivity ].
Qed.

Lemma assign_absent {A : Type} j key (get : json -> Result A) set s :
  contains j key = false -> assign j key get set s = Ok s.
Proof. unfold assign. intros ->. reflexivity. Qed.

Lemma when_set_false j key action s :
  value j key false = Ok false -> when_set j key action s = Ok s.
Proof. unfold when_set. intros ->. reflexivity. Qed.

Ltac key_listed := cbn [In app configuration_keys trigger_keys]; tauto.

(** X2.  A patch that is an object with none of the keys [apply_snapshot]
    looks at, whatever else it holds, is applied without error and changes
    nothing. *)
Theorem unknown_keys_are_ignored :
  forall (ms : list (string * json)) (s : Net),
    mentions_none (JObj ms) (configuration_keys ++ trigger_keys) = true ->
    apply_snapshot (JObj ms) s = Ok s.
Proof.
  intros ms s H.
  assert (Hc : forall key, In key (configuration_keys ++ trigger_keys) ->
                           contains (JObj ms) key = false)
    by (intros key; apply mentions_none_In; exact H).
  unfold apply_snapshot, apply_configuration, apply_lifecycle, apply_read,
    apply_actions.
  repeat (rewrite assign_absent by (apply Hc; key_listed); cbn [bind]).
  repeat (rewrite when_set_false by (apply value_absent, Hc; key_listed);
          cbn [bind]).
  reflexivity.
Qed.

Lemma unknown_keys_are_ignored_witness :
  apply_snapshot (obj [("colour", JStr "red"); ("last_error", JStr "");
                       ("tx_done", JBool true); ("sba", JNum 1)]) ready_net
    = Ok ready_net.
Proof.
  apply (unknown_keys_are_ignored _ ready_net). reflexivity.
Defined.

Lemma no_trigger_In j key :
  no_trigger j = true -> In key trigger_keys -> value j key false = Ok false.
Proof.
  unfold no_trigger. rewrite forallb_forall. intros H Hin.
  specialize (H key Hin). destruct (value j key false) as [[ | ] | ];
    try discriminate. reflexivity.
Qed.

Lemma apply_snapshot_no_trigger j s :
  no_trigger j = true -> apply_snapshot j s = apply_configuration j s.
Proof.
  intros H. unfold apply_snapshot, apply_lifecycle, apply_read, apply_actions.
  destruct (apply_configuration j s) as [s1 | e]; [ | reflexivity ].
  cbn [bind].
  repeat (rewrite when_set_false by (apply no_trigger_In; [ exact H | key_listed ]);
          cbn [bind]).
  reflexivity.
Qed.

Lemma with_regs_same s : with_regs_ (regs_ s) s = s.
Proof. destruct s; reflexivity. Qed.

Lemma assign_as_set {A : Type} j key (get : json -> Result A) set
  (proj : NetRegisters -> A) s s' :
  (forall r, set (proj r) r = r) ->
  assign j key get set s = Ok s' ->
  s' = with_regs_ (set (cfg j key get (proj (regs_ s))) (regs_ s)) s.
Proof.
  intros Heta. unfold assign, cfg. destruct (contains j key).
  - destruct (get (at_key j key)) as [v | e]; cbn [bind]; intros H;
      [ injection H as <-; reflexivity | discriminate ].
  - intros H; injection H as <-. rewrite Heta. symmetry. apply with_regs_same.
Qed.

Lemma assign_again {A : Type} j key (get : json -> Result A) set
  (proj : NetRegisters -> A) s s' :
  (forall r, set (proj r) r = r) ->
  assign j key get set s = Ok s' ->
  forall t, assign j key get set t
            = Ok (with_regs_ (set (cfg j key get (proj (regs_ t))) (regs_ t)) t).
Proof.
  intros Heta. unfold assign, cfg. destruct (contains j key).
  - destruct (get (at_key j key)) as [v | e]; cbn [bind]; intros H t;
      [ reflexivity | discriminate ].
  - intros _ t. rewrite Heta, with_regs_same. reflexivity.
Qed.

Lemma cfg_twice {A : Type} j key (get : json -> Result A) old :
  cfg j key get (cfg j key get old) = cfg j key get old.
Proof.
  unfold cfg. destruct (contains j key); [ | reflexivity ].
  destruct (get (at_key j key)); reflexivity.
Qed.

Ltac eta_setter := intros r; destruct r; reflexivity.

Lemma eta_libnet_device : forall r, set_libnet_device (libnet_device r) r = r.
Proof. eta_setter. Qed.

Lemma eta_pcap_device : forall r, set_pcap_device (pcap_device r) r = r.
Proof. eta_setter. Qed.

Lemma eta_snaplen : forall r, set_snaplen (snaplen r) r = r.
Proof. eta_setter. Qed.

Lemma eta_promisc : forall r, set_promisc (promisc r) r = r.
Proof. eta_setter. Qed.

Lemma eta_timeout_ms : forall r, set_timeout_ms (timeout_ms r) r = r.
Proof. eta_setter. Qed.

Lemma eta_pcap_filter : forall r, set_pcap_filter (pcap_filter r) r = r.
Proof. eta_setter. Qed.

Lemma eta_eth_enabled : forall r, set_eth_enabled (eth_enabled r) r = r.
Proof. eta_setter. Qed.

Lemma eta_eth_src_mac : forall r, set_eth_src_mac (eth_src_mac r) r = r.
Proof. eta_setter. Qed.

Lemma eta_eth_dst_mac : forall r, set_eth_dst_mac (eth_dst_mac r) r = r.
Proof. eta_setter. Qed.

Lemma eta_eth_type : forall r, set_eth_type (eth_type r) r = r.
Proof. eta_setter. Qed.

Lemma eta_ip4_enabled : forall r, set_ip4_enabled (ip4_enabled r) r = r.
Proof. eta_setter. Qed.

Lemma eta_ip4_src : forall r, set_ip4_src (ip4_src r) r = r.
Proof. eta_setter. Qed.

Lemma eta_ip4_dst : forall r, set_ip4_dst (ip4_dst r) r = r.
Proof. eta_setter. Qed.

Lemma eta_ip4_ttl : forall r, set_ip4_ttl (ip4_ttl r) r = r.
Proof. eta_setter. Qed.

Lemma eta_icmp4_enabled : forall r, set_icmp4_enabled (icmp4_enabled r) r = r.
Proof. eta_setter. Qed.

Lemma eta_icmp4_type : forall r, set_icmp4_type (icmp4_type r) r = r.
Proof. eta_setter. Qed.

Lemma eta_icmp4_code : forall r, set_icmp4_code (icmp4_code r) r = r.
Proof. eta_setter. Qed.

Lemma eta_icmp4_id : forall r, set_icmp4_id (icmp4_id r) r = r.
Proof. eta_setter. Qed.

Lemma eta_icmp4_seq : forall r, set_icmp4_seq (icmp4_seq r) r = r.
Proof. eta_setter. Qed.

Lemma eta_icmp4_payload : forall r, set_icmp4_payload (icmp4_payload r) r = r.
Proof. eta_setter. Qed.

Lemma assign_proj_same {A B : Type} j key (get : json -> Result A) set
  (proj : NetRegisters -> B) s s' :
  assign j key get set s = Ok s' ->
  (forall v r, proj (set v r) = proj r) ->
  proj (regs_ s') = proj (regs_ s).
Proof.
  unfold assign. destruct (contains j key).
  - intros H Hp. split_bind H. injection H as <-. apply Hp.
  - intros H _. injection H as <-. reflexivity.
Qed.

Lemma assign_proj_set {A : Type} j key (get : json -> Result A) set
  (proj : NetRegisters -> A) s s' :
  assign j key get set s = Ok s' ->
  (forall v r, proj (set v r) = v) ->
  proj (regs_ s') = cfg j key get (proj (regs_ s)).
Proof.
  unfold assign, cfg. destruct (contains j key).
  - destruct (get (at_key j key)) as [v | e]; cbn [bind]; intros H Hp;
      [ injection H as <-; apply Hp | discriminate ].
  - intros H _. injection H as <-. reflexivity.
Qed.

Lemma assign_settled {A : Type} j key (get : json -> Result A) set
  (proj : NetRegisters -> A) s s' t :
  (forall r, set (proj r) r = r) ->
  assign j key get set s = Ok s' ->
  cfg j key get (proj (regs_ t)) = proj (regs_ t) ->
  assign j key get set t = Ok t.
Proof.
  intros Heta H Hs. rewrite (assign_again _ _ _ _ proj _ _ Heta H t).
  rewrite Hs, Heta, with_regs_same. reflexivity.
Qed.

(** The register [proj] still holds what the step [Hset] gave it when the
    configuration block ends, and giving it that again changes nothing. *)
Ltac settle proj Hset :=
  repeat match goal with
         | E : assign _ _ _ _ _ = Ok ?b |- context [proj (regs_ ?b)] =>
             rewrite (assign_proj_same _ _ _ _ proj _ _ E)
               by (intros; reflexivity)
         end;
  rewrite (assign_proj_set _ _ _ _ proj _ _ Hset) by (intros; reflexivity);
  apply cfg_twice.

(** Running the configuration block a second time with the same patch gives
    the state the first run gave. *)
Lemma apply_configuration_again j s s1 :
  apply_configuration j s = Ok s1 -> apply_configuration j s1 = Ok s1.
Proof.
  intros H. unfold apply_configuration in H.
  repeat split_bind H.
  unfold apply_configuration.
  assert (S0 : cfg j "libnet_device" get_string (libnet_device (regs_ s1)) = libnet_device (regs_ s1))
    by settle libnet_device Hstep.
  rewrite (assign_settled _ _ _ _ libnet_device _ _ _ eta_libnet_device Hstep S0); cbn [bind].
  assert (S1 : cfg j "pcap_device" get_string (pcap_device (regs_ s1)) = pcap_device (regs_ s1))
    by settle pcap_device Hstep0.
  rewrite (assign_settled _ _ _ _ pcap_device _ _ _ eta_pcap_device Hstep0 S1); cbn [bind].
  assert (S2 : cfg j "snaplen" get_int (snaplen (regs_ s1)) = snaplen (regs_ s1))
    by settle snaplen Hstep1.
  rewrite (assign_settled _ _ _ _ snaplen _ _ _ eta_snaplen Hstep1 S2); cbn [bind].
  assert (S3 : cfg j "promisc" get_bool (promisc (regs_ s1)) = promisc (regs_ s1))
    by settle promisc Hstep2.
  rewrite (assign_settled _ _ _ _ promisc _ _ _ eta_promisc Hstep2 S3); cbn [bind].
  assert (S4 : cfg j "timeout_ms" get_int (timeout_ms (regs_ s1)) = timeout_ms (regs_ s1))
    by settle timeout_ms Hstep3.
  rewrite (assign_settled _ _ _ _ timeout_ms _ _ _ eta_timeout_ms Hstep3 S4); cbn [bind].
  assert (S5 : cfg j "pcap_filter" get_string (pcap_filter (regs_ s1)) = pcap_filter (regs_ s1))
    by settle pcap_filter Hstep4.
  rewrite (assign_settled _ _ _ _ pcap_filter _ _ _ eta_pcap_filter Hstep4 S5); cbn [bind].
  assert (S6 : cfg j "eth_enabled" get_bool (eth_enabled (regs_ s1)) = eth_enabled (regs_ s1))
    by settle eth_enabled Hstep5.
  rewrite (assign_settled _ _ _ _ eth_enabled _ _ _ eta_eth_enabled Hstep5 S6); cbn [bind].
  assert (S7 : cfg j "eth_src_mac" get_string (eth_src_mac (regs_ s1)) = eth_src_mac (regs_ s1))
    by settle eth_src_mac Hstep6.
  rewrite (assign_settled _ _ _ _ eth_src_mac _ _ _ eta_eth_src_mac Hstep6 S7); cbn [bind].
  assert (S8 : cfg j "eth_dst_mac" get_string (eth_dst_mac (regs_ s1)) = eth_dst_mac (regs_ s1))
    by settle eth_dst_mac Hstep7.
  rewrite (assign_settled _ _ _ _ eth_dst_mac _ _ _ eta_eth_dst_mac Hstep7 S8); cbn [bind].
  assert (S9 : cfg j "eth_type" get_uint16 (eth_type (regs_ s1)) = eth_type (regs_ s1))
    by settle eth_type Hstep8.
  rewrite (assign_settled _ _ _ _ eth_type _ _ _ eta_eth_type Hstep8 S9); cbn [bind].
  assert (S10 : cfg j "ip4_enabled" get_bool (ip4_enabled (regs_ s1)) = ip4_enabled (regs_ s1))
    by settle ip4_enabled Hstep9.
  rewrite (assign_settled _ _ _ _ ip4_enabled _ _ _ eta_ip4_enabled Hstep9 S10); cbn [bind].
  assert (S11 : cfg j "ip4_src" get_string (ip4_src (regs_ s1)) = ip4_src (regs_ s1))
    by settle ip4_src Hstep10.
  rewrite (assign_settled _ _ _ _ ip4_src _ _ _ eta_ip4_src Hstep10 S11); cbn [bind].
  assert (S12 : cfg j "ip4_dst" get_string (ip4_dst (regs_ s1)) = ip4_dst (regs_ s1))
    by settle ip4_dst Hstep11.
  rewrite (assign_settled _ _ _ _ ip4_dst _ _ _ eta_ip4_dst Hstep11 S12); cbn [bind].
  assert (S13 : cfg j "ip4_ttl" get_uint8 (ip4_ttl (regs_ s1)) = ip4_ttl (regs_ s1))
    by settle ip4_ttl Hstep12.
  rewrite (assign_settled _ _ _ _ ip4_ttl _ _ _ eta_ip4_ttl Hstep12 S13); cbn [bind].
  assert (S14 : cfg j "icmp4_enabled" get_bool (icmp4_enabled (regs_ s1)) = icmp4_enabled (regs_ s1))
    by settle icmp4_enabled Hstep13.
  rewrite (assign_settled _ _ _ _ icmp4_enabled _ _ _ eta_icmp4_enabled Hstep13 S14); cbn [bind].
  assert (S15 : cfg j "icmp4_type" get_uint8 (icmp4_type (regs_ s1)) = icmp4_type (regs_ s1))
    by settle icmp4_type Hstep14.
  rewrite (assign_settled _ _ _ _ icmp4_type _ _ _ eta_icmp4_type Hstep14 S15); cbn [bind].
  assert (S16 : cfg j "icmp4_code" get_uint8 (icmp4_code (regs_ s1)) = icmp4_code (regs_ s1))
    by settle icmp4_code Hstep15.
  rewrite (assign_settled _ _ _ _ icmp4_code _ _ _ eta_icmp4_code Hstep15 S16); cbn [bind].
  assert (S17 : cfg j "icmp4_id" get_uint16 (icmp4_id (regs_ s1)) = icmp4_id (regs_ s1))
    by settle icmp4_id Hstep16.
  rewrite (assign_settled _ _ _ _ icmp4_id _ _ _ eta_icmp4_id Hstep16 S17); cbn [bind].
  assert (S18 : cfg j "icmp4_seq" get_uint16 (icmp4_seq (regs_ s1)) = icmp4_seq (regs_ s1))
    by settle icmp4_seq Hstep17.
  rewrite (assign_settled _ _ _ _ icmp4_seq _ _ _ eta_icmp4_seq Hstep17 S18); cbn [bind].
  assert (S19 : cfg j "icmp4_payload" get_string (icmp4_payload (regs_ s1)) = icmp4_payload (regs_ s1))
    by settle icmp4_payload H.
  rewrite (assign_settled _ _ _ _ icmp4_payload _ _ _ eta_icmp4_payload H S19); cbn [bind].
  reflexivity.
Qed.

(** X3.  A patch none of whose triggers is set only writes configuration
    registers: the identity, the done flags, the captured lengths and
    [last_error] keep their values, the handles, the ledger and the sockets
    are untouched, and nothing is sent, written or read from the drivers. *)
Theorem no_trigger_patch_only_configures :
  forall (j : json) (s s' : Net),
    no_trigger j = true ->
    apply_snapshot j s = Ok s' ->
    base s' = base s /\ libnet_ s' = libnet_ s /\ pcap_ s' = pcap_ s /\
    world s' = world s /\
    sba (regs_ s') = sba (regs_ s) /\
    tx_done (regs_ s') = tx_done (regs_ s) /\
    rx_done (regs_ s') = rx_done (regs_ s) /\
    rx_len (regs_ s') = rx_len (regs_ s) /\
    rx_caplen (regs_ s') = rx_caplen (regs_ s) /\
    last_error (regs_ s') = last_error (regs_ s).
Proof.
  intros j s s' Hj H. rewrite (apply_snapshot_no_trigger j s Hj) in H.
  apply apply_configuration_config_only in H.
  destruct H as [Hb [Hl [Hp [Hw [H1 [H2 [H3 [H4 [H5 H6]]]]]]]]].
  repeat split; assumption.
Qed.

Lemma no_trigger_patch_only_configures_witness :
  exists s',
    apply_snapshot tuning_patch ready_net = Ok s' /\
    ip4_ttl (regs_ s') = 44 /\
    world s' = world ready_net /\
    tx_done (regs_ s') = tx_done (regs_ ready_net).
Proof.
  exists (or_else (apply_snapshot tuning_patch ready_net) ready_net).
  assert (H : apply_snapshot tuning_patch ready_net
              = Ok (or_else (apply_snapshot tuning_patch ready_net) ready_net))
    by (vm_compute; reflexivity).
  destruct (no_trigger_patch_only_configures tuning_patch ready_net _ eq_refl H)
    as [_ [_ [_ [Hw [_ [Ht _]]]]]].
  split; [ exact H | ]. split; [ vm_compute; reflexivity | ].
  split; [ exact Hw | exact Ht ].
Defined.

(** X4.  Applying a patch none of whose triggers is set a second time gives
    the state the first application gave. *)
Theorem no_trigger_patch_is_idempotent :
  forall (j : json) (s s1 : Net),
    no_trigger j = true ->
    apply_snapshot j s = Ok s1 ->
    apply_snapshot j s1 = Ok s1.
Proof.
  intros j s s1 Hj H.
  rewrite (apply_snapshot_no_trigger j s Hj) in H.
  rewrite (apply_snapshot_no_trigger j s1 Hj).
  eapply apply_configuration_again. exact H.
Qed.

Lemma no_trigger_patch_is_idempotent_witness :
  apply_snapshot tuning_patch
    (or_else (apply_snapshot tuning_patch ready_net) ready_net)
  = Ok (or_else (apply_snapshot tuning_patch ready_net) ready_net).
Proof.
  apply (no_trigger_patch_is_idempotent tuning_patch ready_net).
  - reflexivity.
  - vm_compute. reflexivity.
Defined.


(** ** Reading *)






(** ** Datagrams the loop cannot use *)

Lemma apply_snapshot_not_object j s :
  is_object j = false -> apply_snapshot j s = Throw (type_error 306).
Proof.
  destruct j; intros H; try discriminate H; reflexivity.
Qed.

(** X7.  A datagram that parses to anything but an object (a number, a
    string, an array, true, false, null) is not dropped: [j.value] raises
    type error 306 outside the handler that catches parse errors, so the poll
    and the run loop end with it, whatever else was pending. *)
Theorem non_object_document_is_fatal :
  forall (d : Datagram) (j : json) (allow_reply : bool) (fd : Z) (s : Net)
         (bus : option Datagram) (later : list (option Datagram * option Datagram)),
    dg_parse d = Some j ->
    is_object j = false ->
    dg_bytes d <> "" ->
    0 <= fd ->
    poll_socket fd (Some d) allow_reply s = Throw (type_error 306) /\
    (running_ (base s) = true -> udp_fd_ (base s) = fd ->
     run ((Some d, bus) :: later) s = Throw (type_error 306)).
Proof.
  intros d j allow_reply fd s bus later Hp Hj Hb Hfd.
  assert (H : forall allow, poll_socket fd (Some d) allow s = Throw (type_error 306)).
  { intros allow. unfold poll_socket, recvfrom.
    destruct (fd <? 0) eqn:E; [ apply Z.ltb_lt in E; lia | ].
    destruct (Z.of_nat (String.length (dg_bytes d)) <=? 0) eqn:El.
    { apply Z.leb_le in El. destruct (dg_bytes d) as [ | c rest]; [ congruence | ].
      change (String.length (String c rest)) with (S (String.length rest)) in El.
      lia. }
    rewrite Hp. rewrite apply_snapshot_not_object by exact Hj. reflexivity. }
  split; [ apply H | ].
  intros Hr Hu. cbn [run]. rewrite Hr, Hu, H. reflexivity.
Qed.

Lemma non_object_document_is_fatal_witness :
  run [(Some seven, None); (Some read_request, None)] ready_net
    = Throw (type_error 306).
Proof.
  refine (proj2 (non_object_document_is_fatal seven (JNum 7) true 3 ready_net
                   None [(Some read_request, None)] eq_refl eq_refl _ _) _ _).
  - discriminate.
  - lia.
  - vm_compute. reflexivity.
  - vm_compute. reflexivity.
Defined.

(** X8.  A poll that finds nothing, or finds a datagram of length zero,
    changes nothing: in particular the sender of an empty datagram on the
    private socket does not become the reply target, and what the empty
    datagram would parse to is never looked at. *)
Theorem empty_poll_changes_nothing :
  forall (fd : Z) (allow_reply : bool) (s : Net) (sender : sockaddr_in)
         (parse : option json),
    poll_socket fd None allow_reply s = Ok s /\
    poll_socket fd (Some (mkDatagram sender "" parse)) allow_reply s = Ok s /\
    (fd < 0 -> forall pending, poll_socket fd pending allow_reply s = Ok s).
Proof.
  intros fd allow_reply s sender parse. unfold poll_socket, recvfrom.
  repeat split.
  - destruct (fd <? 0); reflexivity.
  - destruct (fd <? 0); reflexivity.
  - intros Hfd pending. destruct (fd <? 0) eqn:E; [ reflexivity | ].
    apply Z.ltb_ge in E. lia.
Qed.

Lemma empty_poll_changes_nothing_witness :
  poll_socket (-1) (Some read_request) true ready_net = Ok ready_net.
Proof.
  apply (proj2 (proj2 (empty_poll_changes_nothing (-1) true ready_net operator None))).
  lia.
Defined.

(** ** The run loop *)

Lemma apply_snapshot_keeps_endpoints j s s' :
  apply_snapshot j s = Ok s' -> endpoints (base s') = endpoints (base s).
Proof.
  intros H.
  apply (apply_snapshot_invariant
           (fun x => endpoints (base x) = endpoints (base s)))
    with (j := j) (s := s); auto.
  1: intros a b [Hb _] Ha; rewrite Hb; exact Ha.
  all: intros; match goal with E : endpoints _ = _ |- _ => rewrite <- E end.
  all: by_cases; reflexivity.
Qed.

Lemma poll_socket_keeps_endpoints fd pending allow_reply s s' :
  poll_socket fd pending allow_reply s = Ok s' ->
  endpoints (base s') = endpoints (base s).
Proof.
  unfold poll_socket.
  destruct (recvfrom fd pending) as [d | ];
    [ | intros H; injection H as <-; reflexivity ].
  destruct (Z.of_nat (String.length (dg_bytes d)) <=? 0);
    [ intros H; injection H as <-; reflexivity | ].
  destruct (dg_parse d) as [j | ].
  - intros H. split_bind H. injection H as <-. unfold on_message.
    apply apply_snapshot_keeps_endpoints in Hstep. rewrite Hstep.
    destruct allow_reply; reflexivity.
  - intros H; injection H as <-. destruct allow_reply; reflexivity.
Qed.

Lemma run_keeps_endpoints arrivals : forall s s',
  run arrivals s = Ok s' -> endpoints (base s') = endpoints (base s).
Proof.
  induction arrivals as [ | [private bus] later IH]; intros s s' H; cbn [run] in H.
  - injection H as <-. reflexivity.
  - destruct (running_ (base s)); [ | injection H as <-; reflexivity ].
    split_bind H. split_bind H.
    apply poll_socket_keeps_endpoints in Hstep.
    assert (H1 : endpoints (base s1) = endpoints (base s0)).
    { destruct (0 <=? bus_fd_ (base s0)).
      - eapply poll_socket_keeps_endpoints; eassumption.
      - injection Hstep0 as <-. reflexivity. }
    apply IH in H. rewrite H, <- Hstep, <- H1.
    unfold maybe_publish, publish_snapshot, usleep.
    repeat (simpl; try break_match); reflexivity.
Qed.

(** X9.  Nothing the loop does stops it or touches its sockets: after any
    number of turns that did not end in an exception, [running_], the two
    descriptors, the address, the bus flag and the publish period are what
    the constructor left. *)
Theorem run_keeps_running :
  forall (arrivals : list (option Datagram * option Datagram)) (s s' : Net),
    run arrivals s = Ok s' ->
    running_ (base s') = running_ (base s) /\
    udp_fd_ (base s') = udp_fd_ (base s) /\
    bus_fd_ (base s') = bus_fd_ (base s) /\
    sba_ (base s') = sba_ (base s) /\
    listen_bus_ (base s') = listen_bus_ (base s) /\
    publish_period_ms_ (base s') = publish_period_ms_ (base s).
Proof.
  intros arrivals s s' H. apply run_keeps_endpoints in H.
  unfold endpoints in H. injection H as H1 H2 H3 H4 H5 H6.
  repeat split; assumption.
Qed.

Lemma run_keeps_running_witness :
  exists s',
    run [(Some read_request, Some bus_read_request); (None, None)] ready_net
      = Ok s' /\
    running_ (base s') = true /\ udp_fd_ (base s') = 3 /\ bus_fd_ (base s') = 4.
Proof.
  exists (or_else (run [(Some read_request, Some bus_read_request); (None, None)]
                     ready_net) ready_net).
  assert (H : run [(Some read_request, Some bus_read_request); (None, None)]
                ready_net
              = Ok (or_else (run [(Some read_request, Some bus_read_request);
                                  (None, None)] ready_net) ready_net))
    by (vm_compute; reflexivity).
  destruct (run_keeps_running _ _ _ H) as [H1 [H2 [H3 _]]].
  split; [ exact H | ]. rewrite H1, H2, H3. vm_compute. repeat split.
Defined.

(** Running the loop over two runs of arrivals one after the other is
    running it over their concatenation; an exception in the first run is
    the result. *)
Lemma run_app :
  forall (a b : list (option Datagram * option Datagram)) (s : Net),
    run (a ++ b) s = (s1 <- run a s ;; run b s1).
Proof.
  induction a as [ | [private bus] a IH]; intros b s.
  - reflexivity.
  - cbn [app run].
    destruct (running_ (base s)) eqn:Er.
    + destruct (poll_socket (udp_fd_ (base s)) private true s) as [s0 | e];
        [ | reflexivity ].
      cbn [bind].
      destruct (if 0 <=? bus_fd_ (base s0)
                then poll_socket (bus_fd_ (base s0)) bus false s0
                else Ok s0) as [s1 | e]; [ | reflexivity ].
      cbn [bind]. apply IH.
    + cbn [bind]. symmetry. apply run_stopped. exact Er.
Qed.

(** ** Invariants of the run loop *)

(** An invariant of the object survives the loop as soon as it survives a
    snapshot, the recording of a sender, and the bookkeeping at the end of a
    turn. *)
Section RunInvariant.

Variable P : Net -> Prop.

Hypothesis P_snapshot : forall j s s', P s -> apply_snapshot j s = Ok s' -> P s'.
Hypothesis P_sender :
  forall a s, P s ->
    P (with_base (set_has_sender_ true (set_last_sender_ a (base s))) s).
Hypothesis P_turn :
  forall s, P s -> P (with_world (usleep 1000 (world (maybe_publish s)))
                        (maybe_publish s)).

Lemma poll_socket_invariant fd pending allow_reply s s' :
  P s -> poll_socket fd pending allow_reply s = Ok s' -> P s'.
Proof.
  intros Hs. unfold poll_socket.
  destruct (recvfrom fd pending) as [d | ]; [ | intros H; injection H as <-; exact Hs ].
  destruct (Z.of_nat (String.length (dg_bytes d)) <=? 0);
    [ intros H; injection H as <-; exact Hs | ].
  assert (Hs' : P (if allow_reply
                   then with_base (set_has_sender_ true
                                     (set_last_sender_ (dg_sender d) (base s))) s
                   else s))
    by (destruct allow_reply; [ apply P_sender; exact Hs | exact Hs ]).
  destruct (dg_parse d) as [j | ]; [ | intros H; injection H as <-; exact Hs' ].
  intros H. split_bind H. injection H as <-. unfold on_message.
  eapply P_snapshot; eassumption.
Qed.

Lemma run_invariant arrivals : forall s s',
  P s -> run arrivals s = Ok s' -> P s'.
Proof.
  induction arrivals as [ | [private bus] later IH]; intros s s' Hs H;
    cbn [run] in H.
  - injection H as <-. exact Hs.
  - destruct (running_ (base s)); [ | injection H as <-; exact Hs ].
    split_bind H. split_bind H.
    apply (poll_socket_invariant _ _ _ _ _ Hs) in Hstep.
    assert (Hs1 : P s1).
    { destruct (0 <=? bus_fd_ (base s0)).
      - eapply poll_socket_invariant; eassumption.
      - injection Hstep0 as <-. exact Hstep. }
    apply (IH _ _ (P_turn _ Hs1) H).
Qed.

End RunInvariant.

(** ** What NET ever asserts *)

Lemma same_ledger_owned s s' : same_ledger s s' -> owned s -> owned s'.
Proof. intros [Hc _]. unfold owned. rewrite Hc. auto. Qed.

Lemma commit_owned subj ctx s :
  subj = "NET.tx_done" \/ subj = "NET.rx_done" ->
  owned s -> owned (commit subj true ctx s).
Proof.
  intros Hsubj Hs.
  destruct (commit_cases subj true ctx s) as [[-> _] | [_ [_ ->]]]; [ exact Hs | ].
  assert (Hb : net_belief (mkBelief component_name subj true ctx))
    by (split; [ reflexivity | unfold belief_key; simpl;
                 destruct Hsubj as [-> | ->]; auto ]).
  unfold owned, send_json, sendto.
  destruct (0 <=? udp_fd_ _); simpl; apply Forall_app;
    (split; [ exact Hs | constructor; [ exact Hb | constructor ] ]).
Qed.

Lemma apply_snapshot_owned j s s' :
  owned s -> apply_snapshot j s = Ok s' -> owned s'.
Proof.
  apply apply_snapshot_invariant.
  - intros a b [Hb _]. unfold owned. rewrite Hb. auto.
  - intros a. apply same_ledger_owned. same_ledger_cases; repeat split.
  - intros a. apply same_ledger_owned. same_ledger_cases; repeat split.
  - intros a. apply same_ledger_owned. same_ledger_cases; repeat split.
  - intros a. apply same_ledger_owned. same_ledger_cases; repeat split.
  - intros a. apply same_ledger_owned. same_ledger_cases; repeat split.
  - intros a. unfold owned, reply_json, sendto.
    repeat (simpl; try break_match); auto.
  - intros a. apply same_ledger_owned. repeat split.
  - intros a. apply same_ledger_owned. repeat split.
  - intros a Ha. destruct (do_tx_shape a) as [s1 [Hs [-> | ->]]].
    + eapply same_ledger_owned; eassumption.
    + apply commit_owned; [ auto | ]. eapply same_ledger_owned; eassumption.
  - intros a Ha. destruct (do_rx_shape a) as [s1 [ctx [Hs [-> | ->]]]].
    + eapply same_ledger_owned; eassumption.
    + apply commit_owned; [ auto | ]. eapply same_ledger_owned; eassumption.
Qed.

Lemma run_owned arrivals s s' : owned s -> run arrivals s = Ok s' -> owned s'.
Proof.
  apply (run_invariant owned).
  - apply apply_snapshot_owned.
  - intros a x Hx. exact Hx.
  - intros x. apply same_ledger_owned.
    unfold maybe_publish, publish_snapshot, usleep.
    repeat (simpl; try break_match); repeat split.
Qed.

Lemma Net_ctor_owned sba w : owned (Net_ctor sba w).
Proof.
  unfold owned. rewrite Net_ctor_base.
  unfold Component_ctor, setup_udp, setup_bus, make_socket; simpl.
  repeat (match goal with
          | |- context [if ?x then _ else _] => destruct x
          end; simpl); constructor.
Qed.

(** X11.  In every state the run loop reaches from construction, each ledger
    entry is a belief of component NET that NET.tx_done or NET.rx_done is
    true: the instance never asserts a negative polarity or any other
    subject, its ledger never has more than two entries, and it never sends
    more than two belief envelopes. *)
Theorem ledger_has_at_most_two_beliefs :
  forall (sba : Z) (w : World)
         (arrivals : list (option Datagram * option Datagram)) (s : Net),
    beliefs_sent (w_outbox w) = [] ->
    run arrivals (Net_ctor sba w) = Ok s ->
    Forall net_belief (committed_ (base s)) /\
    (length (committed_ (base s)) <= 2)%nat /\
    (length (beliefs_sent (w_outbox (world s))) <= 2)%nat.
Proof.
  intros sba w arrivals s Hw H.
  pose proof (run_owned _ _ _ (Net_ctor_owned sba w) H) as Ho.
  pose proof (run_ledger_ok _ _ _ (Net_ctor_ledger_ok sba w Hw) H) as [Hnd Hs].
  assert (Hlen : (length (ledger_keys s) <= 2)%nat).
  { apply (NoDup_incl_length (l' := [("NET.tx_done", true); ("NET.rx_done", true)]));
      [ exact Hnd | ].
    intros k Hk. unfold ledger_keys in Hk. apply in_map_iff in Hk.
    destruct Hk as [b [<- Hb]].
    unfold owned in Ho. rewrite Forall_forall in Ho.
    destruct (Ho b Hb) as [_ [-> | ->]]; simpl; auto. }
  split; [ exact Ho | ]. split.
  - unfold ledger_keys in Hlen. rewrite length_map in Hlen. exact Hlen.
  - rewrite Hs. destruct (0 <=? udp_fd_ (base s)); [ exact Hlen | simpl; lia ].
Qed.

Lemma ledger_has_at_most_two_beliefs_witness :
  exists s,
    run three_requests (Net_ctor 5000 lab_world) = Ok s /\
    (length (committed_ (base s)) <= 2)%nat /\
    (length (beliefs_sent (w_outbox (world s))) <= 2)%nat.
Proof.
  exists (or_else (run three_requests (Net_ctor 5000 lab_world))
            (Net_ctor 5000 lab_world)).
  assert (H : run three_requests (Net_ctor 5000 lab_world)
              = Ok (or_else (run three_requests (Net_ctor 5000 lab_world))
                      (Net_ctor 5000 lab_world)))
    by (vm_compute; reflexivity).
  split; [ exact H | ].
  exact (proj2 (ledger_has_at_most_two_beliefs 5000 lab_world three_requests _
                  eq_refl H)).
Defined.

(** ** Transmission: the ways out of [do_tx] *)

(** X12.  A [tx_fire] with the driver absent or any of the three layers
    disabled is silent: [tx_done] is cleared and nothing else happens, not
    even an error is recorded. *)
Theorem tx_fire_gated_is_silent :
  forall s : Net,
    libnet_ s = None \/ eth_enabled (regs_ s) = false \/
    ip4_enabled (regs_ s) = false \/ icmp4_enabled (regs_ s) = false ->
    apply_snapshot tx_fire_patch s = Ok (reset_tx_done s) /\
    last_error (regs_ (reset_tx_done s)) = last_error (regs_ s) /\
    world (reset_tx_done s) = world s /\
    base (reset_tx_done s) = base s.
Proof.
  intros s H. rewrite apply_snapshot_tx_fire.
  split; [ | repeat split ].
  f_equal. unfold do_tx. cbn [reset_tx_done libnet_ with_regs_ regs_].
  destruct (libnet_ s) as [l | ]; [ | reflexivity ].
  cbn [eth_enabled ip4_enabled icmp4_enabled set_tx_done].
  destruct H as [H | [-> | [-> | ->]]]; [ discriminate H | | | ];
    cbn [negb orb]; rewrite ?orb_true_r; reflexivity.
Qed.

Lemma tx_fire_gated_is_silent_witness :
  apply_snapshot tx_fire_patch (Net_ctor 5000 lab_world)
    = Ok (reset_tx_done (Net_ctor 5000 lab_world)).
Proof.
  apply (tx_fire_gated_is_silent (Net_ctor 5000 lab_world)).
  left. vm_compute. reflexivity.
Defined.

(** X13.  With the driver live, the layers enabled and both hardware
    addresses accepted, a [tx_fire] whose source or destination address
    resolves to 0 stops before anything is built: [tx_done] stays clear,
    [last_error] says so, no frame is written, no datagram is sent and the
    sequence counter is not advanced. *)
Theorem tx_fire_rejects_null_ip :
  forall s : Net,
    is_live (libnet_ s) = true ->
    eth_enabled (regs_ s) = true ->
    ip4_enabled (regs_ s) = true ->
    icmp4_enabled (regs_ s) = true ->
    is_live (parse_mac (eth_src_mac (regs_ s))) = true ->
    is_live (parse_mac (eth_dst_mac (regs_ s))) = true ->
    w_name2addr4 (world s) (ip4_src (regs_ s)) = 0 \/
    w_name2addr4 (world s) (ip4_dst (regs_ s)) = 0 ->
    apply_snapshot tx_fire_patch s
      = Ok (set_error "invalid IP address" (reset_tx_done s)) /\
    world (set_error "invalid IP address" (reset_tx_done s)) = world s /\
    base (set_error "invalid IP address" (reset_tx_done s)) = base s /\
    libnet_ (set_error "invalid IP address" (reset_tx_done s)) = libnet_ s /\
    tx_done (regs_ (set_error "invalid IP address" (reset_tx_done s))) = false /\
    icmp4_seq (regs_ (set_error "invalid IP address" (reset_tx_done s)))
      = icmp4_seq (regs_ s).
Proof.
  intros s Hl He Hi Hc Hs Hd Hip. rewrite apply_snapshot_tx_fire.
  split; [ | repeat split ].
  f_equal. unfold do_tx. cbn [reset_tx_done libnet_ with_regs_ regs_ world].
  destruct (libnet_ s) as [l | ]; [ | discriminate Hl ].
  cbn [eth_enabled ip4_enabled icmp4_enabled eth_src_mac eth_dst_mac ip4_src
       ip4_dst set_tx_done].
  rewrite He, Hi, Hc. cbn [negb orb].
  destruct (parse_mac (eth_src_mac (regs_ s))); [ | discriminate Hs ].
  destruct (parse_mac (eth_dst_mac (regs_ s))); [ | discriminate Hd ].
  destruct Hip as [-> | ->]; cbn [Z.eqb orb]; rewrite ?orb_true_r; reflexivity.
Qed.

Lemma tx_fire_rejects_null_ip_witness :
  exists s',
    apply_snapshot tx_fire_patch null_ip_net = Ok s' /\
    last_error (regs_ s') = "invalid IP address" /\
    w_wire (world s') = [].
Proof.
  destruct (tx_fire_rejects_null_ip null_ip_net) as [H [Hw _]];
    try (vm_compute; reflexivity).
  - right. vm_compute. reflexivity.
  - eexists. split; [ exact H | ]. split; [ reflexivity | ].
    rewrite Hw. vm_compute. reflexivity.
Defined.

(** [do_tx] once every check before the write has passed. *)
Lemma do_tx_checked s l eth_src eth_dst :
  libnet_ s = Some l ->
  eth_enabled (regs_ s) = true ->
  ip4_enabled (regs_ s) = true ->
  icmp4_enabled (regs_ s) = true ->
  parse_mac (eth_src_mac (regs_ s)) = Some eth_src ->
  parse_mac (eth_dst_mac (regs_ s)) = Some eth_dst ->
  w_name2addr4 (world s) (ip4_src (regs_ s)) <> 0 ->
  w_name2addr4 (world s) (ip4_dst (regs_ s)) <> 0 ->
  let queued := mkLibnet (l_device l) (echo_frame s eth_src eth_dst ++ l_pblocks l) in
  let r' := set_icmp4_seq (cast_uint16 (icmp4_seq (regs_ s) + 1)) (regs_ s) in
  do_tx s =
    match w_write_error (world s) with
    | Some e => set_error e (with_libnet_ (Some queued) (with_regs_ r' s))
    | None =>
        commit "NET.tx_done" true (JObj [])
          (mkNet (base s) (Some (mkLibnet (l_device l) [])) (pcap_ s)
             (set_tx_done true r')
             (set_w_wire (w_wire (world s) ++ [l_pblocks queued]) (world s)))
    end.
Proof.
  intros Hl He Hi Hc Hs Hd Hsrc Hdst queued r'. subst queued r'.
  unfold do_tx, libnet_write, libnet_geterror, echo_frame.
  rewrite Hl, He, Hi, Hc, Hs, Hd. cbn [negb orb].
  apply Z.eqb_neq in Hsrc. apply Z.eqb_neq in Hdst. rewrite Hsrc, Hdst.
  cbn [orb].
  destruct (w_write_error (world s)) eqn:Ew; simpl; rewrite ?Ew; reflexivity.
Qed.

(** X14.  When every check passes and the link refuses the write, [tx_fire]
    leaves [tx_done] clear and puts the driver's text in [last_error];
    nothing reaches the wire, no belief is committed or sent.  The sequence
    counter has been advanced all the same, and the three blocks built for
    the frame stay queued in the driver context, because the packet is only
    cleared after a successful write. *)
Theorem tx_fire_write_failure :
  forall (s : Net) (l : libnet_t) (eth_src eth_dst : list Z) (e : string),
    libnet_ s = Some l ->
    eth_enabled (regs_ s) = true ->
    ip4_enabled (regs_ s) = true ->
    icmp4_enabled (regs_ s) = true ->
    parse_mac (eth_src_mac (regs_ s)) = Some eth_src ->
    parse_mac (eth_dst_mac (regs_ s)) = Some eth_dst ->
    w_name2addr4 (world s) (ip4_src (regs_ s)) <> 0 ->
    w_name2addr4 (world s) (ip4_dst (regs_ s)) <> 0 ->
    w_write_error (world s) = Some e ->
    exists s',
      apply_snapshot tx_fire_patch s = Ok s' /\
      tx_done (regs_ s') = false /\
      last_error (regs_ s') = e /\
      world s' = world s /\
      base s' = base s /\
      icmp4_seq (regs_ s') = cast_uint16 (icmp4_seq (regs_ s) + 1) /\
      libnet_ s'
        = Some (mkLibnet (l_device l)
                  (echo_frame s eth_src eth_dst ++ l_pblocks l)).
Proof.
  intros s l eth_src eth_dst e Hl He Hi Hc Hs Hd Hsrc Hdst Hw.
  rewrite apply_snapshot_tx_fire.
  rewrite (do_tx_checked (reset_tx_done s) l eth_src eth_dst)
    by assumption.
  cbn [reset_tx_done world with_regs_]. rewrite Hw.
  eexists. split; [ reflexivity | ]. repeat split.
Qed.

Lemma tx_fire_write_failure_witness :
  exists s',
    apply_snapshot tx_fire_patch link_down_net = Ok s' /\
    tx_done (regs_ s') = false /\
    last_error (regs_ s')
      = "libnet_write_link(): only -1 bytes written (Network is down)" /\
    icmp4_seq (regs_ s') = 1.
Proof.
  destruct (tx_fire_write_failure link_down_net (mkLibnet "eno1" [])
              [170; 187; 204; 221; 238; 255] [17; 34; 51; 68; 85; 102]
              "libnet_write_link(): only -1 bytes written (Network is down)")
    as [s' [H1 [H2 [H3 [_ [_ [H6 _]]]]]]];
    try (vm_compute; reflexivity); try (vm_compute; discriminate).
  exists s'. split; [ exact H1 | ]. split; [ exact H2 | ].
  split; [ exact H3 | ]. rewrite H6. vm_compute. reflexivity.
Defined.

(** X15.  When every check passes, nothing is left queued in the driver and
    the link takes the write, [tx_fire] puts exactly one frame on the wire:
    Ethernet over IPv4 over the echo request, the IPv4 length being 28 plus
    the payload length, the echo request carrying the sequence number the
    register held.  Afterwards the register holds that number plus one
    modulo 65536, [tx_done] is set, the driver context is empty again,
    [last_error] is as it was, and NET.tx_done = true is in the ledger. *)
Theorem tx_fire_writes_one_frame :
  forall (s : Net) (l : libnet_t) (eth_src eth_dst : list Z),
    libnet_ s = Some l ->
    l_pblocks l = [] ->
    eth_enabled (regs_ s) = true ->
    ip4_enabled (regs_ s) = true ->
    icmp4_enabled (regs_ s) = true ->
    parse_mac (eth_src_mac (regs_ s)) = Some eth_src ->
    parse_mac (eth_dst_mac (regs_ s)) = Some eth_dst ->
    w_name2addr4 (world s) (ip4_src (regs_ s)) <> 0 ->
    w_name2addr4 (world s) (ip4_dst (regs_ s)) <> 0 ->
    w_write_error (world s) = None ->
    exists s',
      apply_snapshot tx_fire_patch s = Ok s' /\
      w_wire (world s') = w_wire (world s) ++ [echo_frame s eth_src eth_dst] /\
      icmp4_seq (regs_ s') = (icmp4_seq (regs_ s) + 1) mod 65536 /\
      tx_done (regs_ s') = true /\
      libnet_ s' = Some (mkLibnet (l_device l) []) /\
      last_error (regs_ s') = last_error (regs_ s) /\
      In ("NET.tx_done", true) (ledger_keys s').
Proof.
  intros s l eth_src eth_dst Hl Hq He Hi Hc Hs Hd Hsrc Hdst Hw.
  rewrite apply_snapshot_tx_fire.
  rewrite (do_tx_checked (reset_tx_done s) l eth_src eth_dst)
    by assumption.
  cbn [reset_tx_done world with_regs_]. rewrite Hw.
  eexists. split; [ reflexivity | ].
  match goal with
  | |- context [commit ?subj ?pol ?ctx ?a] =>
      destruct (commit_frame subj pol ctx a) as [Cr [Cl [_ [_ [_ [Cw _]]]]]];
      pose proof (commit_in_ledger subj pol ctx a eq_refl) as Hin
  end.
  rewrite Cr, Cl, Cw.
  split; [ cbn [world w_wire set_w_wire l_pblocks]; rewrite Hq, app_nil_r;
           reflexivity | ].
  repeat split. exact Hin.
Qed.

Lemma tx_fire_writes_one_frame_witness :
  exists s',
    apply_snapshot tx_fire_patch last_seq_net = Ok s' /\
    w_wire (world s')
      = [[Ethernet [17; 34; 51; 68; 85; 102] [170; 187; 204; 221; 238; 255] 2048;
          Ipv4 32 0 1234 0 64 1 0 167772161 167772162;
          IcmpEcho 8 0 0 4660 65535 "ping"]] /\
    icmp4_seq (regs_ s') = 0.
Proof.
  destruct (tx_fire_writes_one_frame last_seq_net (mkLibnet "eno1" [])
              [170; 187; 204; 221; 238; 255] [17; 34; 51; 68; 85; 102])
    as [s' [H1 [H2 [H3 _]]]];
    try (vm_compute; reflexivity); try (vm_compute; discriminate).
  exists s'. split; [ exact H1 | ].
  split; [ rewrite H2 | rewrite H3 ]; vm_compute; reflexivity.
Defined.

(** ** Capture: the ways out of [do_rx] *)

(** X16.  An [rx_fire] that finds no frame (no capture, an empty buffer, a
    timeout, an error or a break) clears [rx_done] and changes no other
    register: the lengths of the last frame stay, and a capture error is not
    recorded in [last_error].  Nothing is committed or sent.  The poll takes
    at most the one event at the head of the buffer. *)
Theorem rx_fire_without_frame_is_silent :
  forall s : Net,
    no_frame s = true ->
    exists s',
      apply_snapshot rx_fire_patch s = Ok s' /\
      regs_ s' = set_rx_done false (regs_ s) /\
      base s' = base s /\
      pcap_ s' = pcap_ s /\ libnet_ s' = libnet_ s /\
      w_outbox (world s') = w_outbox (world s) /\
      w_wire (world s') = w_wire (world s) /\
      w_capture (world s')
        = (if is_live (pcap_ s) then tl (w_capture (world s))
           else w_capture (world s)).
Proof.
  intros s H. rewrite apply_snapshot_rx_fire. eexists. split; [ reflexivity | ].
  unfold no_frame in H. unfold do_rx, reset_rx_done, pcap_next_ex.
  cbn [pcap_ with_regs_ world].
  destruct (pcap_ s) as [p | ] eqn:Ep; [ | simpl; rewrite Ep; repeat split ].
  destruct (w_capture (world s)) as [ | [h | | | ] rest] eqn:Ec;
    try discriminate H; simpl; rewrite Ep, ?Ec; repeat split.
Qed.

Lemma rx_fire_without_frame_is_silent_witness :
  exists s',
    apply_snapshot rx_fire_patch capture_error_net = Ok s' /\
    rx_done (regs_ s') = false /\
    last_error (regs_ s') = "" /\
    w_capture (world s') = [PcapPacket echo_reply].
Proof.
  destruct (rx_fire_without_frame_is_silent capture_error_net eq_refl)
    as [s' [H1 [H2 [_ [_ [_ [_ [_ H8]]]]]]]].
  exists s'. split; [ exact H1 | ]. rewrite H2, H8.
  vm_compute. repeat split.
Defined.

Lemma do_rx_packet s p h rest :
  pcap_ s = Some p ->
  w_capture (world s) = PcapPacket h :: rest ->
  do_rx s =
    commit "NET.rx_done" true (rx_context h)
      (with_regs_
         (set_rx_caplen (caplen h) (set_rx_len (len h) (set_rx_done true (regs_ s))))
         (with_world (set_w_capture rest (world s)) s)).
Proof.
  intros Hp Hc. unfold do_rx, pcap_next_ex. rewrite Hp, Hc. reflexivity.
Qed.

(** X17.  Of two frames captured by two [rx_fire] snapshots, the registers
    end up describing the second, but the sink only ever hears of the first:
    the one belief envelope sent carries the lengths of the first frame, and
    the second capture adds nothing to the ledger or the outbox.  The
    context of the belief, in the ledger and in the envelope, has its
    members in key order, [rx_caplen] before [rx_len], not in the order
    [do_rx] wrote them. *)
Theorem second_capture_is_not_reported :
  forall (s : Net) (p : pcap_t) (h1 h2 : pcap_pkthdr) (rest : list pcap_result),
    pcap_ s = Some p ->
    w_capture (world s) = PcapPacket h1 :: PcapPacket h2 :: rest ->
    ~ In ("NET.rx_done", true) (ledger_keys s) ->
    0 <= udp_fd_ (base s) ->
    exists s1 s2,
      apply_snapshot rx_fire_patch s = Ok s1 /\
      apply_snapshot rx_fire_patch s1 = Ok s2 /\
      rx_len (regs_ s2) = len h2 /\
      rx_caplen (regs_ s2) = caplen h2 /\
      rx_done (regs_ s2) = true /\
      committed_ (base s2)
        = committed_ (base s)
            ++ [mkBelief "NET" "NET.rx_done" true (stored_rx_context h1)] /\
      w_outbox (world s2)
        = w_outbox (world s)
            ++ [mkSent (udp_fd_ (base s)) (mkSockaddr INADDR_LOOPBACK BLS_PORT)
                  (belief_envelope
                     (mkBelief "NET" "NET.rx_done" true (stored_rx_context h1)))].
Proof.
  intros s p h1 h2 rest Hp Hc Hfresh Hfd.
  exists (do_rx (reset_rx_done s)),
    (do_rx (reset_rx_done (do_rx (reset_rx_done s)))).
  split; [ apply apply_snapshot_rx_fire | ].
  split; [ apply apply_snapshot_rx_fire | ].
  rewrite (do_rx_packet (reset_rx_done s) p h1 (PcapPacket h2 :: rest) Hp Hc).
  match goal with
  | |- context [commit ?subj ?pol ?ctx ?a] =>
      set (a1 := a);
      destruct (commit_frame subj pol ctx a1) as [Cr [Cl [Cp [_ [_ [_ _]]]]]];
      pose proof (commit_in_ledger subj pol ctx a1 eq_refl) as Hin;
      destruct (commit_cases subj pol ctx a1) as [[_ [Hf | Hold]] | [_ [_ Hc1]]]
  end.
  - discriminate Hf.
  - exfalso. apply Hfresh. exact Hold.
  - remember (commit "NET.rx_done" true (rx_context h1) a1) as s1 eqn:Es1.
    clear Es1.
    assert (Hcap : w_capture (world s1) = PcapPacket h2 :: rest).
    { rewrite Hc1. unfold send_json, sendto. subst a1. simpl.
      destruct (0 <=? udp_fd_ (base s)); reflexivity. }
    assert (Hp1 : pcap_ (reset_rx_done s1) = Some p)
      by (cbn [reset_rx_done pcap_ with_regs_]; rewrite Cp; exact Hp).
    rewrite (do_rx_packet (reset_rx_done s1) p h2 rest Hp1 Hcap).
    match goal with
    | |- context [commit ?subj ?pol ?ctx ?a] =>
        rewrite (commit_known subj pol ctx a) by exact Hin
    end.
    cbn [regs_ with_regs_ with_world reset_rx_done base world rx_len rx_caplen
         rx_done set_rx_caplen set_rx_len set_rx_done w_outbox set_w_capture].
    split; [ reflexivity | ]. split; [ reflexivity | ]. split; [ reflexivity | ].
    rewrite Hc1. unfold send_json, sendto. subst a1.
    cbn [base with_base with_regs_ with_world udp_fd_ set_committed_ world
         committed_ reset_rx_done].
    destruct (0 <=? udp_fd_ (base s)) eqn:E; [ | apply Z.leb_gt in E; lia ].
    split; reflexivity.
Qed.

Lemma second_capture_is_not_reported_witness :
  exists s1 s2,
    apply_snapshot rx_fire_patch two_frames_net = Ok s1 /\
    apply_snapshot rx_fire_patch s1 = Ok s2 /\
    rx_len (regs_ s2) = 1514 /\
    map sent_doc (w_outbox (world s2))
      = [JObj [("belief",
                JObj [("component", JStr "NET");
                      ("subject", JStr "NET.rx_done");
                      ("polarity", JBool true);
                      ("context",
                       JObj [("rx_caplen", JNum 98); ("rx_len", JNum 98)])])]].
Proof.
  destruct (second_capture_is_not_reported two_frames_net
              (mkPcap "eno1" 65535 true 10 None) echo_reply short_frame [])
    as [s1 [s2 [H1 [H2 [H3 [_ [_ [_ H7]]]]]]]];
    try (vm_compute; reflexivity).
  - vm_compute. tauto.
  - vm_compute. discriminate.
  - exists s1, s2. split; [ exact H1 | ]. split; [ exact H2 | ].
    split; [ rewrite H3; reflexivity | ]. rewrite H7. vm_compute. reflexivity.
Defined.

(** ** Several triggers in one snapshot *)

Lemma when_set_true j key action s :
  value j key false = Ok true -> when_set j key action s = Ok (action s).
Proof. unfold when_set. intros ->. reflexivity. Qed.

Lemma quiet_lifecycle k s0 a :
  quiet k s0 a ->
  quiet k s0 (do_libnet_create a) /\ quiet k s0 (do_libnet_destroy a) /\
  quiet k s0 (do_pcap_create a) /\ quiet k s0 (do_pcap_destroy a).
Proof.
  unfold quiet. intros <-. destruct k; repeat split; by_cases; reflexivity.
Qed.

Lemma idle_after_destroy k s0 a :
  quiet k s0 a -> idle k s0 (destroy k a).
Proof.
  unfold quiet, idle. intros <-. split; [ apply destroy_makes_absent | ].
  destruct k; cbn [destroy]; by_cases; reflexivity.
Qed.

Lemma idle_stays k s0 a :
  idle k s0 a ->
  idle k s0 (set_filter a) /\
  idle k s0 (snd (reply_json (serialize_registers a) a)) /\
  idle k s0 (reset_tx_done a) /\ idle k s0 (reset_rx_done a) /\
  idle k s0 (do_tx a) /\ idle k s0 (do_rx a) /\
  (k = Transmit -> idle k s0 (do_pcap_create a) /\ idle k s0 (do_pcap_destroy a)).
Proof.
  unfold idle. intros [Hl <-].
  destruct k; cbn [live traffic] in *;
    repeat match goal with
           | |- _ /\ _ => split
           | |- _ -> _ => intros ?
           end;
    try congruence;
    by_cases;
    first [ finish_accounted
          | repeat match goal with
                   | H : ?x = None |- context [?x] => rewrite H
                   end; reflexivity ].
Qed.

(** X18.  A snapshot that sets the destroy trigger of a driver leaves that
    driver absent whatever else it sets: the create trigger of the same
    driver in the same snapshot is undone, and a fire in the same snapshot
    finds the driver absent, so no frame is written (transmit) and no event
    is polled (capture) during that snapshot. *)
Theorem destroy_wins_within_a_snapshot :
  forall (k : Resource) (j : json) (s s' : Net),
    value j (destroy_key k) false = Ok true ->
    apply_snapshot j s = Ok s' ->
    live k s' = false /\ traffic k s' = traffic k s.
Proof.
  intros k j s s' Hd H.
  unfold apply_snapshot in H. do 4 split_bind H.
  assert (Q0 : quiet k s s0).
  { apply apply_configuration_config_only in Hstep.
    destruct Hstep as [_ [_ [_ [Hw _]]]]. unfold quiet.
    destruct k; cbn [traffic]; rewrite Hw; reflexivity. }
  assert (I1 : idle k s s1).
  { unfold apply_lifecycle in Hstep0. do 3 split_bind Hstep0.
    apply when_set_cases in Hstep3.
    assert (Q1 : quiet k s s4)
      by (destruct Hstep3 as [-> | ->]; [ exact Q0 | apply quiet_lifecycle, Q0 ]).
    destruct k; cbn [destroy_key] in Hd.
    - rewrite (when_set_true _ _ _ _ Hd) in Hstep4. injection Hstep4 as <-.
      pose proof (idle_after_destroy Transmit s s4 Q1) as I5.
      apply when_set_cases in Hstep5. apply when_set_cases in Hstep0.
      assert (I6 : idle Transmit s s6).
      { destruct Hstep5 as [-> | ->]; [ exact I5 | ].
        destruct (idle_stays Transmit s _ I5) as [_ [_ [_ [_ [_ [_ Hp]]]]]].
        apply (Hp eq_refl). }
      destruct Hstep0 as [-> | ->]; [ exact I6 | ].
      destruct (idle_stays Transmit s _ I6) as [_ [_ [_ [_ [_ [_ Hp]]]]]].
      apply (Hp eq_refl).
    - apply when_set_cases in Hstep4. apply when_set_cases in Hstep5.
      assert (Q2 : quiet Capture s s5)
        by (destruct Hstep4 as [-> | ->]; [ exact Q1 | apply quiet_lifecycle, Q1 ]).
      assert (Q3 : quiet Capture s s6)
        by (destruct Hstep5 as [-> | ->]; [ exact Q2 | apply quiet_lifecycle, Q2 ]).
      rewrite (when_set_true _ _ _ _ Hd) in Hstep0. injection Hstep0 as <-.
      apply (idle_after_destroy Capture s s6 Q3). }
  assert (I2 : idle k s s2).
  { apply when_set_cases in Hstep1.
    destruct Hstep1 as [-> | ->]; [ exact I1 | ].
    exact (proj1 (idle_stays k s s1 I1)). }
  assert (I3 : idle k s s3).
  { unfold apply_read in Hstep2. apply when_set_cases in Hstep2.
    destruct Hstep2 as [-> | ->]; [ exact I2 | ].
    exact (proj1 (proj2 (idle_stays k s s2 I2))). }
  apply (apply_actions_invariant (idle k s)) with (j := j) (s := s3);
    try assumption; intros a Ha;
    destruct (idle_stays k s a Ha) as [_ [_ [T [R [X [D _]]]]]]; assumption.
Qed.

Lemma destroy_wins_within_a_snapshot_witness :
  exists s',
    apply_snapshot create_and_destroy_patch ready_net = Ok s' /\
    live Transmit s' = false /\ live Capture s' = false /\
    w_wire (world s') = [] /\ tx_done (regs_ s') = false.
Proof.
  exists (or_else (apply_snapshot create_and_destroy_patch ready_net) ready_net).
  assert (H : apply_snapshot create_and_destroy_patch ready_net
              = Ok (or_else (apply_snapshot create_and_destroy_patch ready_net)
                      ready_net))
    by (vm_compute; reflexivity).
  destruct (destroy_wins_within_a_snapshot Transmit create_and_destroy_patch
              _ _ eq_refl H) as [H1 _].
  destruct (destroy_wins_within_a_snapshot Capture create_and_destroy_patch
              _ _ eq_refl H) as [H2 _].
  split; [ exact H | ]. split; [ exact H1 | ]. split; [ exact H2 | ].
  split; vm_compute; reflexivity.
Defined.

(** ** The capture filter *)

(** X19.  The filter is compiled and installed only on a live capture, from
    the register as the same snapshot has just set it: one snapshot that
    sets the expression, creates the capture and asks for the filter gets a
    capture with that filter, even when its members come in the opposite
    order.  On an
    absent capture, with an empty expression, or with an expression the
    compiler rejects, the request changes nothing and records no error. *)
Theorem filter_needs_a_live_capture :
  forall (s : Net) (expr : string),
    (pcap_ s = None ->
     w_pcap_open_live (world s) (pcap_device (regs_ s)) = None ->
     expr <> "" ->
     w_bpf_ok (world s) expr = true ->
     exists s',
       apply_snapshot (filtered_capture_patch expr) s = Ok s' /\
       pcap_ s' = Some (mkPcap (pcap_device (regs_ s)) (snaplen (regs_ s))
                          (promisc (regs_ s)) (timeout_ms (regs_ s))
                          (Some expr))) /\
    (pcap_ s = None \/ pcap_filter (regs_ s) = "" \/
     w_bpf_ok (world s) (pcap_filter (regs_ s)) = false ->
     apply_snapshot set_filter_patch s = Ok s).
Proof.
  intros s expr. split.
  - intros Hp Ho He Hb.
    change (apply_snapshot (filtered_capture_patch expr) s)
      with (Ok (set_filter
                  (do_pcap_create
                     (with_regs_ (set_pcap_filter expr (regs_ s)) s)))).
    eexists. split; [ reflexivity | ].
    unfold set_filter, do_pcap_create, pcap_open_live.
    cbn [pcap_ with_regs_ regs_ world pcap_device snaplen promisc timeout_ms
         set_pcap_filter].
    rewrite Hp, Ho. simpl.
    apply String.eqb_neq in He. rewrite He, Hb. reflexivity.
  - intros H.
    change (apply_snapshot set_filter_patch s) with (Ok (set_filter s)).
    f_equal. unfold set_filter.
    destruct (pcap_ s) as [p | ]; [ | reflexivity ].
    destruct H as [H | [-> | ->]]; [ discriminate H | reflexivity | ].
    destruct (String.eqb _ _); reflexivity.
Qed.

Lemma filter_needs_a_live_capture_witness :
  (exists s',
      apply_snapshot (filtered_capture_patch "icmp") (Net_ctor 5000 lab_world)
        = Ok s' /\
      pcap_ s' = Some (mkPcap "eno1" 65535 true 10 (Some "icmp"))) /\
  apply_snapshot set_filter_patch ready_net = Ok ready_net.
Proof.
  destruct (filter_needs_a_live_capture (Net_ctor 5000 lab_world) "icmp")
    as [H _].
  destruct (filter_needs_a_live_capture ready_net "") as [_ H'].
  split.
  - destruct H as [s' [H1 H2]]; try reflexivity; try discriminate.
    exists s'. split; [ exact H1 | exact H2 ].
  - apply H'. right. left. vm_compute. reflexivity.
Defined.

(** ** Destruction *)

(** X21.  The destructor leaves both drivers absent, and when the instance
    held every handle the drivers had open for it, none is open afterwards.
    It changes neither the registers nor the ledger and sends nothing. *)
Theorem destructor_releases_both_drivers :
  forall s : Net,
    accounted Transmit s -> accounted Capture s ->
    libnet_ (Net_dtor s) = None /\ pcap_ (Net_dtor s) = None /\
    w_libnet_open (world (Net_dtor s)) = 0%nat /\
    w_pcap_open (world (Net_dtor s)) = 0%nat /\
    regs_ (Net_dtor s) = regs_ s /\ base (Net_dtor s) = base s /\
    w_outbox (world (Net_dtor s)) = w_outbox (world s).
Proof.
  intros s Ht Hc. unfold accounted in Ht, Hc. cbn [open_handles live] in Ht, Hc.
  unfold Net_dtor, do_libnet_destroy, do_pcap_destroy, libnet_destroy_ctx,
    pcap_close.
  destruct (pcap_ s) as [p | ] eqn:Ep; destruct (libnet_ s) as [l | ] eqn:El;
    simpl; rewrite ?Ep, ?El; simpl; rewrite ?Ht, ?Hc; repeat split;
    simpl in *; try assumption; try reflexivity.
Qed.

Lemma destructor_releases_both_drivers_witness :
  w_libnet_open (world ready_net) = 1%nat /\
  w_pcap_open (world ready_net) = 1%nat /\
  libnet_ (Net_dtor ready_net) = None /\
  w_libnet_open (world (Net_dtor ready_net)) = 0%nat /\
  w_pcap_open (world (Net_dtor ready_net)) = 0%nat.
Proof.
  destruct (destructor_releases_both_drivers ready_net eq_refl eq_refl)
    as [H1 [_ [H3 [H4 _]]]].
  split; [ reflexivity | ]. split; [ reflexivity | ].
  split; [ exact H1 | ]. split; [ exact H3 | exact H4 ].
Defined.

(** ** What the instance sends *)

Lemma same_ledger_sent_ok s s' : same_ledger s s' -> sent_ok s -> sent_ok s'.
Proof. intros [_ [Hf Ho]]. unfold sent_ok. rewrite Hf, Ho. auto. Qed.

Lemma commit_sent_ok subj pol ctx s : sent_ok s -> sent_ok (commit subj pol ctx s).
Proof.
  intros Hs.
  destruct (commit_cases subj pol ctx s) as [[-> _] | [_ [_ ->]]]; [ exact Hs | ].
  unfold sent_ok, send_json, sendto in *. simpl.
  destruct (0 <=? udp_fd_ (base s)); simpl; [ | exact Hs ].
  apply Forall_app. split; [ exact Hs | ].
  constructor; [ | constructor ].
  split; [ reflexivity | left ]. eexists. split; reflexivity.
Qed.

Lemma reply_sent_ok s :
  sent_ok s -> sent_ok (snd (reply_json (serialize_registers s) s)).
Proof.
  intros Hs. unfold sent_ok, reply_json, sendto in *.
  destruct (has_sender_ (base s)); simpl; [ | exact Hs ].
  destruct (0 <=? udp_fd_ (base s)); simpl; [ | exact Hs ].
  apply Forall_app. split; [ exact Hs | ].
  constructor; [ | constructor ].
  split; [ reflexivity | right ]. eexists. reflexivity.
Qed.

Lemma apply_snapshot_sent_ok j s s' :
  sent_ok s -> apply_snapshot j s = Ok s' -> sent_ok s'.
Proof.
  apply apply_snapshot_invariant.
  - intros a b [Hb [_ [_ [Hw _]]]]. unfold sent_ok. rewrite Hb, Hw. auto.
  - intros a. apply same_ledger_sent_ok. same_ledger_cases; repeat split.
  - intros a. apply same_ledger_sent_ok. same_ledger_cases; repeat split.
  - intros a. apply same_ledger_sent_ok. same_ledger_cases; repeat split.
  - intros a. apply same_ledger_sent_ok. same_ledger_cases; repeat split.
  - intros a. apply same_ledger_sent_ok. same_ledger_cases; repeat split.
  - apply reply_sent_ok.
  - intros a. apply same_ledger_sent_ok. repeat split.
  - intros a. apply same_ledger_sent_ok. repeat split.
  - intros a Ha. destruct (do_tx_shape a) as [s1 [Hs [-> | ->]]].
    + eapply same_ledger_sent_ok; eassumption.
    + apply commit_sent_ok. eapply same_ledger_sent_ok; eassumption.
  - intros a Ha. destruct (do_rx_shape a) as [s1 [ctx [Hs [-> | ->]]]].
    + eapply same_ledger_sent_ok; eassumption.
    + apply commit_sent_ok. eapply same_ledger_sent_ok; eassumption.
Qed.

Lemma Net_ctor_sent_ok sba w : w_outbox w = [] -> sent_ok (Net_ctor sba w).
Proof.
  intros Hw. unfold sent_ok, Net_ctor, Component_ctor, setup_udp, setup_bus,
    make_socket.
  repeat (simpl; try break_match);
    repeat match goal with H : (_, _) = (_, _) |- _ => injection H as <- <- end;
    simpl; rewrite ?Hw; constructor.
Qed.

(** X22.  Whatever arrives, everything an instance sends leaves through its
    private socket and is either a belief envelope addressed to the sink or
    a register serialization answering a read: it never sends a status
    envelope, to the bus or anywhere else. *)
Theorem only_beliefs_and_replies_are_sent :
  forall (sba : Z) (w : World)
         (arrivals : list (option Datagram * option Datagram)) (s : Net)
         (m : Sent),
    w_outbox w = [] ->
    run arrivals (Net_ctor sba w) = Ok s ->
    In m (w_outbox (world s)) ->
    sent_fd m = udp_fd_ (base s) /\
    (is_belief_envelope m \/ is_read_reply m).
Proof.
  intros sba w arrivals s m Hw H Hm.
  assert (Hs : sent_ok s).
  { apply (run_invariant sent_ok) with (arrivals := arrivals)
                                        (s := Net_ctor sba w).
    - apply apply_snapshot_sent_ok.
    - intros a x Hx. exact Hx.
    - intros x. apply same_ledger_sent_ok.
      unfold maybe_publish, publish_snapshot, usleep.
      repeat (simpl; try break_match); repeat split.
    - apply Net_ctor_sent_ok. exact Hw.
    - exact H. }
  unfold sent_ok in Hs. rewrite Forall_forall in Hs. apply Hs. exact Hm.
Qed.

Lemma only_beliefs_and_replies_are_sent_witness :
  In (mkSent 3 operator (serialize_registers fired_once))
    (w_outbox (world (or_else (run busy_day (Net_ctor 5000 lab_world))
                        (Net_ctor 5000 lab_world)))) /\
  (is_belief_envelope (mkSent 3 operator (serialize_registers fired_once)) \/
   is_read_reply (mkSent 3 operator (serialize_registers fired_once))).
Proof.
  assert (Hin : In (mkSent 3 operator (serialize_registers fired_once))
                  (w_outbox (world (or_else (run busy_day (Net_ctor 5000 lab_world))
                                      (Net_ctor 5000 lab_world)))))
    by (vm_compute; right; left; reflexivity).
  split; [ exact Hin | ].
  refine (proj2 (only_beliefs_and_replies_are_sent 5000 lab_world busy_day
                   _ _ _ _ Hin)).
  - vm_compute. reflexivity.
  - vm_compute. reflexivity.
Defined.

(** ** The bus as a second control channel *)

(** X23.  A document taken from the bus socket is applied exactly as a
    snapshot is, triggers included; one taken from the private socket is
    applied after its sender has been recorded.  [on_message] adds nothing
    to either. *)
Theorem poll_socket_applies_the_document :
  forall (fd : Z) (d : Datagram) (j : json) (s : Net),
    0 <= fd ->
    dg_bytes d <> "" ->
    dg_parse d = Some j ->
    poll_socket fd (Some d) false s = apply_snapshot j s /\
    poll_socket fd (Some d) true s
      = apply_snapshot j
          (with_base (set_has_sender_ true
                        (set_last_sender_ (dg_sender d) (base s))) s).
Proof.
  intros fd d j s Hfd Hb Hp. unfold poll_socket, recvfrom.
  destruct (fd <? 0) eqn:E; [ apply Z.ltb_lt in E; lia | ].
  destruct (Z.of_nat (String.length (dg_bytes d)) <=? 0) eqn:El.
  { apply Z.leb_le in El. destruct (dg_bytes d) as [ | c rest]; [ congruence | ].
    change (String.length (String c rest)) with (S (String.length rest)) in El.
    lia. }
  rewrite Hp. unfold on_message.
  split; match goal with
         | |- bind ?m _ = _ => destruct m; reflexivity
         end.
Qed.

Lemma poll_socket_applies_the_document_witness :
  exists s',
    poll_socket 4 (Some (mkDatagram stranger "x" (Some tx_fire_patch))) false
      ready_net = Ok s' /\
    tx_done (regs_ s') = true /\ length (w_wire (world s')) = 1%nat /\
    has_sender_ (base s') = false.
Proof.
  destruct (poll_socket_applies_the_document 4
              (mkDatagram stranger "x" (Some tx_fire_patch)) tx_fire_patch
              ready_net) as [H _].
  - vm_compute. discriminate.
  - vm_compute. discriminate.
  - vm_compute. reflexivity.
  - exists fired_once. rewrite H. vm_compute. repeat split.
Defined.

(** ** Hardware addresses: what [parse_mac] lets through *)

Lemma scan_digits_step c d rest acc count :
  hex_digit c = Some d ->
  scan_digits (String c rest) acc count = scan_digits rest (acc * 16 + d) (S count).
Proof. intros H. cbn [scan_digits]. rewrite H. reflexivity. Qed.

Lemma scan_digits_stop t acc count :
  ends_number t = true -> scan_digits t acc count = (acc, count, t).
Proof.
  destruct t as [ | c rest]; [ reflexivity | ].
  cbn [ends_number scan_digits]. destruct (hex_digit c); [ discriminate | reflexivity ].
Qed.

Lemma scan_hex_hex2_then b t :
  0 <= b < 256 -> ends_number t = true ->
  scan_hex (hex2 b ++ t) = Some (b, t).
Proof.
  intros Hb Ht. revert b Hb.
  apply (byte_cases (fun b => scan_hex (hex2 b ++ t) = Some (b, t))).
  intros n Hn.
  do 256 (destruct n as [ | n];
          [ unfold scan_hex; lazy -[scan_digits cast_uint32 strtoul_value];
            do 2 (erewrite scan_digits_step by (vm_compute; reflexivity));
            rewrite scan_digits_stop by exact Ht;
            vm_compute; reflexivity | ]).
  lia.
Qed.

Lemma hex2_app b y z : ((hex2 b ++ y) ++ z = hex2 b ++ (y ++ z))%string.
Proof. reflexivity. Qed.

Lemma colon_app y z : (String ":" y ++ z = String ":" (y ++ z))%string.
Proof. reflexivity. Qed.

(** X24.  [parse_mac] does not look past the sixth field: an address as
    [mac_to_string] prints it, followed by any text that does not go on with
    a hexadecimal digit, is accepted as that address. *)
Theorem parse_mac_ignores_what_follows :
  forall (a b c d e f : Z) (t : string),
    0 <= a < 256 -> 0 <= b < 256 -> 0 <= c < 256 ->
    0 <= d < 256 -> 0 <= e < 256 -> 0 <= f < 256 ->
    ends_number t = true ->
    parse_mac (mac_to_string [a; b; c; d; e; f] ++ t) = Some [a; b; c; d; e; f].
Proof.
  intros a b c d e f t Ha Hb Hc Hd He Hf Ht.
  unfold parse_mac, mac_to_string. cbn [nth].
  rewrite !hex2_app, !colon_app.
  repeat rewrite ?hex2_app, ?colon_app.
  rewrite !scan_mac_step by assumption.
  cbn [scan_mac]. rewrite (scan_hex_hex2_then f t Hf Ht).
  cbn [option_map map]. unfold cast_uint8.
  rewrite !Z.mod_small by lia. reflexivity.
Qed.

Lemma parse_mac_ignores_what_follows_witness :
  parse_mac "00:1a:2b:3c:4d:ff:00:11 and more" = Some [0; 26; 43; 60; 77; 255].
Proof.
  apply (parse_mac_ignores_what_follows 0 26 43 60 77 255 ":00:11 and more");
    try lia.
  vm_compute. reflexivity.
Defined.
